(** * Task service: query engine, mutation engine, bulk coordinator,
      statistics and import validation

    A shallow embedding of [backend/services/task_service.py] and
    [backend/services/import_service.py].  Python [int] is [Z], [str] is
    [string] (one character per code point below 256), [Optional] is
    [option], a raised exception is an explicit outcome, and the SQLModel
    session is an explicit state threaded through every call. *)

From Stdlib Require Import ZArith NArith List String Ascii Bool Lia.
Import ListNotations.

Local Open Scope string_scope.
Local Open Scope list_scope.
Local Open Scope Z_scope.

(** ** Python string primitives used by the services *)

Module Py.

(** [str.isspace] on one code point below 256. *)
Definition isspace (c : ascii) : bool :=
  let n := N_of_ascii c in
  (((9 <=? n) && (n <=? 13)) || ((28 <=? n) && (n <=? 32))
   || (n =? 133) || (n =? 160))%N.

(** [str.lower] on one code point below 256: A-Z and the Latin-1
    capitals move up by 32, everything else is kept. *)
Definition lower_char (c : ascii) : ascii :=
  let n := N_of_ascii c in
  if (((65 <=? n) && (n <=? 90))
      || ((192 <=? n) && (n <=? 222) && negb (n =? 215)))%N
  then ascii_of_N (n + 32) else c.

Fixpoint lower (s : string) : string :=
  match s with
  | EmptyString => EmptyString
  | String c r => String (lower_char c) (lower r)
  end.

Fixpoint lstrip (s : string) : string :=
  match s with
  | EmptyString => EmptyString
  | String c r => if isspace c then lstrip r else s
  end.

Fixpoint rstrip (s : string) : string :=
  match s with
  | EmptyString => EmptyString
  | String c r =>
      match rstrip r with
      | EmptyString => if isspace c then EmptyString else String c EmptyString
      | r' => String c r'
      end
  end.

Definition strip (s : string) : string := rstrip (lstrip s).

Definition len (s : string) : Z := Z.of_nat (String.length s).

(** [s.split(sep)] for a one-character separator: never the empty list. *)
Fixpoint split (sep : ascii) (s : string) : list string :=
  match s with
  | EmptyString => [EmptyString]
  | String c r =>
      if Ascii.eqb c sep then EmptyString :: split sep r
      else match split sep r with
           | [] => [String c EmptyString]
           | h :: t => String c h :: t
           end
  end.

(** [s.replace(c, by)] for a one-character pattern. *)
Fixpoint replace (c : ascii) (by_ : string) (s : string) : string :=
  match s with
  | EmptyString => EmptyString
  | String a r =>
      if Ascii.eqb a c then String.append by_ (replace c by_ r)
      else String a (replace c by_ r)
  end.

(** Truth value of a [str]: non-empty. *)
Definition truthy (s : string) : bool :=
  match s with EmptyString => false | _ => true end.

(** [x in xs] for a list of strings. *)
Definition str_in (x : string) (xs : list string) : bool :=
  existsb (String.eqb x) xs.

End Py.

(** ** Data model *)

(** [uuid.UUID]: a 128-bit value. *)
Definition UUID := N.

(** [datetime.datetime], naive UTC, as microseconds since the epoch. *)
Definition datetime := Z.

(** Modelled from the spec: [models.py], which declares the [Task] table,
    is not among the sources.  Section 3 of the specification lists the
    attributes: identifier (integer, store-assigned, unique), owner
    identifier, title, optional description, priority, optional due date,
    tags (ordered list of strings), completed, created timestamp and
    updated timestamp (both store-assigned).  The field names are the ones
    the services use. *)
Module Task.
Record t := mk {
  id : Z;
  user_id : UUID;
  title : string;
  description : option string;
  priority : string;
  due_date : option datetime;
  tags : list string;
  completed : bool;
  created_at : datetime;
  updated_at : datetime
}.
End Task.

(** The arguments of the [Task(...)] constructor call in [create_task]:
    a transient object, with no identifier and no timestamps yet. *)
Record NewTask := mkNewTask {
  new_user_id : UUID;
  new_title : string;
  new_description : option string;
  new_priority : string;
  new_due_date : option datetime;
  new_tags : list string;
  new_completed : bool
}.

(** ** The session

    [table] is the committed content of the task table in the store's
    natural row order; [txn] is the content as seen from inside the open
    transaction of the session (flushed but uncommitted changes included);
    [clock] is the reading of [datetime.utcnow()] during the call;
    [next_id] is the next identifier the store assigns. *)
Record Db := mkDb {
  table : list Task.t;
  txn : list Task.t;
  clock : datetime;
  next_id : Z
}.

Inductive exn :=
| ValueError (msg : string)
  (** [Exception(f"Task {task_id} not found or doesn't belong to user")] *)
| TaskNotFound (task_id : Z)
  (** an error of the database driver *)
| DataError (msg : string).

Inductive outcome (A : Type) :=
| Return (a : A)
| Raise (e : exn).
Arguments Return {A} a.
Arguments Raise {A} e.

(** A service call: it runs on a session and ends by returning or raising;
    the session keeps what was done before a [raise]. *)
Definition M (A : Type) : Type := Db -> outcome A * Db.

Definition ret {A} (a : A) : M A := fun db => (Return a, db).

Definition raise {A} (e : exn) : M A := fun db => (Raise e, db).

Definition bind {A B} (m : M A) (k : A -> M B) : M B :=
  fun db =>
    match m db with
    | (Return a, db') => k a db'
    | (Raise e, db') => (Raise e, db')
    end.

Notation "x <- m ;; k" := (bind m (fun x => k))
  (at level 61, m at next level, right associativity).
Notation "m ;;; k" := (bind m (fun _ => k))
  (at level 61, right associativity).

(** [try: body  except Exception as e: handler e]. *)
Definition try_except {A} (body : M A) (handler : exn -> M A) : M A :=
  fun db =>
    match body db with
    | (Return a, db') => (Return a, db')
    | (Raise e, db') => handler e db'
    end.

(** [for x in xs: acc = body acc x], the loop variable [acc] standing for
    the local counter the loop body updates. *)
Fixpoint for_loop {A X} (xs : list X) (acc : A) (body : A -> X -> M A) : M A :=
  match xs with
  | [] => ret acc
  | x :: rest => acc' <- body acc x ;; for_loop rest acc' body
  end.

Definition utcnow : M datetime := fun db => (Return (clock db), db).

(** ** Session primitives *)

Definition set_txn (rows : list Task.t) (db : Db) : Db :=
  {| table := table db; txn := rows; clock := clock db; next_id := next_id db |}.

(** Modelled from the spec: the identifier and the two timestamps are
    assigned by the store, which [models.py] configures.  Section 4.2:
    create sets created and updated timestamps to the same value. *)
Definition persist (n : NewTask) (db : Db) : Task.t :=
  {| Task.id := next_id db;
     Task.user_id := new_user_id n;
     Task.title := new_title n;
     Task.description := new_description n;
     Task.priority := new_priority n;
     Task.due_date := new_due_date n;
     Task.tags := new_tags n;
     Task.completed := new_completed n;
     Task.created_at := clock db;
     Task.updated_at := clock db |}.

(** Modelled from the spec: section 4.2, every successful mutation sets
    the updated timestamp to the current time. *)
Definition touch (now : datetime) (t : Task.t) : Task.t :=
  {| Task.id := Task.id t;
     Task.user_id := Task.user_id t;
     Task.title := Task.title t;
     Task.description := Task.description t;
     Task.priority := Task.priority t;
     Task.due_date := Task.due_date t;
     Task.tags := Task.tags t;
     Task.completed := Task.completed t;
     Task.created_at := Task.created_at t;
     Task.updated_at := now |}.

(** [db.add(task)] for the transient object built by [Task(...)]: the row
    is inserted; the result is the identifier of the new row, through
    which the object is read back after the commit. *)
Definition db_add_new (n : NewTask) : M Z :=
  fun db =>
    (Return (next_id db),
     {| table := table db;
        txn := txn db ++ [persist n db];
        clock := clock db;
        next_id := next_id db + 1 |}).

Definition put_row (t : Task.t) (rows : list Task.t) : list Task.t :=
  map (fun r => if Task.id r =? Task.id t then t else r) rows.

Definition drop_row (t : Task.t) (rows : list Task.t) : list Task.t :=
  filter (fun r => negb (Task.id r =? Task.id t)) rows.

(** [db.add(task)] for a persistent object whose attributes were assigned:
    the row of that identifier is rewritten inside the transaction. *)
Definition db_add (t : Task.t) : M unit :=
  fun db => (Return tt, set_txn (put_row (touch (clock db) t) (txn db)) db).

(** [task.attr = value] on the object a query of the session returned:
    the object belongs to the session, so the new value is pending in the
    transaction from that moment on, whether or not [db.add(task)] and
    [db.commit()] follow; the next commit of the session stores it, and
    only a rollback discards it. *)
Definition assign (edit : Task.t -> Task.t) (task : Task.t) : M Task.t :=
  fun db => (Return (edit task), set_txn (put_row (edit task) (txn db)) db).

(** [db.delete(task)]. *)
Definition db_delete (t : Task.t) : M unit :=
  fun db => (Return tt, set_txn (drop_row t (txn db)) db).

(** [db.commit()]. *)
Definition db_commit : M unit :=
  fun db =>
    (Return tt,
     {| table := txn db; txn := txn db; clock := clock db;
        next_id := next_id db |}).

(** [db.rollback()]. *)
Definition db_rollback : M unit :=
  fun db => (Return tt, set_txn (table db) db).

(** [db.refresh(task)]: the attributes are read back from the row. *)
Definition db_refresh (task_id : Z) : M Task.t :=
  fun db =>
    match find (fun r => Task.id r =? task_id) (txn db) with
    | Some r => (Return r, db)
    | None => (Raise (DataError "Could not refresh instance"), db)
    end.

(** ** Select statements *)

(** [ordering a b]: row [a] may come before row [b]. *)
Definition ordering := Task.t -> Task.t -> bool.

Record Select := mkSelect {
  where_clauses : list (Task.t -> bool);
  order_clause : option ordering;
  offset_clause : option Z;
  limit_clause : option Z
}.

(** [select(Task)]. *)
Definition select_Task : Select :=
  {| where_clauses := []; order_clause := None;
     offset_clause := None; limit_clause := None |}.

(** [statement.where(p)]: one more conjunct. *)
Definition where_ (p : Task.t -> bool) (st : Select) : Select :=
  {| where_clauses := where_clauses st ++ [p];
     order_clause := order_clause st;
     offset_clause := offset_clause st;
     limit_clause := limit_clause st |}.

Definition order_by (o : ordering) (st : Select) : Select :=
  {| where_clauses := where_clauses st;
     order_clause := Some o;
     offset_clause := offset_clause st;
     limit_clause := limit_clause st |}.

Definition offset (n : Z) (st : Select) : Select :=
  {| where_clauses := where_clauses st;
     order_clause := order_clause st;
     offset_clause := Some n;
     limit_clause := limit_clause st |}.

Definition limit (n : Z) (st : Select) : Select :=
  {| where_clauses := where_clauses st;
     order_clause := order_clause st;
     offset_clause := offset_clause st;
     limit_clause := Some n |}.

Definition matches (st : Select) (r : Task.t) : bool :=
  forallb (fun p => p r) (where_clauses st).

Fixpoint insert_row (le : ordering) (x : Task.t) (l : list Task.t)
  : list Task.t :=
  match l with
  | [] => [x]
  | y :: r => if le x y then x :: l else y :: insert_row le x r
  end.

(** ORDER BY: rows that tie keep the store's natural row order. *)
Definition sort_rows (le : ordering) (l : list Task.t) : list Task.t :=
  fold_right (insert_row le) [] l.

Definition ordered (st : Select) (rows : list Task.t) : list Task.t :=
  match order_clause st with
  | Some le => sort_rows le rows
  | None => rows
  end.

Definition window (st : Select) (rows : list Task.t) : list Task.t :=
  let rows :=
    match offset_clause st with
    | Some n => skipn (Z.to_nat n) rows
    | None => rows
    end in
  match limit_clause st with
  | Some n => firstn (Z.to_nat n) rows
  | None => rows
  end.

Definition negative (o : option Z) : bool :=
  match o with Some n => n <? 0 | None => false end.

(** [db.exec(statement).all()]; the store refuses a negative OFFSET or
    LIMIT.  This is the store for OFFSET and LIMIT below 2^63: they are
    sent as 64-bit integers, and at 2^63 and above the store refuses the
    statement too. *)
Definition exec_all (st : Select) : M (list Task.t) :=
  fun db =>
    if negative (offset_clause st) then
      (Raise (DataError "OFFSET must not be negative"), db)
    else if negative (limit_clause st) then
      (Raise (DataError "LIMIT must not be negative"), db)
    else (Return (window st (ordered st (filter (matches st) (txn db)))), db).

(** [db.exec(statement).first()]. *)
Definition exec_first (st : Select) : M (option Task.t) :=
  rows <- exec_all st ;; ret (hd_error rows).

(** [db.exec(select(func.count()).select_from(statement.subquery())).one()]. *)
Definition exec_count (st : Select) : M Z :=
  rows <- exec_all st ;; ret (Z.of_nat (List.length rows)).

(** ** What the services take from outside

    [collate_le] is the collation order of the database on text,
    [ilike value pattern] its case-insensitive pattern match,
    [null_is_largest] its default placement of NULL in ORDER BY (NULL sorts
    as the largest value when true, as the smallest when false),
    [fromisoformat] is [datetime.fromisoformat], with [None] for a
    [ValueError], and [is_aware] tells whether the value it returns for a
    string is offset-aware, as it is for a string that ends in a UTC
    offset such as [+00:00]. *)
Class Platform := mkPlatform {
  collate_le : string -> string -> bool;
  ilike : string -> string -> bool;
  null_is_largest : bool;
  fromisoformat : string -> option datetime;
  is_aware : string -> bool
}.

Inductive direction := Asc | Desc.

(** Comparison of two nullable sort keys. *)
Definition sql_le {K} (le : K -> K -> bool) (d : direction)
  (nulls_last : bool) (x y : option K) : bool :=
  match x, y with
  | Some a, Some b => match d with Asc => le a b | Desc => le b a end
  | None, None => true
  | Some _, None => nulls_last
  | None, Some _ => negb nulls_last
  end.

Section Orderings.
Context {P : Platform}.
Context {K : Type} (le : K -> K -> bool) (col : Task.t -> option K).

(** [col.asc()]. *)
Definition asc : ordering :=
  fun a b => sql_le le Asc null_is_largest (col a) (col b).

(** [col.desc()]. *)
Definition desc : ordering :=
  fun a b => sql_le le Desc (negb null_is_largest) (col a) (col b).

(** [col.asc().nulls_last()]. *)
Definition asc_nulls_last : ordering :=
  fun a b => sql_le le Asc true (col a) (col b).

(** [col.desc().nulls_last()]. *)
Definition desc_nulls_last : ordering :=
  fun a b => sql_le le Desc true (col a) (col b).

End Orderings.

(** [o == s] for an [Optional[str]] and a literal. *)
Definition opt_is (o : option string) (s : string) : bool :=
  match o with Some x => String.eqb x s | None => false end.

(** Attribute assignments on a task object. *)
Module Assign.
Definition title (v : string) (t : Task.t) : Task.t :=
  Task.mk (Task.id t) (Task.user_id t) v (Task.description t)
    (Task.priority t) (Task.due_date t) (Task.tags t) (Task.completed t)
    (Task.created_at t) (Task.updated_at t).
Definition description (v : option string) (t : Task.t) : Task.t :=
  Task.mk (Task.id t) (Task.user_id t) (Task.title t) v
    (Task.priority t) (Task.due_date t) (Task.tags t) (Task.completed t)
    (Task.created_at t) (Task.updated_at t).
Definition priority (v : string) (t : Task.t) : Task.t :=
  Task.mk (Task.id t) (Task.user_id t) (Task.title t) (Task.description t)
    v (Task.due_date t) (Task.tags t) (Task.completed t)
    (Task.created_at t) (Task.updated_at t).
Definition due_date (v : option datetime) (t : Task.t) : Task.t :=
  Task.mk (Task.id t) (Task.user_id t) (Task.title t) (Task.description t)
    (Task.priority t) v (Task.tags t) (Task.completed t)
    (Task.created_at t) (Task.updated_at t).
Definition tags (v : list string) (t : Task.t) : Task.t :=
  Task.mk (Task.id t) (Task.user_id t) (Task.title t) (Task.description t)
    (Task.priority t) (Task.due_date t) v (Task.completed t)
    (Task.created_at t) (Task.updated_at t).
Definition completed (v : bool) (t : Task.t) : Task.t :=
  Task.mk (Task.id t) (Task.user_id t) (Task.title t) (Task.description t)
    (Task.priority t) (Task.due_date t) (Task.tags t) v
    (Task.created_at t) (Task.updated_at t).
End Assign.

(** The dictionary returned by [get_statistics]. *)
Record Statistics := mkStatistics {
  total : Z;
  completed : Z;
  pending : Z;
  overdue : Z
}.

(** [sum(1 for x in xs if cond(x))]. *)
Definition sum_1_if {X} (cond : X -> bool) (xs : list X) : Z :=
  fold_left (fun acc x => if cond x then acc + 1 else acc) xs 0.

(** ** [class TaskService] *)

Module TaskService.
Section Service.
Context {P : Platform}.

Definition priority_levels : list string := ["low"; "medium"; "high"].

Definition create_task (user_id : UUID) (title : string)
  (description : option string) (priority : string)
  (due_date : option datetime) (tags : option (list string)) : M Task.t :=
  if negb (Py.truthy title) || (Py.len (Py.strip title) =? 0) then
    raise (ValueError "Title is required")
  else if Py.len (Py.strip title) >? 200 then
    raise (ValueError "Title must be 200 characters or less")
  else if match description with
          | Some d => Py.truthy d && (Py.len d >? 1000)
          | None => false
          end then
    raise (ValueError "Description must be 1000 characters or less")
  else if negb (Py.str_in priority priority_levels) then
    raise (ValueError "Priority must be one of: low, medium, high")
  else
    now <- utcnow ;;
    if match due_date with Some d => d <? now | None => false end then
      raise (ValueError "Due date cannot be in the past")
    else
      task <- db_add_new
                {| new_user_id := user_id;
                   new_title := Py.strip title;
                   new_description := description;
                   new_priority := priority;
                   new_due_date := due_date;
                   new_tags := match tags with
                               | Some (x :: r) => x :: r
                               | _ => []
                               end;
                   new_completed := false |} ;;
      db_commit ;;;
      task <- db_refresh task ;;
      ret task.

(** The CASE expression of the priority sort; no ELSE branch, so any other
    value gives NULL. *)
Definition priority_order (t : Task.t) : option Z :=
  if String.eqb (Task.priority t) "high" then Some 1
  else if String.eqb (Task.priority t) "medium" then Some 2
  else if String.eqb (Task.priority t) "low" then Some 3
  else None.

Definition get_tasks (user_id : UUID)
  (status priority due_date tags search : option string)
  (sort sort_direction : option string) (page limit_ : Z)
  : M (list Task.t * Z) :=
  (* Base query with user isolation *)
  let statement := where_ (fun t => N.eqb (Task.user_id t) user_id) select_Task in
  (* Apply status filter *)
  let statement :=
    match status with
    | Some status =>
        if Py.truthy status && negb (String.eqb (Py.lower status) "all") then
          if String.eqb (Py.lower status) "pending" then
            where_ (fun t => Bool.eqb (Task.completed t) false) statement
          else if String.eqb (Py.lower status) "completed" then
            where_ (fun t => Bool.eqb (Task.completed t) true) statement
          else statement
        else statement
    | None => statement
    end in
  (* Apply priority filter *)
  let statement :=
    match priority with
    | Some priority =>
        where_ (fun t => String.eqb (Task.priority t) priority) statement
    | None => statement
    end in
  (* Apply due_date filter *)
  let statement :=
    match due_date with
    | Some due_date =>
        match fromisoformat (Py.replace "Z" "+00:00" due_date) with
        | Some due_date_obj =>
            where_ (fun t => match Task.due_date t with
                             | Some d => d =? due_date_obj
                             | None => false
                             end) statement
        | None => statement
        end
    | None => statement
    end in
  (* Apply tags filter *)
  let statement :=
    match tags with
    | Some tags =>
        let tag_list := Py.split "," tags in
        fold_left
          (fun statement tag =>
             let tag := Py.strip tag in
             if Py.truthy tag then
               where_ (fun t => Py.str_in tag (Task.tags t)) statement
             else statement)
          tag_list statement
    | None => statement
    end in
  (* Apply search filter (across title and description) *)
  let statement :=
    match search with
    | Some search =>
        if Py.truthy (Py.strip search) then
          let search_term :=
            String.append "%" (String.append (Py.strip search) "%") in
          where_ (fun t =>
                    ilike (Task.title t) search_term
                    || match Task.description t with
                       | Some d => ilike d search_term
                       | None => false
                       end) statement
        else statement
    | None => statement
    end in
  (* Count total before applying limits *)
  total_count <- exec_count statement ;;
  (* Apply sorting *)
  let statement :=
    if opt_is sort "title" then
      if opt_is sort_direction "asc" then
        order_by (asc collate_le (fun t => Some (Task.title t))) statement
      else
        order_by (desc collate_le (fun t => Some (Task.title t))) statement
    else if opt_is sort "updated" then
      if opt_is sort_direction "asc" then
        order_by (asc Z.leb (fun t => Some (Task.updated_at t))) statement
      else
        order_by (desc Z.leb (fun t => Some (Task.updated_at t))) statement
    else if opt_is sort "priority" then
      if opt_is sort_direction "asc" then
        order_by (asc Z.leb priority_order) statement
      else
        order_by (desc Z.leb priority_order) statement
    else if opt_is sort "due_date" then
      if opt_is sort_direction "asc" then
        order_by (asc_nulls_last Z.leb Task.due_date) statement
      else
        order_by (desc_nulls_last Z.leb Task.due_date) statement
    else
      if opt_is sort_direction "asc" then
        order_by (asc Z.leb (fun t => Some (Task.created_at t))) statement
      else
        order_by (desc Z.leb (fun t => Some (Task.created_at t))) statement in
  (* Apply pagination *)
  let offset_ := (page - 1) * limit_ in
  let statement := limit limit_ (offset offset_ statement) in
  tasks <- exec_all statement ;;
  ret (tasks, total_count).

Definition get_task_by_id (user_id : UUID) (task_id : Z) : M (option Task.t) :=
  let statement :=
    where_ (fun t => N.eqb (Task.user_id t) user_id)
      (where_ (fun t => Task.id t =? task_id) select_Task) in
  exec_first statement.

(** Each assignment is made on the session's object as soon as its check
    has passed, so that a check that raises later leaves the earlier
    assignments pending in the session: there is no rollback. *)
Definition update_task (user_id : UUID) (task_id : Z)
  (title description priority : option string)
  (due_date : option datetime) (tags : option (list string))
  (completed : option bool) : M (option Task.t) :=
  task <- get_task_by_id user_id task_id ;;
  match task with
  | None => ret None
  | Some task =>
      (* Validate inputs if provided *)
      task <- match title with
              | Some title =>
                  if negb (Py.truthy title) || (Py.len (Py.strip title) =? 0)
                  then raise (ValueError "Title is required")
                  else if Py.len (Py.strip title) >? 200
                  then raise (ValueError "Title must be 200 characters or less")
                  else assign (Assign.title (Py.strip title)) task
              | None => ret task
              end ;;
      task <- match description with
              | Some description =>
                  if Py.len description >? 1000
                  then raise (ValueError
                                "Description must be 1000 characters or less")
                  else assign (Assign.description (Some description)) task
              | None => ret task
              end ;;
      task <- match priority with
              | Some priority =>
                  if negb (Py.str_in priority priority_levels)
                  then raise (ValueError
                                "Priority must be one of: low, medium, high")
                  else assign (Assign.priority priority) task
              | None => ret task
              end ;;
      task <- match due_date with
              | Some due_date =>
                  now <- utcnow ;;
                  if due_date <? now
                  then raise (ValueError "Due date cannot be in the past")
                  else assign (Assign.due_date (Some due_date)) task
              | None => ret task
              end ;;
      task <- match tags with
              | Some tags => assign (Assign.tags tags) task
              | None => ret task
              end ;;
      task <- match completed with
              | Some completed => assign (Assign.completed completed) task
              | None => ret task
              end ;;
      db_add task ;;;
      db_commit ;;;
      task <- db_refresh (Task.id task) ;;
      ret (Some task)
  end.

Definition delete_task (user_id : UUID) (task_id : Z) : M bool :=
  task <- get_task_by_id user_id task_id ;;
  match task with
  | None => ret false
  | Some task =>
      db_delete task ;;;
      db_commit ;;;
      ret true
  end.

Definition toggle_complete (user_id : UUID) (task_id : Z) (completed : bool)
  : M (option Task.t) :=
  task <- get_task_by_id user_id task_id ;;
  match task with
  | None => ret None
  | Some task =>
      let task := Assign.completed completed task in
      db_add task ;;;
      db_commit ;;;
      task <- db_refresh (Task.id task) ;;
      ret (Some task)
  end.

Definition get_tasks_count (user_id : UUID) : M Z :=
  let statement := where_ (fun t => N.eqb (Task.user_id t) user_id) select_Task in
  rows <- exec_all statement ;;
  ret (Z.of_nat (List.length rows)).

Definition get_statistics (user_id : UUID) : M Statistics :=
  (* Get all tasks for user *)
  let all_tasks_stmt :=
    where_ (fun t => N.eqb (Task.user_id t) user_id) select_Task in
  all_tasks <- exec_all all_tasks_stmt ;;
  let total := Z.of_nat (List.length all_tasks) in
  let completed := sum_1_if Task.completed all_tasks in
  let pending := total - completed in
  (* Calculate overdue tasks *)
  now <- utcnow ;;
  let overdue :=
    sum_1_if (fun task =>
                match Task.due_date task with
                | Some d => (d <? now) && negb (Task.completed task)
                | None => false
                end) all_tasks in
  ret {| total := total; completed := completed;
         pending := pending; overdue := overdue |}.

Definition bulk_delete (user_id : UUID) (task_ids : list Z) : M Z :=
  try_except
    (deleted_count <-
       for_loop task_ids 0 (fun deleted_count task_id =>
         task <- get_task_by_id user_id task_id ;;
         match task with
         | None => raise (TaskNotFound task_id)
         | Some task =>
             db_delete task ;;;
             ret (deleted_count + 1)
         end) ;;
     db_commit ;;;
     ret deleted_count)
    (fun e => db_rollback ;;; raise e).

Definition bulk_complete (user_id : UUID) (task_ids : list Z) : M Z :=
  try_except
    (updated_count <-
       for_loop task_ids 0 (fun updated_count task_id =>
         task <- get_task_by_id user_id task_id ;;
         match task with
         | None => raise (TaskNotFound task_id)
         | Some task =>
             db_add (Assign.completed true task) ;;;
             ret (updated_count + 1)
         end) ;;
     db_commit ;;;
     ret updated_count)
    (fun e => db_rollback ;;; raise e).

Definition bulk_pending (user_id : UUID) (task_ids : list Z) : M Z :=
  try_except
    (updated_count <-
       for_loop task_ids 0 (fun updated_count task_id =>
         task <- get_task_by_id user_id task_id ;;
         match task with
         | None => raise (TaskNotFound task_id)
         | Some task =>
             db_add (Assign.completed false task) ;;;
             ret (updated_count + 1)
         end) ;;
     db_commit ;;;
     ret updated_count)
    (fun e => db_rollback ;;; raise e).

Definition bulk_priority_change (user_id : UUID) (task_ids : list Z)
  (priority : string) : M Z :=
  if negb (Py.str_in priority priority_levels) then
    raise (ValueError "Priority must be one of: low, medium, high")
  else
    try_except
      (updated_count <-
         for_loop task_ids 0 (fun updated_count task_id =>
           task <- get_task_by_id user_id task_id ;;
           match task with
           | None => raise (TaskNotFound task_id)
           | Some task =>
               db_add (Assign.priority priority task) ;;;
               ret (updated_count + 1)
           end) ;;
       db_commit ;;;
       ret updated_count)
      (fun e => db_rollback ;;; raise e).

End Service.
End TaskService.

(** ** The bulk endpoint

    [BulkOperationRequest], once its validators have passed: the action is
    one of the four, and the action [priority] comes with one of the three
    priority levels. *)
Inductive PriorityLevel := Low | Medium | High.

Definition priority_name (p : PriorityLevel) : string :=
  match p with Low => "low" | Medium => "medium" | High => "high" end.

Inductive BulkAction :=
| ActDelete
| ActComplete
| ActPending
| ActPriority (priority : PriorityLevel).

(** The dispatch of [bulk_operations] in [routes/tasks.py]. *)
Definition bulk_operations (user_id : UUID) (action : BulkAction)
  (task_ids : list Z) : M Z :=
  match action with
  | ActDelete => TaskService.bulk_delete user_id task_ids
  | ActComplete => TaskService.bulk_complete user_id task_ids
  | ActPending => TaskService.bulk_pending user_id task_ids
  | ActPriority priority =>
      TaskService.bulk_priority_change user_id task_ids (priority_name priority)
  end.

(** ** [class ImportService] *)

Module ImportService.

(** A value of a parsed record: what [csv.DictReader] and [json.loads]
    produce (JSON numbers are taken to be integers). *)
#[warnings="-register-all"]
Inductive value :=
| VNone
| VBool (b : bool)
| VInt (n : Z)
| VStr (s : string)
| VList (l : list value)
| VDict (d : list (string * value)).

Definition dict := list (string * value).

(** [d.get(key, default)]. *)
Fixpoint get (key : string) (default : value) (d : dict) : value :=
  match d with
  | [] => default
  | (k, v) :: r => if String.eqb k key then v else get key default r
  end.

(** Exceptions raised by an operation on a value of the wrong type. *)
Inductive raised := AttributeError | TypeError.

Inductive result (A : Type) :=
| Ok (a : A)
| Err (e : raised).
Arguments Ok {A} a.
Arguments Err {A} e.

(** The error message of [validate_imported_task]; a message built by an
    f-string keeps the interpolated value as its argument. *)
Inductive message :=
| NoError
| TitleRequired
| TitleTooLong
| DescriptionTooLong
| InvalidPriority (priority : string)
| InvalidDueDate (due_date_str : value)
| TagsNotArray
| TooManyTags
| TagTooLong (tag : value)
| InvalidCompleted (completed : value).

Definition truthy (v : value) : bool :=
  match v with
  | VNone => false
  | VBool b => b
  | VInt n => negb (n =? 0)
  | VStr s => Py.truthy s
  | VList l => match l with [] => false | _ => true end
  | VDict d => match d with [] => false | _ => true end
  end.

(** [len(v)]. *)
Definition len (v : value) : result Z :=
  match v with
  | VStr s => Ok (Py.len s)
  | VList l => Ok (Z.of_nat (List.length l))
  | VDict d => Ok (Z.of_nat (List.length d))
  | _ => Err TypeError
  end.

(** [v in xs] for a list [xs] of string literals. *)
Definition in_strs (v : value) (xs : list string) : bool :=
  match v with
  | VStr s => Py.str_in s xs
  | _ => false
  end.

(** [[tag.strip() for tag in s.split(',') if tag.strip()]]. *)
Definition split_tags (s : string) : list value :=
  map (fun tag => VStr (Py.strip tag))
    (filter (fun tag => Py.truthy (Py.strip tag)) (Py.split "," s)).

(** The [datetime] that [_parse_datetime] returns: naive when the string
    has no UTC offset, offset-aware when it has one (a trailing [Z]
    counts, being replaced by [+00:00]).  Only a naive one can be compared
    with [datetime.utcnow()]. *)
Inductive parsed_datetime :=
| Naive (d : datetime)
| Aware (d : datetime).

Section Service.
Context {P : Platform}.

Definition _parse_datetime (datetime_str : value) : option parsed_datetime :=
  if negb (truthy datetime_str) then None
  else match datetime_str with
       | VStr s =>
           let text := Py.replace "Z" "+00:00" s in
           match fromisoformat text with
           | Some d => Some (if is_aware text then Aware d else Naive d)
           | None => None
           end
       | _ => None
       end.

Definition _parse_tags (tags_str : value) : result value :=
  if negb (truthy tags_str) then Ok (VList [])
  else match tags_str with
       | VList l => Ok (VList l)
       | VStr s => Ok (VList (split_tags s))
       | _ => Err AttributeError
       end.

Definition _parse_boolean (bool_str : value) : bool :=
  match bool_str with
  | VBool b => b
  | VStr s => Py.str_in (Py.lower s) ["true"; "1"; "yes"]
  | _ => false
  end.

(** [for tag in tags: if len(tag) > 50: return False, ...]. *)
Fixpoint check_tags (tags : list value) : result (option message) :=
  match tags with
  | [] => Ok None
  | tag :: r =>
      match len tag with
      | Err e => Err e
      | Ok n => if n >? 50 then Ok (Some (TagTooLong tag)) else check_tags r
      end
  end.

Definition validate_imported_task (task_data : dict) : result (bool * message) :=
  (* Validate title (required) *)
  match get "title" (VStr "") task_data with
  | VStr raw_title =>
      let title := Py.strip raw_title in
      if negb (Py.truthy title) then Ok (false, TitleRequired)
      else if Py.len title >? 200 then Ok (false, TitleTooLong)
      else
        (* Validate description (optional) *)
        let description := get "description" (VStr "") task_data in
        match (if truthy description then len description else Ok 0) with
        | Err e => Err e
        | Ok n =>
            if truthy description && (n >? 1000)
            then Ok (false, DescriptionTooLong)
            else
              (* Validate priority *)
              match get "priority" (VStr "medium") task_data with
              | VStr raw_priority =>
                  let priority := Py.lower raw_priority in
                  if negb (Py.str_in priority ["low"; "medium"; "high"])
                  then Ok (false, InvalidPriority priority)
                  else
                    (* Validate due_date (optional) *)
                    let due_date_str := get "due_date" VNone task_data in
                    if truthy due_date_str
                       && match _parse_datetime due_date_str with
                          | None => true
                          | Some _ => false
                          end
                    then Ok (false, InvalidDueDate due_date_str)
                    else
                      (* Validate tags (optional) *)
                      let tags := get "tags" VNone task_data in
                      let checked :=
                        if truthy tags then
                          let tags := match tags with
                                      | VStr s => VList (split_tags s)
                                      | _ => tags
                                      end in
                          match tags with
                          | VList l =>
                              if Z.of_nat (List.length l) >? 10
                              then Ok (Some TooManyTags)
                              else check_tags l
                          | _ => Ok (Some TagsNotArray)
                          end
                        else Ok None in
                      match checked with
                      | Err e => Err e
                      | Ok (Some m) => Ok (false, m)
                      | Ok None =>
                          (* Validate completed (optional) *)
                          let completed :=
                            get "completed" (VBool false) task_data in
                          if negb (match completed with
                                   | VBool _ => true
                                   | _ => false
                                   end)
                             && negb (in_strs completed
                                        ["true"; "false"; "True"; "False";
                                         "1"; "0"])
                          then Ok (false, InvalidCompleted completed)
                          else Ok (true, NoError)
                      end
              | _ => Err AttributeError
              end
        end
  | _ => Err AttributeError
  end.

(** A record ready for [create_task]; [tags] and [completed] are kept as
    the values the parser puts there. *)
Record task_dict := mk_task_dict {
  td_title : string;
  td_description : option string;
  td_priority : string;
  td_due_date : option parsed_datetime;
  td_tags : value;
  td_completed : value
}.

(** One entry of the error list: ["Row n: error"], ["Item n: error"],
    ["Item n: Must be an object/dictionary"], ["JSON must be an array of
    task objects"], or ["Unexpected error parsing ...: e"]. *)
Inductive error_line :=
| RowError (row_num : Z) (error : message)
| ItemError (idx : Z) (error : message)
| ItemNotObject (idx : Z)
| NotAnArray
| UnexpectedError (e : raised).

(** A call of a [str] method on a value. *)
Definition as_str (v : value) : result string :=
  match v with VStr s => Ok s | _ => Err AttributeError end.

Definition and_then {A B} (r : result A) (k : A -> result B) : result B :=
  match r with Ok a => k a | Err e => Err e end.

(** [s or None]. *)
Definition or_None (s : string) : option string :=
  if Py.truthy s then Some s else None.

(** The dictionary built by [parse_csv] from a valid row. *)
Definition csv_task_dict (row : dict) : result task_dict :=
  and_then (as_str (get "title" (VStr "") row)) (fun title =>
  and_then (as_str (get "description" (VStr "") row)) (fun description =>
  and_then (as_str (get "priority" (VStr "medium") row)) (fun priority =>
  and_then (_parse_tags (get "tags" (VStr "") row)) (fun tags =>
  Ok {| td_title := Py.strip title;
        td_description := or_None (Py.strip description);
        td_priority := Py.lower priority;
        td_due_date := _parse_datetime (get "due_date" VNone row);
        td_tags := tags;
        td_completed :=
          VBool (_parse_boolean (get "completed" (VStr "false") row)) |})))).

(** The loop of [parse_csv] over the rows [csv.DictReader] yields; an
    exception ends the loop with one more error line. *)
Fixpoint parse_csv_rows (row_num : Z) (rows : list dict)
  (valid_tasks : list task_dict) (errors : list error_line)
  : list task_dict * list error_line :=
  match rows with
  | [] => (valid_tasks, errors)
  | row :: rest =>
      match validate_imported_task row with
      | Err e => (valid_tasks, errors ++ [UnexpectedError e])
      | Ok (true, _) =>
          match csv_task_dict row with
          | Err e => (valid_tasks, errors ++ [UnexpectedError e])
          | Ok task =>
              parse_csv_rows (row_num + 1) rest (valid_tasks ++ [task]) errors
          end
      | Ok (false, error) =>
          parse_csv_rows (row_num + 1) rest valid_tasks
            (errors ++ [RowError row_num error])
      end
  end.

(** [parse_csv], from the rows of the file (the header is row 1). *)
Definition parse_csv (rows : list dict) : list task_dict * list error_line :=
  parse_csv_rows 2 rows [] [].

(** The dictionary built by [parse_json] from a valid item. *)
Definition json_task_dict (task : dict) : result task_dict :=
  and_then (as_str (get "title" (VStr "") task)) (fun title =>
  and_then (as_str (get "description" (VStr "") task)) (fun description =>
  and_then (as_str (get "priority" (VStr "medium") task)) (fun priority =>
  Ok {| td_title := Py.strip title;
        td_description := or_None (Py.strip description);
        td_priority := Py.lower priority;
        td_due_date := _parse_datetime (get "due_date" VNone task);
        td_tags := get "tags" (VList []) task;
        td_completed := get "completed" (VBool false) task |}))).

Fixpoint parse_json_items (idx : Z) (tasks_data : list value)
  (valid_tasks : list task_dict) (errors : list error_line)
  : list task_dict * list error_line :=
  match tasks_data with
  | [] => (valid_tasks, errors)
  | VDict task :: rest =>
      match validate_imported_task task with
      | Err e => (valid_tasks, errors ++ [UnexpectedError e])
      | Ok (true, _) =>
          match json_task_dict task with
          | Err e => (valid_tasks, errors ++ [UnexpectedError e])
          | Ok task =>
              parse_json_items (idx + 1) rest (valid_tasks ++ [task]) errors
          end
      | Ok (false, error) =>
          parse_json_items (idx + 1) rest valid_tasks
            (errors ++ [ItemError idx error])
      end
  | _ :: rest =>
      parse_json_items (idx + 1) rest valid_tasks
        (errors ++ [ItemNotObject idx])
  end.

(** [parse_json], from the value [json.loads] returns. *)
Definition parse_json (tasks_data : value) : list task_dict * list error_line :=
  match tasks_data with
  | VList items => parse_json_items 1 items [] []
  | _ => ([], [NotAnArray])
  end.

End Service.
End ImportService.

(** ** Vocabulary of the properties *)

(** The session is clean (nothing pending in its transaction) and the
    identifiers are what the store makes them: unique, and all below the
    next one it assigns. *)
Definition well_formed (db : Db) : Prop :=
  txn db = table db
  /\ NoDup (map Task.id (table db))
  /\ Forall (fun t => Task.id t < next_id db) (table db).

(** The store with the row of identifier [task_id] taken out. *)
Definition without (task_id : Z) (db : Db) : Db :=
  {| table := filter (fun r => negb (Task.id r =? task_id)) (table db);
     txn := filter (fun r => negb (Task.id r =? task_id)) (txn db);
     clock := clock db;
     next_id := next_id db |}.

(** The first row of the given identifier and owner, if any. *)
Definition resolve (user_id : UUID) (task_id : Z) (rows : list Task.t)
  : option Task.t :=
  find (fun t => (Task.id t =? task_id) && N.eqb (Task.user_id t) user_id) rows.

(** The tags of a comma-separated filter: the non-blank entries, stripped. *)
Definition filter_tags (tags : string) : list string :=
  filter Py.truthy (map Py.strip (Py.split "," tags)).

Definition has_any_tag (wanted : list string) (t : Task.t) : bool :=
  existsb (fun tag => Py.str_in tag (Task.tags t)) wanted.

Definition has_all_tags (wanted : list string) (t : Task.t) : bool :=
  forallb (fun tag => Py.str_in tag (Task.tags t)) wanted.

(** The window of a page: [limit_] rows from offset [(page - 1) * limit_]. *)
Definition page_slice {X} (page limit_ : Z) (rows : list X) : list X :=
  firstn (Z.to_nat limit_) (skipn (Z.to_nat ((page - 1) * limit_)) rows).

Definition is_not_found {A} (o : outcome A) : Prop :=
  exists task_id, o = Raise (TaskNotFound task_id).

(** What the four loop bodies have in common: an identifier that does not
    resolve raises the not-found exception and leaves the session as it
    is; one that resolves only rewrites the transaction, in a way that
    makes no unresolved identifier resolve. *)
Definition lookup_then_edit (user_id : UUID) (body : Z -> Z -> M Z) : Prop :=
  forall acc task_id db,
    match resolve user_id task_id (txn db) with
    | None => body acc task_id db = (Raise (TaskNotFound task_id), db)
    | Some _ =>
        exists acc' rows,
          body acc task_id db = (Return acc', set_txn rows db)
          /\ forall x, resolve user_id x (txn db) = None ->
                       resolve user_id x rows = None
    end.

(** A statement with no ORDER BY, OFFSET or LIMIT. *)
Definition plain (st : Select) : Prop :=
  order_clause st = None /\ offset_clause st = None /\ limit_clause st = None.

(** The steps of [get_tasks], one per comment of its body. *)
Section Steps.
Context {P : Platform}.

Definition owner_is (user_id : UUID) (t : Task.t) : bool :=
  N.eqb (Task.user_id t) user_id.

Definition with_status (status : option string) (statement : Select) : Select :=
  match status with
  | Some status =>
      if Py.truthy status && negb (String.eqb (Py.lower status) "all") then
        if String.eqb (Py.lower status) "pending" then
          where_ (fun t => Bool.eqb (Task.completed t) false) statement
        else if String.eqb (Py.lower status) "completed" then
          where_ (fun t => Bool.eqb (Task.completed t) true) statement
        else statement
      else statement
  | None => statement
  end.

Definition with_priority (priority : option string) (statement : Select)
  : Select :=
  match priority with
  | Some priority =>
      where_ (fun t => String.eqb (Task.priority t) priority) statement
  | None => statement
  end.

Definition with_due_date (due_date : option string) (statement : Select)
  : Select :=
  match due_date with
  | Some due_date =>
      match fromisoformat (Py.replace "Z" "+00:00" due_date) with
      | Some due_date_obj =>
          where_ (fun t => match Task.due_date t with
                           | Some d => d =? due_date_obj
                           | None => false
                           end) statement
      | None => statement
      end
  | None => statement
  end.

Definition with_tag (statement : Select) (tag : string) : Select :=
  let tag := Py.strip tag in
  if Py.truthy tag then
    where_ (fun t => Py.str_in tag (Task.tags t)) statement
  else statement.

Definition with_tags (tags : option string) (statement : Select) : Select :=
  match tags with
  | Some tags => fold_left with_tag (Py.split "," tags) statement
  | None => statement
  end.

Definition with_search (search : option string) (statement : Select) : Select :=
  match search with
  | Some search =>
      if Py.truthy (Py.strip search) then
        let search_term :=
          String.append "%" (String.append (Py.strip search) "%") in
        where_ (fun t =>
                  ilike (Task.title t) search_term
                  || match Task.description t with
                     | Some d => ilike d search_term
                     | None => false
                     end) statement
      else statement
  | None => statement
  end.

Definition filtered (user_id : UUID)
  (status priority due_date tags search : option string) : Select :=
  with_search search
    (with_tags tags
       (with_due_date due_date
          (with_priority priority
             (with_status status (where_ (owner_is user_id) select_Task))))).

(** What the conjuncts of the filtered statement ask of one row: the
    owner, then the test of each filter that is in force. *)
Definition passes (user_id : UUID)
  (status priority due_date tags search : option string) (t : Task.t) : bool :=
  N.eqb (Task.user_id t) user_id
  && match status with
     | Some status =>
         if Py.truthy status && negb (String.eqb (Py.lower status) "all") then
           if String.eqb (Py.lower status) "pending" then
             negb (Task.completed t)
           else if String.eqb (Py.lower status) "completed" then
             Task.completed t
           else true
         else true
     | None => true
     end
  && match priority with
     | Some priority => String.eqb (Task.priority t) priority
     | None => true
     end
  && match due_date with
     | Some due_date =>
         match fromisoformat (Py.replace "Z" "+00:00" due_date) with
         | Some due_date_obj =>
             match Task.due_date t with
             | Some d => d =? due_date_obj
             | None => false
             end
         | None => true
         end
     | None => true
     end
  && match tags with
     | Some tags => has_all_tags (filter_tags tags) t
     | None => true
     end
  && match search with
     | Some search =>
         if Py.truthy (Py.strip search) then
           let search_term :=
             String.append "%" (String.append (Py.strip search) "%") in
           ilike (Task.title t) search_term
           || match Task.description t with
              | Some d => ilike d search_term
              | None => false
              end
         else true
     | None => true
     end.

Definition chosen_ordering (sort sort_direction : option string) : ordering :=
  if opt_is sort "title" then
    if opt_is sort_direction "asc" then
      asc collate_le (fun t => Some (Task.title t))
    else desc collate_le (fun t => Some (Task.title t))
  else if opt_is sort "updated" then
    if opt_is sort_direction "asc" then
      asc Z.leb (fun t => Some (Task.updated_at t))
    else desc Z.leb (fun t => Some (Task.updated_at t))
  else if opt_is sort "priority" then
    if opt_is sort_direction "asc" then asc Z.leb TaskService.priority_order
    else desc Z.leb TaskService.priority_order
  else if opt_is sort "due_date" then
    if opt_is sort_direction "asc" then asc_nulls_last Z.leb Task.due_date
    else desc_nulls_last Z.leb Task.due_date
  else
    if opt_is sort_direction "asc" then
      asc Z.leb (fun t => Some (Task.created_at t))
    else desc Z.leb (fun t => Some (Task.created_at t)).

End Steps.

(** ** A platform and sample data to run the definitions on *)

(** LIKE with the wildcards [%] and [_]. *)
Fixpoint like (pattern : string) : string -> bool :=
  match pattern with
  | EmptyString =>
      fun s => match s with EmptyString => true | _ => false end
  | String c rest =>
      if Ascii.eqb c "%" then
        fix any (s : string) : bool :=
          like rest s
          || match s with EmptyString => false | String _ s' => any s' end
      else
        fun s =>
          match s with
          | EmptyString => false
          | String d s' => (Ascii.eqb c "_" || Ascii.eqb c d) && like rest s'
          end
  end.

Definition codepoint_le (a b : string) : bool :=
  match String.compare a b with Gt => false | _ => true end.

(** Code point collation, NULL sorting as the largest value, and a date
    parser that accepts no string. *)
Definition sample_platform : Platform :=
  {| collate_le := codepoint_le;
     ilike := fun value pattern => like (Py.lower pattern) (Py.lower value);
     null_is_largest := true;
     fromisoformat := fun _ => None;
     is_aware := fun _ => false |}.

Definition sample_task (task_id : Z) (owner : UUID) (title_ priority_ : string)
  (tags_ : list string) (completed_ : bool) (due : option datetime) : Task.t :=
  {| Task.id := task_id; Task.user_id := owner; Task.title := title_;
     Task.description := None; Task.priority := priority_;
     Task.due_date := due; Task.tags := tags_;
     Task.completed := completed_;
     Task.created_at := 100 + task_id; Task.updated_at := 100 + task_id |}.

(** The four tasks of the scenario of section 8 for owner 1 (priorities
    high, medium, low, high; one completed; one overdue), and one task of
    owner 2. *)
Definition sample_rows : list Task.t :=
  [ sample_task 1 1%N "High Priority Task" "high" ["work"] false None;
    sample_task 2 1%N "Medium Priority Task" "medium" ["work"; "urgent"] false
      (Some 50);
    sample_task 3 1%N "Low Priority Task" "low" [] true None;
    sample_task 4 1%N "Another High Priority Task" "high" ["home"] false None;
    sample_task 5 2%N "Other owner" "medium" ["work"] false None ].

Definition sample_db : Db :=
  {| table := sample_rows; txn := sample_rows; clock := 1000; next_id := 6 |}.

Definition eleven_tags : list string :=
  ["t1"; "t2"; "t3"; "t4"; "t5"; "t6"; "t7"; "t8"; "t9"; "t10"; "t11"].

(** A tag of 51 characters. *)
Definition long_tag : string :=
  "aaaaaaaaaaaaaaaaaaaaaaaaaaaaaaaaaaaaaaaaaaaaaaaaaaa".

(** An import record with a title and the given [completed] value. *)
Definition record_with_completed (v : ImportService.value)
  : ImportService.dict :=
  [("title", ImportService.VStr "Task"); ("completed", v)].

(** The rows of a transaction in progress: identifiers unique and below
    [n], over a committed table [committed] that the transaction has not
    touched. *)
Definition in_progress (committed : list Task.t) (n : Z) (db : Db) : Prop :=
  table db = committed /\ next_id db = n
  /\ NoDup (map Task.id (txn db))
  /\ Forall (fun t => Task.id t < n) (txn db).



(** * Listing order, pages, stored rows, export and routes *)

From Stdlib Require Import Sorted Permutation DecimalString.

(** [le] compares any two rows, and does so transitively. *)
Definition total_preorder (le : ordering) : Prop :=
  (forall a b, le a b = true \/ le b a = true)
  /\ (forall a b c, le a b = true -> le b c = true -> le a c = true).

(** The page count the listing route reports:
    [(total_count + limit - 1) // limit if limit > 0 else 1]. *)
Definition total_pages (total_count limit_ : Z) : Z :=
  if limit_ >? 0 then (total_count + limit_ - 1) / limit_ else 1.





(** What [create_task] asks of its arguments at clock reading [now]. *)
Definition create_acceptable (now : datetime) (title : string)
  (description : option string) (priority : string)
  (due_date : option datetime) : Prop :=
  Py.strip title <> ""
  /\ Py.len (Py.strip title) <= 200
  /\ (forall d, description = Some d -> Py.len d <= 1000)
  /\ In priority ["low"; "medium"; "high"]
  /\ (forall d, due_date = Some d -> now <= d).

(** What [update_task] asks of the arguments that are provided. *)
Definition update_acceptable (now : datetime)
  (title description priority : option string)
  (due_date : option datetime) : Prop :=
  (forall s, title = Some s ->
             Py.strip s <> "" /\ Py.len (Py.strip s) <= 200)
  /\ (forall d, description = Some d -> Py.len d <= 1000)
  /\ (forall p, priority = Some p -> In p ["low"; "medium"; "high"])
  /\ (forall d, due_date = Some d -> now <= d).

(** The session after a commit that leaves [rows] in the table. *)
Definition committed (rows : list Task.t) (n : Z) (db : Db) : Db :=
  {| table := rows; txn := rows; clock := clock db; next_id := n |}.

(** What the services keep true of every stored task: the title is
    stripped, not empty and at most 200 characters long, a description is
    at most 1000 characters long, the priority is one of the three
    levels. *)
Definition row_valid (t : Task.t) : Prop :=
  Py.strip (Task.title t) = Task.title t
  /\ Task.title t <> ""
  /\ Py.len (Task.title t) <= 200
  /\ (forall d, Task.description t = Some d -> Py.len d <= 1000)
  /\ In (Task.priority t) ["low"; "medium"; "high"].

(** What never changes in a stored task. *)
Definition identity (t : Task.t) : Z * UUID * datetime :=
  (Task.id t, Task.user_id t, Task.created_at t).

(** The rows of a transaction over a table [committed]: unique
    identifiers, and the identities of [committed] in the same order. *)
Definition rows_kept (committed rows : list Task.t) : Prop :=
  NoDup (map Task.id rows)
  /\ map identity rows = map identity committed.

(** The row's identifier is in the list. *)
Definition listed (task_ids : list Z) (r : Task.t) : bool :=
  existsb (Z.eqb (Task.id r)) task_ids.

(** What a bulk action other than delete assigns to a task. *)
Definition bulk_edit (action : BulkAction) (t : Task.t) : Task.t :=
  match action with
  | ActDelete => t
  | ActComplete => Assign.completed true t
  | ActPending => Assign.completed false t
  | ActPriority priority => Assign.priority (priority_name priority) t
  end.

(** The row after an assignment saved at clock reading [now], for the rows
    whose identifier is in the list. *)
Definition mark (edit : Task.t -> Task.t) (now : datetime)
  (task_ids : list Z) (r : Task.t) : Task.t :=
  if listed task_ids r then touch now (edit r) else r.

(** ** [class ExportService]

    [str_uuid] is [str] on a [UUID], [str_int] is [str] on an [int] and
    [isoformat] is [datetime.isoformat]. *)
Class Formats := mkFormats {
  str_uuid : UUID -> string;
  str_int : Z -> string;
  isoformat : datetime -> string
}.

Module ExportService.
Section Service.
Context {F : Formats}.

Definition header : list string :=
  ["id"; "user_id"; "title"; "description"; "priority"; "due_date"; "tags";
   "completed"; "created_at"; "updated_at"].

(** [str(b).lower()]. *)
Definition str_bool_lower (b : bool) : string :=
  if b then "true" else "false".

(** The cells [writer.writerow] writes for one task; [task.id], an
    [int], is written through [str]. *)
Definition csv_row (task : Task.t) : list string :=
  [ str_int (Task.id task);
    str_uuid (Task.user_id task);
    Task.title task;
    match Task.description task with
    | Some d => if Py.truthy d then d else ""
    | None => ""
    end;
    Task.priority task;
    match Task.due_date task with
    | Some d => isoformat d
    | None => ""
    end;
    match Task.tags task with
    | [] => ""
    | tags => String.concat "," tags
    end;
    str_bool_lower (Task.completed task);
    isoformat (Task.created_at task);
    isoformat (Task.updated_at task) ].

(** [export_to_csv], as the rows of cells written to the file (the text
    [csv.writer] makes of them is what [csv.DictReader] splits back into
    the same cells): the header, then one row per task in the order
    given. *)
Definition export_to_csv (tasks : list Task.t) : list (list string) :=
  header :: map csv_row tasks.

(** The dictionary built for one task by [export_to_json]. *)
Definition json_dict (task : Task.t) : ImportService.dict :=
  [ ("id", ImportService.VInt (Task.id task));
    ("user_id", ImportService.VStr (str_uuid (Task.user_id task)));
    ("title", ImportService.VStr (Task.title task));
    ("description",
      match Task.description task with
      | Some d => ImportService.VStr d
      | None => ImportService.VNone
      end);
    ("priority", ImportService.VStr (Task.priority task));
    ("due_date",
      match Task.due_date task with
      | Some d => ImportService.VStr (isoformat d)
      | None => ImportService.VNone
      end);
    ("tags", ImportService.VList (map ImportService.VStr (Task.tags task)));
    ("completed", ImportService.VBool (Task.completed task));
    ("created_at", ImportService.VStr (isoformat (Task.created_at task)));
    ("updated_at", ImportService.VStr (isoformat (Task.updated_at task))) ].

(** [export_to_json], as the value handed to [json.dumps], which
    [json.loads] gives back from the text. *)
Definition export_to_json (tasks : list Task.t) : ImportService.value :=
  ImportService.VList
    (map (fun task => ImportService.VDict (json_dict task)) tasks).

End Service.
End ExportService.

(** [d[key] = v] on a dictionary: the value of a key that is there is
    replaced, a new key goes last. *)
Fixpoint dict_set (key : string) (v : ImportService.value)
  (d : ImportService.dict) : ImportService.dict :=
  match d with
  | [] => [(key, v)]
  | (k, x) :: r =>
      if String.eqb k key then (k, v) :: r else (k, x) :: dict_set key v r
  end.

(** [dict(zip(fieldnames, row))], then [d[key] = None] for the field names
    a short row leaves without cell; of a field name that comes twice the
    last cell is kept. *)
Fixpoint zip_row (names : list string) (cells : list string)
  (d : ImportService.dict) : ImportService.dict :=
  match names, cells with
  | [], _ => d
  | name :: names', [] =>
      zip_row names' [] (dict_set name ImportService.VNone d)
  | name :: names', cell :: cells' =>
      zip_row names' cells' (dict_set name (ImportService.VStr cell) d)
  end.

(** [csv.DictReader] on rows of cells: the first row gives the field
    names; a data row with no cell at all is skipped; the cells beyond the
    field names, kept under the key [None], are out of reach of a lookup
    by name. *)
Definition dict_reader (rows : list (list string)) : list ImportService.dict :=
  match rows with
  | [] => []
  | names :: data =>
      map (fun cells => zip_row names cells [])
        (filter (fun cells => match cells with [] => false | _ => true end)
           data)
  end.

(** The record [parse_csv] and [parse_json] give back for an exported
    task: the description comes back stripped, and as [None] when nothing
    is left of it; the due date comes back as [_parse_datetime] reads
    what [isoformat] wrote. *)
Definition reimported {P : Platform} {F : Formats} (t : Task.t)
  : ImportService.task_dict :=
  {| ImportService.td_title := Task.title t;
     ImportService.td_description :=
       match Task.description t with
       | Some d => ImportService.or_None (Py.strip d)
       | None => None
       end;
     ImportService.td_priority := Task.priority t;
     ImportService.td_due_date :=
       match Task.due_date t with
       | Some d =>
           Some (if is_aware (Py.replace "Z" "+00:00" (isoformat d))
                 then ImportService.Aware d else ImportService.Naive d)
       | None => None
       end;
     ImportService.td_tags :=
       ImportService.VList (map ImportService.VStr (Task.tags t));
     ImportService.td_completed := ImportService.VBool (Task.completed t) |}.

(** A tag that survives the comma-separated cell: not blank, stripped, and
    with no comma in it. *)
Definition tag_clean (tag : string) : Prop :=
  tag <> "" /\ Py.strip tag = tag /\ Py.split "," tag = [tag].

(** What export followed by import asks of a task beyond [row_valid]:
    the bounds of the import validation on tags. *)
Definition exportable (t : Task.t) : Prop :=
  row_valid t
  /\ Z.of_nat (List.length (Task.tags t)) <= 10
  /\ Forall (fun tag => Py.len tag <= 50) (Task.tags t).

(** The row was taken by the parser without an exception. *)
Definition csv_row_taken {P : Platform} (row : ImportService.dict) : Prop :=
  match ImportService.validate_imported_task row with
  | ImportService.Ok (true, _) =>
      exists task, ImportService.csv_task_dict row = ImportService.Ok task
  | ImportService.Ok (false, _) => True
  | ImportService.Err _ => False
  end.

(** The row makes the parser raise. *)
Definition csv_row_raises {P : Platform} (row : ImportService.dict)
  (e : ImportService.raised) : Prop :=
  match ImportService.validate_imported_task row with
  | ImportService.Ok (true, _) =>
      ImportService.csv_task_dict row = ImportService.Err e
  | ImportService.Ok (false, _) => False
  | ImportService.Err e' => e' = e
  end.

(** The item was taken by the parser without an exception. *)
Definition json_item_taken {P : Platform} (item : ImportService.value) : Prop :=
  match item with
  | ImportService.VDict task =>
      match ImportService.validate_imported_task task with
      | ImportService.Ok (true, _) =>
          exists record,
            ImportService.json_task_dict task = ImportService.Ok record
      | ImportService.Ok (false, _) => True
      | ImportService.Err _ => False
      end
  | _ => True
  end.

(** The item makes the parser raise. *)
Definition json_item_raises {P : Platform} (item : ImportService.value)
  (e : ImportService.raised) : Prop :=
  match item with
  | ImportService.VDict task =>
      match ImportService.validate_imported_task task with
      | ImportService.Ok (true, _) =>
          ImportService.json_task_dict task = ImportService.Err e
      | ImportService.Ok (false, _) => False
      | ImportService.Err e' => e' = e
      end
  | _ => False
  end.

(** Three rows of a file: one that is imported, one with a blank title,
    and one whose description cell is missing. *)
Definition row_imported : ImportService.dict :=
  [ ("title", ImportService.VStr " Buy milk ");
    ("description", ImportService.VStr "");
    ("priority", ImportService.VStr "HIGH");
    ("tags", ImportService.VStr "home, shop") ].

Definition row_blank_title : ImportService.dict :=
  [ ("title", ImportService.VStr "  ");
    ("description", ImportService.VStr "");
    ("priority", ImportService.VStr "low") ].

Definition row_without_description : ImportService.dict :=
  [ ("title", ImportService.VStr "Call home");
    ("description", ImportService.VNone);
    ("priority", ImportService.VStr "low") ].

(** [c in s] for one character. *)
Fixpoint mentions (c : ascii) (s : string) : bool :=
  match s with
  | EmptyString => false
  | String a r => Ascii.eqb a c || mentions c r
  end.

(** A platform and formats that read and write the one date of the
    sample rows, 50 microseconds after the epoch, with and without UTC
    offset; a value is offset-aware when a sign follows the date. *)
Definition epoch_platform : Platform :=
  {| collate_le := codepoint_le;
     ilike := fun value pattern => like (Py.lower pattern) (Py.lower value);
     null_is_largest := true;
     fromisoformat := fun s =>
       if String.eqb s "1970-01-01T00:00:00.000050" then Some 50
       else if String.eqb s "1970-01-01T00:00:00.000050+00:00" then Some 50
       else None;
     is_aware := fun s =>
       let time := substring 10 (String.length s - 10) s in
       mentions "+" time || mentions "-" time |}.

(** The last [n] digits of [u] in base [base], lower-case. *)
Fixpoint digits (base : N) (n : nat) (u : N) : string :=
  match n with
  | O => ""
  | S k =>
      let d := (u mod base)%N in
      digits base k (u / base)
      ++ String (ascii_of_N (if (d <? 10)%N then 48 + d else 87 + d)) ""
  end.

(** [str] of a [UUID]: 32 hexadecimal digits in groups of 8, 4, 4, 4 and
    12. *)
Definition uuid_text (u : UUID) : string :=
  let s := digits 16 32 u in
  substring 0 8 s ++ "-" ++ substring 8 4 s ++ "-" ++ substring 12 4 s
  ++ "-" ++ substring 16 4 s ++ "-" ++ substring 20 12 s.

(** [isoformat] for an instant of the first second after the epoch. *)
Definition first_second_text (d : datetime) : string :=
  "1970-01-01T00:00:00"
  ++ (if d =? 0 then "" else "." ++ digits 10 6 (Z.to_N d)).

Definition epoch_formats : Formats :=
  {| str_uuid := uuid_text;
     str_int := fun n => NilZero.string_of_int (Z.to_int n);
     isoformat := first_second_text |}.

(** A task with a description, as [exportable] asks. *)
Definition described (t : Task.t) (d : string) : Task.t :=
  {| Task.id := Task.id t; Task.user_id := Task.user_id t;
     Task.title := Task.title t; Task.description := Some d;
     Task.priority := Task.priority t; Task.due_date := Task.due_date t;
     Task.tags := Task.tags t; Task.completed := Task.completed t;
     Task.created_at := Task.created_at t;
     Task.updated_at := Task.updated_at t |}.

(** The due date of the task, written by [isoformat], is read back by
    [_parse_datetime]. *)
Definition reads_back {P : Platform} {F : Formats} (t : Task.t) : Prop :=
  forall d, Task.due_date t = Some d ->
    isoformat d <> ""
    /\ fromisoformat (Py.replace "Z" "+00:00" (isoformat d)) = Some d.

(** The dictionary [csv.DictReader] gives for the exported row of a task. *)
Definition csv_dict {F : Formats} (task : Task.t) : ImportService.dict :=
  zip_row ExportService.header (ExportService.csv_row task) [].

(** Two tasks for an export: the second has no description. *)
Definition exported_task : Task.t :=
  described
    (sample_task 2 1%N "Medium Priority Task" "medium" ["work"; "urgent"]
       false (Some 50))
    "Weekly".

Definition undescribed_task : Task.t :=
  sample_task 3 1%N "Low Priority Task" "low" [] true None.

(** ** [routes/tasks.py]

    A route function runs on a session and either answers or raises: an
    exception of a service that it lets through, or [HTTPException].  The
    request body has passed the request schema, and the response models
    ([TaskResponse] and the like) copy the fields they are given, so a
    route answers with the task or the page itself.
    [current_user_id] stands for [str(current_user["id"])].  The six
    routes modelled are the ones the router registers as they are written;
    the four under [@advanced_features_limiter.limit] (export, upload,
    statistics, bulk) are left out, what they answer being up to the
    wrapper of the limiter, which is not among the sources. *)

Inductive route_exn :=
| Raised (e : exn)
| HTTPException (status_code : Z) (detail : string).

Inductive reply (A : Type) :=
| Answer (a : A)
| Fails (e : route_exn).
Arguments Answer {A} a.
Arguments Fails {A} e.

Definition Route (A : Type) : Type := Db -> reply A * Db.

Definition answer {A} (a : A) : Route A := fun db => (Answer a, db).

Definition throw {A} (e : route_exn) : Route A := fun db => (Fails e, db).

(** A call of a service method from a route. *)
Definition call {A} (m : M A) : Route A :=
  fun db =>
    match m db with
    | (Return a, db') => (Answer a, db')
    | (Raise e, db') => (Fails (Raised e), db')
    end.

Definition and_then {A B} (m : Route A) (k : A -> Route B) : Route B :=
  fun db =>
    match m db with
    | (Answer a, db') => k a db'
    | (Fails e, db') => (Fails e, db')
    end.

(** [try: body except ...: handler]. *)
Definition try_route {A} (body : Route A) (handler : route_exn -> Route A)
  : Route A :=
  fun db =>
    match body db with
    | (Answer a, db') => (Answer a, db')
    | (Fails e, db') => handler e db'
    end.

(** [TaskListResponse]: the page and the [meta] dictionary. *)
Record TaskListResponse := mkTaskListResponse {
  data : list Task.t;
  meta_total : Z;
  meta_page : Z;
  meta_limit : Z;
  meta_totalPages : Z
}.

Module Routes.
Section Routes.
Context {P : Platform} {F : Formats}.

(** [str(current_user["id"]) != str(user_id)]. *)
Definition other_user (current_user_id : string) (user_id : UUID) : bool :=
  negb (String.eqb current_user_id (str_uuid user_id)).

Definition forbidden {A} : Route A :=
  throw (HTTPException 403 "User ID in token does not match URL path").

(** [except Exception as e: raise HTTPException(status_code=500, ...)]. *)
Definition except_Exception {A} (e : route_exn) : Route A :=
  throw (HTTPException 500 "Internal server error").

(** [except ValueError as e: raise HTTPException(status_code=400,
    detail=str(e))], then [except Exception]. *)
Definition except_ValueError {A} (e : route_exn) : Route A :=
  match e with
  | Raised (ValueError msg) => throw (HTTPException 400 msg)
  | _ => throw (HTTPException 500 "Internal server error")
  end.

Definition create_task (current_user_id : string) (user_id : UUID)
  (title : string) (description : option string) (priority : string)
  (due_date : option datetime) (tags : option (list string))
  : Route Task.t :=
  if other_user current_user_id user_id then forbidden
  else
    try_route
      (call (TaskService.create_task user_id title description priority
               due_date tags))
      except_ValueError.

Definition get_tasks (current_user_id : string) (user_id : UUID)
  (status : string) (priority due_date tags search : option string)
  (sort sort_direction : string) (page limit_ : Z) : Route TaskListResponse :=
  if other_user current_user_id user_id then forbidden
  (* Validate query parameters *)
  else if page <? 1 then
    throw (HTTPException 400 "Page must be greater than 0")
  else if (limit_ <? 1) || (limit_ >? 100) then
    throw (HTTPException 400 "Limit must be between 1 and 100")
  else if Py.truthy status
          && negb (Py.str_in (Py.lower status) ["all"; "pending"; "completed"])
  then
    throw (HTTPException 400 "Status must be one of: all, pending, completed")
  else if match priority with
          | Some priority =>
              Py.truthy priority
              && negb (Py.str_in (Py.lower priority) ["low"; "medium"; "high"])
          | None => false
          end
  then throw (HTTPException 400 "Priority must be one of: low, medium, high")
  else if Py.truthy sort
          && negb (Py.str_in (Py.lower sort)
                     ["created"; "title"; "updated"; "priority"; "due_date"])
  then
    throw (HTTPException 400
            "Sort must be one of: created, title, updated, priority, due_date")
  else if Py.truthy sort_direction
          && negb (Py.str_in (Py.lower sort_direction) ["asc"; "desc"])
  then throw (HTTPException 400 "Sort direction must be one of: asc, desc")
  else
    try_route
      (and_then
         (call (TaskService.get_tasks user_id (Some status) priority due_date
                  tags search (Some sort) (Some sort_direction) page limit_))
         (fun '(tasks, total_count) =>
            (* Calculate total pages *)
            answer {| data := tasks;
                      meta_total := total_count;
                      meta_page := page;
                      meta_limit := limit_;
                      meta_totalPages := total_pages total_count limit_ |}))
      except_Exception.

Definition get_task (current_user_id : string) (user_id : UUID) (task_id : Z)
  : Route Task.t :=
  if other_user current_user_id user_id then forbidden
  else
    try_route
      (and_then (call (TaskService.get_task_by_id user_id task_id))
         (fun task =>
            match task with
            | None => throw (HTTPException 404 "Task not found")
            | Some task => answer task
            end))
      except_Exception.

Definition update_task (current_user_id : string) (user_id : UUID)
  (task_id : Z) (title description priority : option string)
  (due_date : option datetime) (tags : option (list string))
  : Route Task.t :=
  if other_user current_user_id user_id then forbidden
  else
    try_route
      (and_then
         (call (TaskService.update_task user_id task_id title description
                  priority due_date tags None))
         (fun updated_task =>
            match updated_task with
            | None => throw (HTTPException 404 "Task not found")
            | Some updated_task => answer updated_task
            end))
      except_ValueError.

(** The answer is [SuccessResponse(success=True, message="Task deleted
    successfully")]. *)
Definition delete_task (current_user_id : string) (user_id : UUID)
  (task_id : Z) : Route unit :=
  if other_user current_user_id user_id then forbidden
  else
    try_route
      (and_then (call (TaskService.delete_task user_id task_id))
         (fun deleted =>
            if negb deleted then throw (HTTPException 404 "Task not found")
            else answer tt))
      except_Exception.

Definition toggle_task_complete (current_user_id : string) (user_id : UUID)
  (task_id : Z) (completed : bool) : Route Task.t :=
  if other_user current_user_id user_id then forbidden
  else
    try_route
      (and_then
         (call (TaskService.toggle_complete user_id task_id completed))
         (fun updated_task =>
            match updated_task with
            | None => throw (HTTPException 404 "Task not found")
            | Some updated_task => answer updated_task
            end))
      except_ValueError.

End Routes.
End Routes.

(** The reply of a route that turns the request down on its token, with
    the session left as it was. *)
Definition refused {A} (db : Db) (r : reply A * Db) : Prop :=
  r = (Fails (HTTPException 403 "User ID in token does not match URL path"),
       db).


(** The session [db] while [update_task] works on the task [t0] it looked
    up in the session [db0], the object being [t] by now: either nothing
    was assigned yet, or the row of [t0] is [t] in the transaction;
    nothing is committed. *)
Definition unsaved (db0 : Db) (t0 t : Task.t) (db : Db) : Prop :=
  identity t = identity t0
  /\ ((db = db0 /\ t = t0) \/ db = set_txn (put_row t (txn db0)) db0).

(** The checks of [update_task], one per argument. *)
Definition title_ok (title : option string) : Prop :=
  forall s, title = Some s -> Py.strip s <> "" /\ Py.len (Py.strip s) <= 200.

Definition description_ok (description : option string) : Prop :=
  forall d, description = Some d -> Py.len d <= 1000.

Definition priority_ok (priority : option string) : Prop :=
  forall p, priority = Some p -> In p ["low"; "medium"; "high"].

Definition due_date_ok (now : datetime) (due_date : option datetime) : Prop :=
  forall d, due_date = Some d -> now <= d.
(** * Properties *)

(** ** Lists and statements *)

Lemma hd_error_filter {X} (p : X -> bool) (l : list X) :
  hd_error (filter p l) = find p l.
Proof.
  induction l as [|x l IH]; simpl; [reflexivity|].
  destruct (p x); simpl; auto.
Qed.

Lemma find_pointwise {X} (p q : X -> bool) (l : list X) :
  (forall x, p x = q x) -> find p l = find q l.
Proof.
  intros H. induction l as [|x l IH]; simpl; [reflexivity|].
  rewrite H, IH. reflexivity.
Qed.

Lemma filter_filter_absorb {X} (p q : X -> bool) (l : list X) :
  (forall x, In x l -> p x = true -> q x = true) ->
  filter p (filter q l) = filter p l.
Proof.
  induction l as [|x l IH]; intros H; simpl; [reflexivity|].
  destruct (q x) eqn:Hq; simpl.
  - destruct (p x); rewrite IH; auto using in_cons.
  - destruct (p x) eqn:Hp.
    + rewrite (H x (in_eq _ _) Hp) in Hq. discriminate.
    + apply IH. auto using in_cons.
Qed.

Lemma sum_1_if_from {X} (cond : X -> bool) (xs : list X) (n : Z) :
  fold_left (fun acc x => if cond x then acc + 1 else acc) xs n
  = n + Z.of_nat (List.length (filter cond xs)).
Proof.
  revert n. induction xs as [|x xs IH]; intros n; cbn [fold_left filter].
  - cbn [List.length]. lia.
  - rewrite IH. destruct (cond x); cbn [List.length]; lia.
Qed.

Lemma sum_1_if_count {X} (cond : X -> bool) (xs : list X) :
  sum_1_if cond xs = Z.of_nat (List.length (filter cond xs)).
Proof. unfold sum_1_if. rewrite sum_1_if_from. lia. Qed.

Lemma filter_length_le2 {X} (p q : X -> bool) (l : list X) :
  (forall x, p x = true -> q x = true) ->
  (List.length (filter p l) <= List.length (filter q l))%nat.
Proof.
  intros H. induction l as [|x l IH]; simpl; [lia|].
  destruct (p x) eqn:Hp.
  - rewrite (H x Hp). simpl. lia.
  - destruct (q x); simpl; lia.
Qed.

Lemma matches_where (p : Task.t -> bool) (st : Select) (r : Task.t) :
  matches (where_ p st) r = matches st r && p r.
Proof.
  unfold matches, where_. simpl. rewrite forallb_app. simpl.
  now rewrite andb_true_r.
Qed.

Lemma insert_row_In le x l y :
  In y (insert_row le x l) <-> y = x \/ In y l.
Proof.
  induction l as [|z l IH]; simpl.
  - intuition congruence.
  - destruct (le x z); simpl; [intuition congruence|].
    rewrite IH. intuition congruence.
Qed.

Lemma sort_rows_In le l y : In y (sort_rows le l) <-> In y l.
Proof.
  induction l as [|x l IH]; simpl; [reflexivity|].
  rewrite insert_row_In, IH. intuition congruence.
Qed.

Lemma insert_row_length le x l :
  List.length (insert_row le x l) = S (List.length l).
Proof.
  induction l as [|z l IH]; simpl; [reflexivity|].
  destruct (le x z); simpl; congruence.
Qed.

Lemma sort_rows_length le l : List.length (sort_rows le l) = List.length l.
Proof.
  induction l as [|x l IH]; simpl; [reflexivity|].
  now rewrite insert_row_length, IH.
Qed.

(** ** Lookup by identifier and owner *)

Lemma get_task_by_id_resolve user_id task_id db :
  TaskService.get_task_by_id user_id task_id db
  = (Return (resolve user_id task_id (txn db)), db).
Proof.
  unfold TaskService.get_task_by_id, exec_first, bind, exec_all. simpl.
  unfold ret, window, ordered. simpl.
  rewrite hd_error_filter. unfold resolve.
  f_equal. f_equal. apply find_pointwise. intros r.
  rewrite !matches_where. reflexivity.
Qed.

(** ** The query, step by step *)


Section QueryFacts.
Context {P : Platform}.

Lemma plain_where p st : plain st -> plain (where_ p st).
Proof. unfold plain. simpl. tauto. Qed.

Lemma plain_with_tags tags st : plain st -> plain (with_tags tags st).
Proof.
  destruct tags as [tags|]; simpl; [|tauto].
  generalize (Py.split "," tags). intros l. revert st.
  induction l as [|tag l IH]; intros st H; simpl; [exact H|].
  apply IH. unfold with_tag.
  destruct (Py.truthy (Py.strip tag)); auto using plain_where.
Qed.

Lemma plain_filtered user_id status priority due_date tags search :
  plain (filtered user_id status priority due_date tags search).
Proof.
  unfold filtered.
  assert (H0 : plain (where_ (owner_is user_id) select_Task))
    by (unfold plain; simpl; tauto).
  assert (H1 : plain (with_status status
                        (where_ (owner_is user_id) select_Task))).
  { unfold with_status. destruct status as [s|]; [|exact H0].
    destruct (_ && _); [|exact H0].
    destruct (String.eqb _ "pending"); [now apply plain_where|].
    destruct (String.eqb _ "completed"); [now apply plain_where|exact H0]. }
  revert H1. generalize (with_status status
                           (where_ (owner_is user_id) select_Task)).
  intros st H1.
  assert (H2 : plain (with_priority priority st)).
  { unfold with_priority. destruct priority; auto using plain_where. }
  assert (H3 : plain (with_due_date due_date (with_priority priority st))).
  { unfold with_due_date. destruct due_date as [d|]; [|exact H2].
    destruct (fromisoformat _); auto using plain_where. }
  apply (plain_with_tags tags) in H3.
  unfold with_search. destruct search as [s|]; [|exact H3].
  destruct (Py.truthy _); auto using plain_where.
Qed.

Lemma exec_all_plain st db :
  plain st -> exec_all st db = (Return (filter (matches st) (txn db)), db).
Proof.
  intros (Ho & Hf & Hl). unfold exec_all, window, ordered.
  rewrite Ho, Hf, Hl. reflexivity.
Qed.

Lemma get_tasks_steps user_id status priority due_date tags search
  sort sort_direction page limit_ :
  TaskService.get_tasks user_id status priority due_date tags search
    sort sort_direction page limit_
  = (total_count <-
       exec_count (filtered user_id status priority due_date tags search) ;;
     tasks <-
       exec_all
         (limit limit_
            (offset ((page - 1) * limit_)
               (order_by (chosen_ordering sort sort_direction)
                  (filtered user_id status priority due_date tags search)))) ;;
     ret (tasks, total_count)).
Proof.
  unfold TaskService.get_tasks, chosen_ordering.
  change (fold_left _ (Py.split "," ?t) ?s) with (fold_left with_tag (Py.split "," t) s).
  destruct (opt_is sort "title"), (opt_is sort "updated"),
    (opt_is sort "priority"), (opt_is sort "due_date"),
    (opt_is sort_direction "asc"); reflexivity.
Qed.

(** What a call returns when neither OFFSET nor LIMIT is negative. *)
Lemma get_tasks_run user_id status priority due_date tags search
  sort sort_direction page limit_ db :
  0 <= (page - 1) * limit_ -> 0 <= limit_ ->
  TaskService.get_tasks user_id status priority due_date tags search
    sort sort_direction page limit_ db
  = (Return
       (page_slice page limit_
          (sort_rows (chosen_ordering sort sort_direction)
             (filter
                (matches (filtered user_id status priority due_date tags search))
                (txn db))),
        Z.of_nat
          (List.length
             (filter
                (matches (filtered user_id status priority due_date tags search))
                (txn db)))),
     db).
Proof.
  intros Ho Hl. rewrite get_tasks_steps.
  unfold bind at 1. unfold exec_count, bind at 1.
  rewrite exec_all_plain by apply plain_filtered.
  unfold ret at 1. unfold bind, exec_all. cbn [offset_clause limit_clause limit offset negative].
  destruct (Z.ltb_spec ((page - 1) * limit_) 0); [lia|].
  destruct (Z.ltb_spec limit_ 0); [lia|].
  reflexivity.
Qed.

Lemma matches_with_tags_fold (l : list string) st r :
  matches (fold_left with_tag l st) r
  = matches st r && has_all_tags (filter Py.truthy (map Py.strip l)) r.
Proof.
  revert st. induction l as [|tag l IH]; intros st; simpl.
  - now rewrite andb_true_r.
  - rewrite IH. unfold with_tag.
    destruct (Py.truthy (Py.strip tag)); simpl.
    + rewrite matches_where. now rewrite andb_assoc.
    + reflexivity.
Qed.

Lemma matches_filtered_tags user_id status priority due_date tags search r :
  matches (filtered user_id status priority due_date (Some tags) search) r
  = matches (filtered user_id status priority due_date None search) r
    && has_all_tags (filter_tags tags) r.
Proof.
  unfold filtered. cbn [with_tags].
  set (st := with_due_date _ _).
  unfold with_search. destruct search as [s|].
  - destruct (Py.truthy (Py.strip s)).
    + rewrite !matches_where, matches_with_tags_fold. unfold filter_tags.
      rewrite <- !andb_assoc. f_equal. apply andb_comm.
    + apply matches_with_tags_fold.
  - apply matches_with_tags_fold.
Qed.

Lemma matches_filtered_owner user_id status priority due_date tags search r :
  matches (filtered user_id status priority due_date tags search) r = true ->
  Task.user_id r = user_id.
Proof.
  assert (Hw : forall p st, matches (where_ p st) r = true ->
                            matches st r = true).
  { intros p st. rewrite matches_where. now intros [H _]%andb_true_iff. }
  unfold filtered. intros H.
  assert (H1 : matches (with_tags tags
             (with_due_date due_date (with_priority priority
                (with_status status (where_ (owner_is user_id) select_Task)))))
             r = true).
  { revert H. unfold with_search. destruct search as [s|]; auto.
    destruct (Py.truthy _); eauto. }
  clear H.
  assert (H2 : matches (with_due_date due_date (with_priority priority
                (with_status status (where_ (owner_is user_id) select_Task))))
             r = true).
  { revert H1. destruct tags as [tags|]; cbn [with_tags]; auto.
    rewrite matches_with_tags_fold. now intros [H _]%andb_true_iff. }
  clear H1.
  assert (H3 : matches (with_priority priority
                (with_status status (where_ (owner_is user_id) select_Task)))
             r = true).
  { revert H2. unfold with_due_date. destruct due_date as [d|]; auto.
    destruct (fromisoformat _); eauto. }
  clear H2.
  assert (H4 : matches (with_status status
                          (where_ (owner_is user_id) select_Task)) r = true).
  { revert H3. unfold with_priority. destruct priority; eauto. }
  clear H3.
  assert (H5 : matches (where_ (owner_is user_id) select_Task) r = true).
  { revert H4. unfold with_status. destruct status as [s|]; auto.
    destruct (_ && _); auto.
    destruct (String.eqb _ "pending"); eauto.
    destruct (String.eqb _ "completed"); eauto. }
  rewrite matches_where in H5. apply andb_true_iff in H5 as [_ H5].
  unfold owner_is in H5. now apply N.eqb_eq.
Qed.

End QueryFacts.

(** ** The tags filter *)

Lemma str_in_In x xs : Py.str_in x xs = true <-> In x xs.
Proof.
  unfold Py.str_in. rewrite existsb_exists. split.
  - intros (y & Hy & He). apply String.eqb_eq in He. now subst.
  - intros H. exists x. split; [exact H|apply String.eqb_refl].
Qed.

Lemma has_all_tags_spec wanted t :
  has_all_tags wanted t = true
  <-> forall tag, In tag wanted -> In tag (Task.tags t).
Proof.
  unfold has_all_tags. rewrite forallb_forall.
  split; intros H tag Hin; apply str_in_In; auto.
Qed.

Lemma page_slice_all {X} limit_ (rows : list X) :
  Z.of_nat (List.length rows) <= limit_ -> page_slice 1 limit_ rows = rows.
Proof.
  intros H. unfold page_slice. simpl. apply firstn_all2. lia.
Qed.

Lemma filter_length_le {X} (p : X -> bool) (l : list X) :
  (List.length (filter p l) <= List.length l)%nat.
Proof.
  induction l as [|x l IH]; simpl; [lia|]. destruct (p x); simpl; lia.
Qed.


(** ** Count and pagination *)

Lemma insert_row_perm le x l : Permutation (x :: l) (insert_row le x l).
Proof.
  induction l as [|y l IH]; simpl; [reflexivity|].
  destruct (le x y); [reflexivity|].
  rewrite perm_swap. now constructor.
Qed.

Lemma sort_rows_perm le l : Permutation l (sort_rows le l).
Proof.
  induction l as [|x l IH]; simpl; [constructor|].
  rewrite <- insert_row_perm. now constructor.
Qed.

Lemma matches_filtered_passes {P : Platform} user_id status priority due_date
  tags search t :
  matches (filtered user_id status priority due_date tags search) t
  = passes user_id status priority due_date tags search t.
Proof.
  unfold filtered, passes.
  assert (Hsearch : forall st,
            matches (with_search search st) t
            = matches st t
              && match search with
                 | Some search =>
                     if Py.truthy (Py.strip search) then
                       ilike (Task.title t)
                         (String.append "%"
                            (String.append (Py.strip search) "%"))
                       || match Task.description t with
                          | Some d =>
                              ilike d
                                (String.append "%"
                                   (String.append (Py.strip search) "%"))
                          | None => false
                          end
                     else true
                 | None => true
                 end).
  { intros st. unfold with_search. destruct search as [s|].
    - destruct (Py.truthy (Py.strip s)).
      + apply matches_where.
      + now rewrite andb_true_r.
    - now rewrite andb_true_r. }
  assert (Htags : forall st,
            matches (with_tags tags st) t
            = matches st t
              && match tags with
                 | Some tags => has_all_tags (filter_tags tags) t
                 | None => true
                 end).
  { intros st. destruct tags as [l|]; cbn [with_tags].
    - apply matches_with_tags_fold.
    - now rewrite andb_true_r. }
  assert (Hdue : forall st,
            matches (with_due_date due_date st) t
            = matches st t
              && match due_date with
                 | Some due_date =>
                     match fromisoformat (Py.replace "Z" "+00:00" due_date)
                     with
                     | Some due_date_obj =>
                         match Task.due_date t with
                         | Some d => d =? due_date_obj
                         | None => false
                         end
                     | None => true
                     end
                 | None => true
                 end).
  { intros st. unfold with_due_date. destruct due_date as [s|].
    - destruct (fromisoformat _).
      + apply matches_where.
      + now rewrite andb_true_r.
    - now rewrite andb_true_r. }
  assert (Hpriority : forall st,
            matches (with_priority priority st) t
            = matches st t
              && match priority with
                 | Some priority => String.eqb (Task.priority t) priority
                 | None => true
                 end).
  { intros st. destruct priority as [p|]; cbn [with_priority].
    - apply matches_where.
    - now rewrite andb_true_r. }
  assert (Hstatus : forall st,
            matches (with_status status st) t
            = matches st t
              && match status with
                 | Some status =>
                     if Py.truthy status
                        && negb (String.eqb (Py.lower status) "all")
                     then
                       if String.eqb (Py.lower status) "pending" then
                         negb (Task.completed t)
                       else if String.eqb (Py.lower status) "completed" then
                         Task.completed t
                       else true
                     else true
                 | None => true
                 end).
  { intros st. unfold with_status. destruct status as [s|].
    - destruct (Py.truthy s && _); [|now rewrite andb_true_r].
      destruct (String.eqb (Py.lower s) "pending").
      + rewrite matches_where. now destruct (Task.completed t).
      + destruct (String.eqb (Py.lower s) "completed").
        * rewrite matches_where. now destruct (Task.completed t).
        * now rewrite andb_true_r.
    - now rewrite andb_true_r. }
  rewrite Hsearch, Htags, Hdue, Hpriority, Hstatus, matches_where.
  reflexivity.
Qed.

(** C6: the total_count of a query is counted on the rows of the store,
    before pagination: it is the number of rows of the session that are
    the owner's and pass every filter in force, whatever the page and the
    limit.  For page >= 1 and limit in [1,100], with the offset
    (page - 1) * limit below 2^63, which is as far as the store takes an
    OFFSET, the query returns; the page it returns is the slice of
    [limit] rows at that offset of those rows put in the order of the
    sort, and the same query with page = 1 and limit = total_count
    returns all of them, total_count tasks (a store of fewer than 2^63
    rows, so that this LIMIT is one it takes).  Beyond that offset the store
    refuses the statement and no total_count is returned; a call that
    does return, whatever its page and limit, returns this count and this
    slice. *)
Theorem get_tasks_total_count_before_pagination {P : Platform}
  (user_id : UUID) (status priority due_date tags search : option string)
  (sort sort_direction : option string) (page limit_ : Z) (db : Db) :
  1 <= page -> 1 <= limit_ <= 100 -> (page - 1) * limit_ < 2 ^ 63 ->
  Z.of_nat (List.length (txn db)) < 2 ^ 63 ->
  let kept :=
    filter (passes user_id status priority due_date tags search) (txn db) in
  let in_order := sort_rows (chosen_ordering sort sort_direction) kept in
  let total_count := Z.of_nat (List.length kept) in
  TaskService.get_tasks user_id status priority due_date tags search
    sort sort_direction page limit_ db
  = (Return (page_slice page limit_ in_order, total_count), db)
  /\ TaskService.get_tasks user_id status priority due_date tags search
       sort sort_direction 1 total_count db
     = (Return (in_order, total_count), db)
  /\ Permutation kept in_order
  /\ Z.of_nat (List.length in_order) = total_count
  /\ (forall t, In t kept <->
                In t (txn db)
                /\ passes user_id status priority due_date tags search t
                   = true)
  /\ (forall t, In t kept -> Task.user_id t = user_id)
  /\ forall page' limit' tasks' n,
       fst (TaskService.get_tasks user_id status priority due_date tags
              search sort sort_direction page' limit' db)
       = Return (tasks', n) ->
       n = total_count /\ tasks' = page_slice page' limit' in_order.
Proof.
  intros Hp Hl Hoffset Hrows. cbv zeta.
  assert (Hkept : filter
                    (matches
                       (filtered user_id status priority due_date tags search))
                    (txn db)
                  = filter
                      (passes user_id status priority due_date tags search)
                      (txn db)).
  { apply filter_ext. intros t. apply matches_filtered_passes. }
  set (kept := filter (passes _ _ _ _ _ _) (txn db)) in *.
  set (in_order := sort_rows (chosen_ordering sort sort_direction) kept).
  assert (Hlen : Z.of_nat (List.length in_order)
                 = Z.of_nat (List.length kept))
    by (unfold in_order; now rewrite sort_rows_length).
  split; [rewrite get_tasks_run by nia; now rewrite Hkept|].
  split.
  { rewrite get_tasks_run by lia. rewrite Hkept. fold in_order.
    rewrite page_slice_all by lia. reflexivity. }
  split; [apply sort_rows_perm|]. split; [exact Hlen|].
  split; [intros t; apply filter_In|].
  split.
  { intros t Ht. apply filter_In in Ht as [_ Ht]. unfold passes in Ht.
    repeat (apply andb_true_iff in Ht as [Ht _]). now apply N.eqb_eq. }
  intros page' limit' tasks' n Hrun.
  assert (Hsign : 0 <= (page' - 1) * limit' /\ 0 <= limit').
  { rewrite get_tasks_steps in Hrun. unfold bind at 1 in Hrun.
    unfold exec_count, bind at 1 in Hrun.
    rewrite exec_all_plain in Hrun by apply plain_filtered.
    unfold ret at 1 in Hrun. unfold bind, exec_all in Hrun.
    cbn [offset_clause limit_clause limit offset negative] in Hrun.
    destruct (Z.ltb_spec ((page' - 1) * limit') 0); [discriminate Hrun|].
    destruct (Z.ltb_spec limit' 0); [discriminate Hrun|]. lia. }
  rewrite get_tasks_run in Hrun by tauto. cbn [fst] in Hrun.
  injection Hrun as <- <-. rewrite Hkept. split; reflexivity.
Qed.

Lemma get_tasks_total_count_before_pagination_example :
  1 <= 2 /\ 1 <= 2 <= 100 /\ (2 - 1) * 2 < 2 ^ 63
  /\ Z.of_nat (List.length (txn sample_db)) < 2 ^ 63
  /\ TaskService.get_tasks (P := sample_platform) 1%N None None None None
       None (Some "created") (Some "asc") 2 2 sample_db
     = (Return
          ([sample_task 3 1%N "Low Priority Task" "low" [] true None;
            sample_task 4 1%N "Another High Priority Task" "high" ["home"]
              false None], 4), sample_db)
  /\ TaskService.get_tasks (P := sample_platform) 1%N None None None None
       None (Some "created") (Some "asc") 1 4 sample_db
     = (Return
          ([sample_task 1 1%N "High Priority Task" "high" ["work"] false None;
            sample_task 2 1%N "Medium Priority Task" "medium"
              ["work"; "urgent"] false (Some 50);
            sample_task 3 1%N "Low Priority Task" "low" [] true None;
            sample_task 4 1%N "Another High Priority Task" "high" ["home"]
              false None], 4), sample_db).
Proof.
  assert (H1 : 1 <= 2) by lia.
  assert (H2 : 1 <= 2 <= 100) by lia.
  assert (H3 : (2 - 1) * 2 < 2 ^ 63) by (vm_compute; reflexivity).
  assert (H4 : Z.of_nat (List.length (txn sample_db)) < 2 ^ 63)
    by (vm_compute; reflexivity).
  split; [exact H1|]. split; [exact H2|]. split; [exact H3|].
  split; [exact H4|].
  destruct (get_tasks_total_count_before_pagination (P := sample_platform)
              1%N None None None None None (Some "created") (Some "asc")
              2 2 sample_db H1 H2 H3 H4) as (Hpage & Hall & _).
  split; [exact Hpage|exact Hall].
Defined.

(** ** The status filter *)

Lemma truthy_lower s : Py.truthy (Py.lower s) = Py.truthy s.
Proof. destruct s; reflexivity. Qed.

Lemma with_status_by_lower s1 s2 st :
  Py.lower s1 = Py.lower s2 ->
  with_status (Some s1) st = with_status (Some s2) st.
Proof.
  intros H. unfold with_status.
  rewrite <- (truthy_lower s1), <- (truthy_lower s2), H. reflexivity.
Qed.

Lemma with_status_no_filter status st :
  (forall s, status = Some s ->
             Py.lower s <> "pending" /\ Py.lower s <> "completed") ->
  with_status status st = st.
Proof.
  intros H. unfold with_status. destruct status as [s|]; [|reflexivity].
  destruct (H s eq_refl) as [Hp Hc].
  apply String.eqb_neq in Hp, Hc. rewrite Hp, Hc.
  now destruct (_ && _).
Qed.

(** C9: a status whose lowercased value is neither "pending" nor
    "completed" (None included) filters nothing, so the query returns what
    it returns for status "all"; and two status values with the same
    lowercased form filter alike. *)
Theorem get_tasks_status_filter {P : Platform}
  (user_id : UUID) (status : option string) (s1 s2 : string)
  (priority due_date tags search sort sort_direction : option string)
  (page limit_ : Z) (db : Db)
  (Hother : forall s, status = Some s ->
                      Py.lower s <> "pending" /\ Py.lower s <> "completed")
  (Hcase : Py.lower s1 = Py.lower s2) :
  TaskService.get_tasks user_id status priority due_date tags search
    sort sort_direction page limit_ db
  = TaskService.get_tasks user_id (Some "all") priority due_date tags search
      sort sort_direction page limit_ db
  /\ TaskService.get_tasks user_id (Some s1) priority due_date tags search
       sort sort_direction page limit_ db
     = TaskService.get_tasks user_id (Some s2) priority due_date tags search
         sort sort_direction page limit_ db.
Proof.
  rewrite !get_tasks_steps. unfold filtered.
  rewrite (with_status_no_filter status) by exact Hother.
  rewrite (with_status_by_lower s1 s2) by exact Hcase.
  split; reflexivity.
Qed.

Lemma get_tasks_status_filter_example :
  (TaskService.get_tasks (P := sample_platform) 1%N (Some "Archived") None
     None None None (Some "created") (Some "asc") 1 20 sample_db
   = TaskService.get_tasks (P := sample_platform) 1%N (Some "all") None
       None None None (Some "created") (Some "asc") 1 20 sample_db)
  /\ (TaskService.get_tasks (P := sample_platform) 1%N (Some "PENDING") None
        None None None (Some "created") (Some "asc") 1 20 sample_db
      = TaskService.get_tasks (P := sample_platform) 1%N (Some "pending") None
          None None None (Some "created") (Some "asc") 1 20 sample_db).
Proof.
  apply (get_tasks_status_filter (P := sample_platform) 1%N
           (Some "Archived") "PENDING" "pending").
  - intros s [= <-]. split; vm_compute; discriminate.
  - vm_compute. reflexivity.
Defined.

(** ** Statistics *)

(** C7: the statistics call returns, with completed + pending = total and
    overdue <= pending; overdue counts exactly the owner's tasks that are
    not completed and have a due date before the clock reading; an owner
    with no task gets four zeros. *)
Theorem get_statistics_identities (user_id : UUID) (db : Db) :
  exists s,
    TaskService.get_statistics user_id db = (Return s, db)
    /\ completed s + pending s = total s
    /\ 0 <= overdue s <= pending s
    /\ overdue s
       = Z.of_nat
           (List.length
              (filter
                 (fun t =>
                    N.eqb (Task.user_id t) user_id
                    && negb (Task.completed t)
                    && match Task.due_date t with
                       | Some d => d <? clock db
                       | None => false
                       end) (txn db)))
    /\ ((forall t, In t (txn db) -> Task.user_id t <> user_id) ->
        total s = 0 /\ completed s = 0 /\ pending s = 0 /\ overdue s = 0).
Proof.
  unfold TaskService.get_statistics, bind.
  rewrite exec_all_plain by (unfold plain; simpl; tauto).
  unfold utcnow, ret. eexists. split; [reflexivity|]. simpl.
  set (mine := filter _ (txn db)).
  assert (Hmine : mine = filter (fun t => N.eqb (Task.user_id t) user_id) (txn db)).
  { unfold mine. apply filter_ext. intros r. rewrite matches_where.
    reflexivity. }
  rewrite !sum_1_if_count.
  set (late := fun task : Task.t => match Task.due_date task with
                | Some d => (d <? clock db) && negb (Task.completed task)
                | None => false end).
  assert (Hsplit : (List.length (filter Task.completed mine)
                    + List.length (filter (fun t => negb (Task.completed t)) mine)
                    = List.length mine)%nat).
  { clear. induction mine as [|x l IH]; simpl; [reflexivity|].
    destruct (Task.completed x); simpl; lia. }
  assert (Hlate : (List.length (filter late mine)
                   <= List.length (filter (fun t => negb (Task.completed t)) mine))%nat).
  { apply filter_length_le2. intros x. unfold late.
    destruct (Task.due_date x); [|discriminate].
    now intros [_ H]%andb_true_iff. }
  split; [lia|]. split; [lia|]. split.
  - f_equal. rewrite Hmine. clear. induction (txn db) as [|x l IH]; simpl; [reflexivity|].
    destruct (N.eqb (Task.user_id x) user_id); simpl; [|exact IH].
    unfold late at 1. destruct (Task.due_date x) as [d|]; simpl.
    + rewrite andb_comm. destruct (_ && _); simpl; now rewrite IH.
    + rewrite andb_false_r. exact IH.
  - intros Hnone.
    assert (Hnil : mine = []).
    { rewrite Hmine. clear - Hnone. induction (txn db) as [|x l IH]; simpl; [reflexivity|].
      destruct (N.eqb_spec (Task.user_id x) user_id) as [He|_].
      - exfalso. apply (Hnone x); [left; reflexivity|exact He].
      - apply IH. intros t Ht. apply Hnone. now right. }
    rewrite Hnil. simpl. repeat split; reflexivity.
Qed.

(** ** Rows, identifiers and owners *)

Lemma NoDup_map_same {X Y} (f : X -> Y) (l : list X) (a b : X) :
  NoDup (map f l) -> In a l -> In b l -> f a = f b -> a = b.
Proof.
  induction l as [|x l IH]; simpl; intros Hnd Ha Hb Hf; [contradiction|].
  inversion Hnd as [|? ? Hnotin Hnd']; subst.
  destruct Ha as [->|Ha], Hb as [->|Hb]; auto.
  - exfalso. apply Hnotin. rewrite Hf. now apply in_map.
  - exfalso. apply Hnotin. rewrite <- Hf. now apply in_map.
Qed.

Lemma resolve_some user_id task_id rows t :
  resolve user_id task_id rows = Some t ->
  In t rows /\ Task.id t = task_id /\ Task.user_id t = user_id.
Proof.
  unfold resolve. intros H. apply find_some in H as [Hin Hp].
  apply andb_true_iff in Hp as [Hi Hu].
  apply Z.eqb_eq in Hi. apply N.eqb_eq in Hu. auto.
Qed.

Lemma resolve_own rows t :
  NoDup (map Task.id rows) -> In t rows ->
  resolve (Task.user_id t) (Task.id t) rows = Some t.
Proof.
  intros Hnd Hin. destruct (resolve _ _ rows) as [r|] eqn:Hr.
  - apply resolve_some in Hr as (Hrin & Hid & _).
    f_equal. now apply (NoDup_map_same Task.id rows).
  - unfold resolve in Hr. apply (find_none _ _ Hr) in Hin.
    rewrite Z.eqb_refl, N.eqb_refl in Hin. discriminate.
Qed.

Lemma resolve_other_owner rows t other :
  NoDup (map Task.id rows) -> In t rows -> other <> Task.user_id t ->
  resolve other (Task.id t) rows = None.
Proof.
  intros Hnd Hin Hneq. destruct (resolve _ _ rows) as [r|] eqn:Hr; [|easy].
  apply resolve_some in Hr as (Hrin & Hid & Hu).
  assert (r = t) by now apply (NoDup_map_same Task.id rows).
  subst r. congruence.
Qed.

Lemma resolve_drop_row_none user_id x t rows :
  resolve user_id x rows = None ->
  resolve user_id x (drop_row t rows) = None.
Proof.
  unfold resolve, drop_row. induction rows as [|r rows IH]; simpl; auto.
  destruct (_ && _) eqn:Hp; [discriminate|]. intros H.
  destruct (negb _); simpl; [rewrite Hp|]; auto.
Qed.

Lemma resolve_put_row_none user_id x t' rows :
  Task.id t' <> x ->
  resolve user_id x rows = None ->
  resolve user_id x (put_row t' rows) = None.
Proof.
  intros Hne. unfold resolve, put_row.
  induction rows as [|r rows IH]; simpl; auto.
  destruct ((Task.id r =? x) && _) eqn:Hp; [discriminate|]. intros H.
  destruct (Task.id r =? Task.id t').
  - apply Z.eqb_neq in Hne. rewrite Hne. simpl. auto.
  - rewrite Hp. auto.
Qed.

Lemma find_put_row t' rows :
  (exists r, In r rows /\ Task.id r = Task.id t') ->
  find (fun r => Task.id r =? Task.id t') (put_row t' rows) = Some t'.
Proof.
  unfold put_row. induction rows as [|r rows IH]; simpl.
  - intros (r & [] & _).
  - intros (r0 & [->|Hin] & Hid).
    + rewrite Hid, Z.eqb_refl. simpl. now rewrite Z.eqb_refl.
    + destruct (Z.eqb_spec (Task.id r) (Task.id t')) as [He|Hne].
      * now rewrite Z.eqb_refl.
      * apply Z.eqb_neq in Hne. rewrite Hne. eauto.
Qed.

Lemma set_txn_table db : txn db = table db -> set_txn (table db) db = db.
Proof. destruct db. simpl. intros ->. reflexivity. Qed.

(** ** The bulk loops *)

Lemma for_loop_not_found user_id body :
  lookup_then_edit user_id body ->
  forall task_ids acc db rows0,
    (exists bad, In bad task_ids /\ resolve user_id bad rows0 = None) ->
    exists task_id rows,
      for_loop task_ids acc body (set_txn rows0 db)
      = (Raise (TaskNotFound task_id), set_txn rows db).
Proof.
  intros Hbody task_ids.
  induction task_ids as [|tid rest IH]; intros acc db rows0 (bad & Hin & Hbad).
  - destruct Hin.
  - cbn [for_loop]. unfold bind.
    specialize (Hbody acc tid (set_txn rows0 db)). cbn [txn set_txn] in Hbody.
    destruct (resolve user_id tid rows0) as [t|] eqn:Hres.
    + destruct Hbody as (acc' & rows & -> & Hmono).
      destruct Hin as [->|Hin]; [congruence|].
      change (set_txn rows (set_txn rows0 db)) with (set_txn rows db).
      apply IH. exists bad. auto.
    + rewrite Hbody. eauto.
Qed.

Lemma set_txn_self db : set_txn (txn db) db = db.
Proof. now destruct db. Qed.

Lemma edit_body_lookup_then_edit user_id (edit : Task.t -> Task.t) :
  (forall t, Task.id (edit t) = Task.id t) ->
  lookup_then_edit user_id
    (fun updated_count task_id =>
       task <- TaskService.get_task_by_id user_id task_id ;;
       match task with
       | None => raise (TaskNotFound task_id)
       | Some task => db_add (edit task) ;;; ret (updated_count + 1)
       end).
Proof.
  intros Hid acc task_id db. cbv beta. unfold bind.
  rewrite get_task_by_id_resolve.
  destruct (resolve user_id task_id (txn db)) as [t|] eqn:Hres; [|reflexivity].
  do 2 eexists. split; [reflexivity|].
  intros x Hx. apply resolve_put_row_none; [|exact Hx].
  simpl. rewrite Hid.
  destruct (resolve_some _ _ _ _ Hres) as (_ & Ht & _).
  intros He. rewrite Ht in He. subst x. congruence.
Qed.

Lemma delete_body_lookup_then_edit user_id :
  lookup_then_edit user_id
    (fun deleted_count task_id =>
       task <- TaskService.get_task_by_id user_id task_id ;;
       match task with
       | None => raise (TaskNotFound task_id)
       | Some task => db_delete task ;;; ret (deleted_count + 1)
       end).
Proof.
  intros acc task_id db. cbv beta. unfold bind.
  rewrite get_task_by_id_resolve.
  destruct (resolve user_id task_id (txn db)) as [t|] eqn:Hres; [|reflexivity].
  do 2 eexists. split; [reflexivity|].
  intros x Hx. now apply resolve_drop_row_none.
Qed.

Lemma rolled_back_not_found user_id body task_ids db :
  lookup_then_edit user_id body ->
  (exists bad, In bad task_ids /\ resolve user_id bad (txn db) = None) ->
  exists task_id,
    try_except
      (count <- for_loop task_ids 0 body ;; db_commit ;;; ret count)
      (fun e => db_rollback ;;; raise e) db
    = (Raise (TaskNotFound task_id), set_txn (table db) db).
Proof.
  intros Hbody Hbad.
  destruct (for_loop_not_found user_id body Hbody task_ids 0 db (txn db) Hbad)
    as (task_id & rows & Hloop).
  rewrite set_txn_self in Hloop.
  exists task_id. unfold try_except, bind at 1. rewrite Hloop.
  reflexivity.
Qed.

(** A bulk call whose list holds an identifier that does not resolve for
    the caller raises the not-found exception after a rollback. *)
Lemma bulk_operations_not_found user_id action task_ids db :
  (exists bad, In bad task_ids /\ resolve user_id bad (txn db) = None) ->
  exists task_id,
    bulk_operations user_id action task_ids db
    = (Raise (TaskNotFound task_id), set_txn (table db) db).
Proof.
  intros Hbad. destruct action as [| | |p]; cbn [bulk_operations].
  - apply (rolled_back_not_found user_id _ task_ids db
             (delete_body_lookup_then_edit user_id) Hbad).
  - apply (rolled_back_not_found user_id _ task_ids db
             (edit_body_lookup_then_edit user_id (Assign.completed true)
                (fun _ => eq_refl)) Hbad).
  - apply (rolled_back_not_found user_id _ task_ids db
             (edit_body_lookup_then_edit user_id (Assign.completed false)
                (fun _ => eq_refl)) Hbad).
  - unfold TaskService.bulk_priority_change.
    replace (negb (Py.str_in (priority_name p) TaskService.priority_levels))
      with false by now destruct p.
    apply (rolled_back_not_found user_id _ task_ids db
             (edit_body_lookup_then_edit user_id
                (Assign.priority (priority_name p)) (fun _ => eq_refl)) Hbad).
Qed.

(** With a priority outside the three levels the priority change raises
    the validation error before it looks at any identifier. *)
Lemma bulk_priority_change_invalid user_id task_ids priority db :
  Py.str_in priority TaskService.priority_levels = false ->
  TaskService.bulk_priority_change user_id task_ids priority db
  = (Raise (ValueError "Priority must be one of: low, medium, high"), db).
Proof.
  intros H. unfold TaskService.bulk_priority_change. now rewrite H.
Qed.

(** C2: a bulk call (delete, complete, pending, or priority change to one
    of the three levels) over a list holding at least one identifier that
    does not resolve to a task of the caller raises the not-found
    exception and leaves the store as it was: the session after the call
    is the session before it, so every task, the valid ones of the list
    included, is unmodified. *)
Theorem bulk_operations_all_or_nothing
  (user_id : UUID) (action : BulkAction) (task_ids : list Z) (db : Db)
  (bad : Z) :
  txn db = table db ->
  In bad task_ids ->
  fst (TaskService.get_task_by_id user_id bad db) = Return None ->
  is_not_found (fst (bulk_operations user_id action task_ids db))
  /\ snd (bulk_operations user_id action task_ids db) = db.
Proof.
  intros Hclean Hin Hbad.
  rewrite get_task_by_id_resolve in Hbad. simpl in Hbad.
  assert (Hres : resolve user_id bad (txn db) = None) by congruence.
  destruct (bulk_operations_not_found user_id action task_ids db) as (tid & ->).
  { exists bad. auto. }
  simpl. split; [now exists tid|]. now apply set_txn_table.
Qed.

Lemma bulk_operations_all_or_nothing_example :
  txn sample_db = table sample_db
  /\ In 999999 [1; 999999]
  /\ fst (TaskService.get_task_by_id 1%N 999999 sample_db) = Return None
  /\ is_not_found (fst (bulk_operations 1%N ActDelete [1; 999999] sample_db))
  /\ snd (bulk_operations 1%N ActDelete [1; 999999] sample_db) = sample_db.
Proof.
  split; [reflexivity|]. split; [right; left; reflexivity|].
  split; [reflexivity|].
  apply (bulk_operations_all_or_nothing 1%N ActDelete [1; 999999] sample_db
           999999).
  - reflexivity.
  - right; left; reflexivity.
  - reflexivity.
Defined.

(** ** Saving an edited task *)

Lemma find_put_row_id task_id t' rows :
  Task.id t' = task_id ->
  (exists r, In r rows /\ Task.id r = task_id) ->
  find (fun r => Task.id r =? task_id) (put_row t' rows) = Some t'.
Proof. intros <-. apply find_put_row. Qed.

(** [db.add(task); db.commit(); db.refresh(task); return task] for a task
    whose row is in the transaction. *)
Lemma save_returns (task : Task.t) (db : Db) :
  (exists r, In r (txn db) /\ Task.id r = Task.id task) ->
  (db_add task ;;; db_commit ;;;
   task' <- db_refresh (Task.id task) ;; ret (Some task')) db
  = (Return (Some (touch (clock db) task)),
     {| table := put_row (touch (clock db) task) (txn db);
        txn := put_row (touch (clock db) task) (txn db);
        clock := clock db;
        next_id := next_id db |}).
Proof.
  intros Hrow. unfold bind, db_add, db_commit, db_refresh, set_txn.
  cbn [txn table clock next_id].
  rewrite (find_put_row_id (Task.id task) (touch (clock db) task) (txn db))
    by (auto; reflexivity).
  reflexivity.
Qed.

Lemma put_row_In_other t' rows r :
  In r rows -> Task.id r <> Task.id t' -> In r (put_row t' rows).
Proof.
  intros Hin Hne. unfold put_row. apply in_map_iff. exists r.
  apply Z.eqb_neq in Hne. rewrite Hne. auto.
Qed.

Lemma put_row_In_inv t' rows r :
  In r (put_row t' rows) ->
  r = t' \/ (In r rows /\ Task.id r <> Task.id t').
Proof.
  unfold put_row. rewrite in_map_iff. intros (x & Hx & Hin).
  destruct (Z.eqb_spec (Task.id x) (Task.id t')); subst; auto.
Qed.

Lemma toggle_complete_returns user_id task_id c db :
  exists r db',
    TaskService.toggle_complete user_id task_id c db = (Return r, db').
Proof.
  unfold TaskService.toggle_complete. unfold bind at 1.
  rewrite get_task_by_id_resolve.
  destruct (resolve user_id task_id (txn db)) as [t|] eqn:Hres.
  - cbv beta iota zeta.
    rewrite (save_returns (Assign.completed c t) db).
    + eauto.
    + exists t. split; [|reflexivity]. now apply resolve_some in Hres.
  - unfold ret. eauto.
Qed.

(** C10: on a task of the caller, toggle_complete returns the task with
    completed set to the given value and nothing else of the listed fields
    touched (title, description, priority, due date, tags, owner; the
    identifier and the created timestamp too), rewrites that one row of the
    store and leaves every other row as it is; it has no validation step:
    whatever the identifier and the value, the call returns and never
    raises. *)
Theorem toggle_complete_sets_only_completed
  (user_id : UUID) (c : bool) (db : Db) (t : Task.t) :
  well_formed db -> In t (table db) -> Task.user_id t = user_id ->
  exists t' db',
    TaskService.toggle_complete user_id (Task.id t) c db
    = (Return (Some t'), db')
    /\ Task.completed t' = c
    /\ Task.title t' = Task.title t
    /\ Task.description t' = Task.description t
    /\ Task.priority t' = Task.priority t
    /\ Task.due_date t' = Task.due_date t
    /\ Task.tags t' = Task.tags t
    /\ Task.user_id t' = Task.user_id t
    /\ Task.id t' = Task.id t
    /\ Task.created_at t' = Task.created_at t
    /\ table db' = map (fun r => if Task.id r =? Task.id t then t' else r)
                     (table db)
    /\ (forall r, In r (table db) -> Task.id r <> Task.id t ->
                  In r (table db'))
    /\ (forall r, In r (table db') ->
                  r = t' \/ (In r (table db) /\ Task.id r <> Task.id t))
    /\ (forall any_user any_id any_value any_db,
          exists r db'',
            TaskService.toggle_complete any_user any_id any_value any_db
            = (Return r, db'')).
Proof.
  intros (Hclean & Hnd & _) Hin Hown.
  unfold TaskService.toggle_complete. unfold bind at 1.
  rewrite get_task_by_id_resolve, Hclean.
  subst user_id. rewrite (resolve_own (table db) t Hnd Hin).
  cbv beta iota zeta.
  rewrite (save_returns (Assign.completed c t) db)
    by (exists t; rewrite Hclean; auto).
  rewrite Hclean.
  exists (touch (clock db) (Assign.completed c t)). eexists.
  split; [reflexivity|]. cbn [table].
  repeat (split; [reflexivity|]).
  split; [|split].
  - intros r Hr Hne. now apply put_row_In_other.
  - intros r Hr. now apply put_row_In_inv in Hr.
  - intros. apply toggle_complete_returns.
Qed.

Lemma sample_db_well_formed : well_formed sample_db.
Proof.
  split; [reflexivity|]. split.
  - simpl. repeat constructor; simpl; intuition discriminate.
  - simpl. repeat constructor.
Qed.

Lemma toggle_complete_sets_only_completed_example :
  let t := sample_task 2 1%N "Medium Priority Task" "medium"
             ["work"; "urgent"] false (Some 50) in
  well_formed sample_db /\ In t (table sample_db) /\ Task.user_id t = 1%N
  /\ exists t' db',
      TaskService.toggle_complete 1%N (Task.id t) true sample_db
      = (Return (Some t'), db')
      /\ Task.completed t' = true
      /\ Task.title t' = Task.title t.
Proof.
  cbv zeta. split; [exact sample_db_well_formed|].
  split; [right; left; reflexivity|]. split; [reflexivity|].
  destruct (toggle_complete_sets_only_completed 1%N true sample_db
              (sample_task 2 1%N "Medium Priority Task" "medium"
                 ["work"; "urgent"] false (Some 50)))
    as (t' & db' & Hrun & Hc & Ht & _).
  - exact sample_db_well_formed.
  - right; left; reflexivity.
  - reflexivity.
  - exists t', db'. auto.
Defined.

(** ** Isolation between owners *)

Lemma firstn_subset {X} n (l : list X) x : In x (firstn n l) -> In x l.
Proof.
  revert l. induction n as [|n IH]; intros [|y l]; simpl; try tauto.
  intros [->|H]; auto.
Qed.

Lemma skipn_subset {X} n (l : list X) x : In x (skipn n l) -> In x l.
Proof.
  revert l. induction n as [|n IH]; intros [|y l]; simpl; try tauto.
  intros H. right. auto.
Qed.

Lemma window_In st rows x : In x (window st rows) -> In x rows.
Proof.
  unfold window. intros H.
  assert (H1 : In x match offset_clause st with
                    | Some n => skipn (Z.to_nat n) rows
                    | None => rows
                    end).
  { destruct (limit_clause st); [eapply firstn_subset; eauto | exact H]. }
  destruct (offset_clause st); [eapply skipn_subset; eauto | exact H1].
Qed.

Lemma exec_all_In st db rows x :
  fst (exec_all st db) = Return rows -> In x rows ->
  In x (txn db) /\ matches st x = true.
Proof.
  unfold exec_all.
  destruct (negative (offset_clause st)); [discriminate|].
  destruct (negative (limit_clause st)); [discriminate|].
  simpl. intros [= <-] Hin. apply window_In in Hin.
  unfold ordered in Hin.
  destruct (order_clause st); [apply sort_rows_In in Hin|];
    now apply filter_In in Hin.
Qed.

Lemma exec_all_same_rows st db db' :
  filter (matches st) (txn db) = filter (matches st) (txn db') ->
  fst (exec_all st db) = fst (exec_all st db').
Proof.
  intros H. unfold exec_all.
  destruct (negative (offset_clause st)); [reflexivity|].
  destruct (negative (limit_clause st)); [reflexivity|].
  simpl. now rewrite H.
Qed.

Lemma exec_all_session st db : snd (exec_all st db) = db.
Proof.
  unfold exec_all.
  destruct (negative (offset_clause st)); [reflexivity|].
  destruct (negative (limit_clause st)); reflexivity.
Qed.

Section IsolationFacts.
Context {P : Platform}.

(** Whatever the page, a query that returns gives the size of the
    filtered set and rows of that set. *)
Lemma get_tasks_page user_id status priority due_date tags search
  sort sort_direction page limit_ db tasks total_count :
  fst (TaskService.get_tasks user_id status priority due_date tags search
         sort sort_direction page limit_ db) = Return (tasks, total_count) ->
  total_count
  = Z.of_nat
      (List.length
         (filter
            (matches (filtered user_id status priority due_date tags search))
            (txn db)))
  /\ forall x, In x tasks ->
       In x (txn db)
       /\ matches (filtered user_id status priority due_date tags search) x
          = true.
Proof.
  rewrite get_tasks_steps. unfold bind at 1. unfold exec_count, bind at 1.
  rewrite exec_all_plain by apply plain_filtered.
  unfold ret at 1. unfold bind.
  set (st := limit _ _).
  destruct (exec_all st db) as [[rows|e] db'] eqn:Hrun; [|discriminate].
  unfold ret. simpl. intros [= <- <-]. split; [reflexivity|].
  intros x Hin.
  assert (Hfst : fst (exec_all st db) = Return rows) by now rewrite Hrun.
  exact (exec_all_In st db rows x Hfst Hin).
Qed.

(** The rows a query returns are rows of the caller. *)
Lemma get_tasks_rows_of_owner user_id status priority due_date tags search
  sort sort_direction page limit_ db tasks total_count x :
  fst (TaskService.get_tasks user_id status priority due_date tags search
         sort sort_direction page limit_ db) = Return (tasks, total_count) ->
  In x tasks -> In x (txn db) /\ Task.user_id x = user_id.
Proof.
  intros Hrun Hin.
  destruct (get_tasks_page _ _ _ _ _ _ _ _ _ _ _ _ _ Hrun) as [_ Hrows].
  destruct (Hrows x Hin) as [Hx Hm]. split; [exact Hx|].
  eapply matches_filtered_owner. exact Hm.
Qed.

(** What a query returns depends on the rows of the caller only. *)
Lemma get_tasks_same_rows user_id status priority due_date tags search
  sort sort_direction page limit_ db db' :
  filter (matches (filtered user_id status priority due_date tags search))
    (txn db)
  = filter (matches (filtered user_id status priority due_date tags search))
      (txn db') ->
  fst (TaskService.get_tasks user_id status priority due_date tags search
         sort sort_direction page limit_ db)
  = fst (TaskService.get_tasks user_id status priority due_date tags search
           sort sort_direction page limit_ db').
Proof.
  intros H. rewrite get_tasks_steps. unfold bind at 1 3.
  unfold exec_count, bind at 1 3.
  rewrite !exec_all_plain by apply plain_filtered.
  unfold ret at 1 3. unfold bind. rewrite H.
  set (st := limit _ _).
  pose proof (exec_all_same_rows st db db' H) as Hsame.
  destruct (exec_all st db) as [[rows|e] d1], (exec_all st db') as [[rows'|e'] d2];
    simpl in Hsame; try discriminate; injection Hsame as ->; reflexivity.
Qed.

End IsolationFacts.

Lemma rows_without st (other : UUID) t db :
  NoDup (map Task.id (txn db)) -> In t (txn db) ->
  Task.user_id t <> other ->
  (forall x, matches st x = true -> Task.user_id x = other) ->
  filter (matches st) (txn (without (Task.id t) db))
  = filter (matches st) (txn db).
Proof.
  intros Hnd Hin Hneq Hown. cbn [without txn].
  apply filter_filter_absorb. intros x Hx Hm.
  apply negb_true_iff, Z.eqb_neq. intros Hid.
  assert (x = t) by now apply (NoDup_map_same Task.id (txn db)).
  subst x. apply Hneq. now apply Hown.
Qed.

(** C3: a task of owner A is out of reach of any other owner B.  With B as
    the caller and the identifier of A's task: the read returns None;
    update, delete and toggle return None / False and leave the session as
    it is; every bulk call (any of the four actions of a validated
    request) whose list holds that identifier fails with not-found and
    leaves the session as it is; B's statistics and B's
    queries are what they are without A's task, and no page of B's queries
    holds it. *)
Theorem tasks_of_one_owner_are_out_of_reach {P : Platform}
  (A B : UUID) (t : Task.t) (db : Db) :
  well_formed db -> In t (table db) -> Task.user_id t = A -> A <> B ->
  TaskService.get_task_by_id B (Task.id t) db = (Return None, db)
  /\ (forall title description priority due_date tags completed,
        TaskService.update_task B (Task.id t) title description priority
          due_date tags completed db = (Return None, db))
  /\ TaskService.delete_task B (Task.id t) db = (Return false, db)
  /\ (forall value,
        TaskService.toggle_complete B (Task.id t) value db = (Return None, db))
  /\ (forall action task_ids,
        In (Task.id t) task_ids ->
        is_not_found (fst (bulk_operations B action task_ids db))
        /\ snd (bulk_operations B action task_ids db) = db)
  /\ fst (TaskService.get_statistics B db)
     = fst (TaskService.get_statistics B (without (Task.id t) db))
  /\ (forall status priority due_date tags search sort sort_direction
             page limit_,
        fst (TaskService.get_tasks B status priority due_date tags search
               sort sort_direction page limit_ db)
        = fst (TaskService.get_tasks B status priority due_date tags search
                 sort sort_direction page limit_ (without (Task.id t) db))
        /\ forall tasks total_count,
             fst (TaskService.get_tasks B status priority due_date tags search
                    sort sort_direction page limit_ db)
             = Return (tasks, total_count) ->
             ~ In t tasks).
Proof.
  intros (Hclean & Hnd & _) Hin HA Hneq.
  assert (Hres : resolve B (Task.id t) (txn db) = None).
  { rewrite Hclean. apply resolve_other_owner; congruence. }
  assert (Hget : TaskService.get_task_by_id B (Task.id t) db
                 = (Return None, db))
    by now rewrite get_task_by_id_resolve, Hres.
  split; [exact Hget|].
  split; [intros; unfold TaskService.update_task, bind; now rewrite Hget|].
  split; [unfold TaskService.delete_task, bind; now rewrite Hget|].
  split; [intros; unfold TaskService.toggle_complete, bind; now rewrite Hget|].
  split.
  { intros action task_ids Hid.
    destruct (bulk_operations_not_found B action task_ids db) as (tid & ->).
    - exists (Task.id t). auto.
    - simpl. split; [now exists tid|]. now apply set_txn_table. }
  rewrite <- Hclean in Hnd, Hin.
  assert (Hta : Task.user_id t <> B) by congruence.
  split.
  { unfold TaskService.get_statistics, bind.
    rewrite !exec_all_plain by (unfold plain; simpl; tauto).
    rewrite (rows_without _ B t db Hnd Hin Hta).
    - reflexivity.
    - intros x. rewrite matches_where.
      intros [_ H]%andb_true_iff. now apply N.eqb_eq. }
  intros status priority due_date tags search sort sort_direction page limit_.
  split.
  - apply get_tasks_same_rows. symmetry.
    apply (rows_without _ B t db Hnd Hin Hta).
    intros x. apply matches_filtered_owner.
  - intros tasks total_count Hrun Ht.
    destruct (get_tasks_rows_of_owner _ _ _ _ _ _ _ _ _ _ _ _ _ _ Hrun Ht)
      as [_ Hown].
    congruence.
Qed.

Lemma tasks_of_one_owner_are_out_of_reach_example :
  let t := sample_task 5 2%N "Other owner" "medium" ["work"] false None in
  well_formed sample_db /\ In t (table sample_db)
  /\ Task.user_id t = 2%N /\ 2%N <> 1%N
  /\ TaskService.get_task_by_id 1%N (Task.id t) sample_db
     = (Return None, sample_db)
  /\ TaskService.delete_task 1%N (Task.id t) sample_db
     = (Return false, sample_db).
Proof.
  cbv zeta. split; [exact sample_db_well_formed|].
  split; [do 4 right; left; reflexivity|]. split; [reflexivity|].
  split; [discriminate|].
  destruct (tasks_of_one_owner_are_out_of_reach (P := sample_platform)
              2%N 1%N
              (sample_task 5 2%N "Other owner" "medium" ["work"] false None)
              sample_db)
    as (Hread & _ & Hdelete & _).
  - exact sample_db_well_formed.
  - do 4 right; left; reflexivity.
  - reflexivity.
  - discriminate.
  - split; [exact Hread|exact Hdelete].
Defined.

(** ** Tags on create and update *)

Lemma bind_return_inv {A B} (m : M A) (k : A -> M B) db b db' :
  bind m k db = (Return b, db') ->
  exists a db1, m db = (Return a, db1) /\ k a db1 = (Return b, db').
Proof.
  unfold bind. destruct (m db) as [[a|e] db1]; [eauto|discriminate].
Qed.

Lemma bind_run {A B} (m : M A) (k : A -> M B) db a db1 :
  m db = (Return a, db1) -> bind m k db = k a db1.
Proof. unfold bind. now intros ->. Qed.

Lemma find_fresh (n : Z) (x : Task.t) (rows : list Task.t) :
  Forall (fun t => Task.id t < n) rows -> Task.id x = n ->
  find (fun r => Task.id r =? n) (rows ++ [x]) = Some x.
Proof.
  intros Hall Hx. induction Hall as [|r rows Hr _ IH]; simpl.
  - now rewrite Hx, Z.eqb_refl.
  - destruct (Z.eqb_spec (Task.id r) n); [lia|exact IH].
Qed.

Lemma put_row_In_self t' rows :
  (exists r, In r rows /\ Task.id r = Task.id t') -> In t' (put_row t' rows).
Proof.
  intros (r & Hin & Hid). unfold put_row. apply in_map_iff.
  exists r. now rewrite Hid, Z.eqb_refl.
Qed.

Lemma bind_raises {A B} (m : M A) (k : A -> M B) db e db1 :
  m db = (Raise e, db1) -> bind m k db = (Raise e, db1).
Proof. unfold bind. now intros ->. Qed.

(** ** Update: assignments on the session's object *)

Lemma len_zero s : (Py.len s =? 0) = true <-> s = "".
Proof.
  unfold Py.len. destruct s; [simpl; tauto|].
  split; [|discriminate]. intros H. apply Z.eqb_eq in H.
  simpl String.length in H. lia.
Qed.

Lemma truthy_false s : Py.truthy s = false <-> s = "".
Proof. destruct s; simpl; split; congruence. Qed.

Lemma strip_empty : Py.strip "" = "".
Proof. reflexivity. Qed.

Lemma title_check title :
  negb (Py.truthy title) || (Py.len (Py.strip title) =? 0) = false
  <-> Py.strip title <> "".
Proof.
  rewrite orb_false_iff, negb_false_iff. split.
  - intros [_ H] He. apply len_zero in He. congruence.
  - intros H. split.
    + destruct title; [now destruct H|reflexivity].
    + destruct (Py.len (Py.strip title) =? 0) eqn:E; [|reflexivity].
      apply len_zero in E. contradiction.
Qed.

Lemma put_row_put_row (a b : Task.t) (rows : list Task.t) :
  Task.id a = Task.id b -> put_row a (put_row b rows) = put_row a rows.
Proof.
  intros H. unfold put_row. rewrite map_map. apply map_ext. intros r.
  rewrite H. destruct (Z.eqb_spec (Task.id r) (Task.id b)) as [E|E].
  - now rewrite Z.eqb_refl.
  - apply Z.eqb_neq in E. now rewrite E.
Qed.

Lemma unsaved_start (db : Db) (t : Task.t) : unsaved db t t db.
Proof. split; [reflexivity|]. now left. Qed.

Lemma unsaved_session db0 t0 t db :
  unsaved db0 t0 t db ->
  table db = table db0 /\ clock db = clock db0 /\ next_id db = next_id db0.
Proof. intros (_ & [[-> _]| ->]); repeat split. Qed.

Lemma assign_unsaved db0 t0 t db (edit : Task.t -> Task.t) :
  unsaved db0 t0 t db ->
  identity (edit t) = identity t ->
  assign edit t db
  = (Return (edit t), set_txn (put_row (edit t) (txn db0)) db0)
  /\ unsaved db0 t0 (edit t) (set_txn (put_row (edit t) (txn db0)) db0).
Proof.
  intros (Hid & Hdb) He. split.
  - unfold assign. destruct Hdb as [[-> _]| ->]; [reflexivity|].
    cbn [txn set_txn]. rewrite put_row_put_row; [reflexivity|].
    now injection He.
  - split; [congruence|now right].
Qed.

Lemma optional_assign_unsaved {X} (o : option X)
  (edit : X -> Task.t -> Task.t) db0 t0 t db :
  unsaved db0 t0 t db ->
  (forall x u, identity (edit x u) = identity u) ->
  exists db1,
    match o with
    | Some x => assign (edit x) t
    | None => ret t
    end db
    = (Return match o with Some x => edit x t | None => t end, db1)
    /\ unsaved db0 t0 match o with Some x => edit x t | None => t end db1.
Proof.
  intros Hp He. destruct o as [x|].
  - destruct (assign_unsaved db0 t0 t db (edit x) Hp (He x t)) as [Hrun Hp'].
    eexists. split; [exact Hrun|exact Hp'].
  - exists db. split; [reflexivity|exact Hp].
Qed.

Lemma title_step (title : option string) db0 t0 t db :
  unsaved db0 t0 t db ->
  let step :=
    match title with
    | Some title =>
        if negb (Py.truthy title) || (Py.len (Py.strip title) =? 0)
        then raise (ValueError "Title is required")
        else if Py.len (Py.strip title) >? 200
        then raise (ValueError "Title must be 200 characters or less")
        else assign (Assign.title (Py.strip title)) t
    | None => ret t
    end in
  let t1 := match title with
            | Some s => Assign.title (Py.strip s) t
            | None => t
            end in
  (title_ok title
   /\ exists db1, step db = (Return t1, db1) /\ unsaved db0 t0 t1 db1)
  \/ (~ title_ok title
      /\ exists msg, step db = (Raise (ValueError msg), db)).
Proof.
  intros Hp. cbv zeta. unfold title_ok. destruct title as [s|].
  - destruct (negb (Py.truthy s) || _) eqn:C1.
    { right. split; [|eexists; reflexivity].
      intros H. destruct (H s eq_refl) as [Hs _].
      apply title_check in Hs. congruence. }
    destruct (Py.len (Py.strip s) >? 200) eqn:C2.
    { right. split; [|eexists; reflexivity].
      intros H. destruct (H s eq_refl) as [_ Hl].
      rewrite Z.gtb_ltb in C2. apply Z.ltb_lt in C2. lia. }
    left. split.
    + intros s' [= <-]. split; [now apply title_check|].
      rewrite Z.gtb_ltb in C2. now apply Z.ltb_ge.
    + destruct (assign_unsaved db0 t0 t db (Assign.title (Py.strip s)) Hp
                  eq_refl) as [Hrun Hp'].
      eexists. split; [exact Hrun|exact Hp'].
  - left. split; [discriminate|]. exists db. split; [reflexivity|exact Hp].
Qed.

Lemma description_step (description : option string) db0 t0 t db :
  unsaved db0 t0 t db ->
  let step :=
    match description with
    | Some description =>
        if Py.len description >? 1000
        then raise (ValueError "Description must be 1000 characters or less")
        else assign (Assign.description (Some description)) t
    | None => ret t
    end in
  let t1 := match description with
            | Some d => Assign.description (Some d) t
            | None => t
            end in
  (description_ok description
   /\ exists db1, step db = (Return t1, db1) /\ unsaved db0 t0 t1 db1)
  \/ (~ description_ok description
      /\ exists msg, step db = (Raise (ValueError msg), db)).
Proof.
  intros Hp. cbv zeta. unfold description_ok. destruct description as [d|].
  - destruct (Py.len d >? 1000) eqn:C.
    { right. split; [|eexists; reflexivity].
      intros H. specialize (H d eq_refl).
      rewrite Z.gtb_ltb in C. apply Z.ltb_lt in C. lia. }
    left. split.
    + intros d' [= <-]. rewrite Z.gtb_ltb in C. now apply Z.ltb_ge.
    + destruct (assign_unsaved db0 t0 t db (Assign.description (Some d)) Hp
                  eq_refl) as [Hrun Hp'].
      eexists. split; [exact Hrun|exact Hp'].
  - left. split; [discriminate|]. exists db. split; [reflexivity|exact Hp].
Qed.

Lemma priority_step (priority : option string) db0 t0 t db :
  unsaved db0 t0 t db ->
  let step :=
    match priority with
    | Some priority =>
        if negb (Py.str_in priority TaskService.priority_levels)
        then raise (ValueError "Priority must be one of: low, medium, high")
        else assign (Assign.priority priority) t
    | None => ret t
    end in
  let t1 := match priority with
            | Some p => Assign.priority p t
            | None => t
            end in
  (priority_ok priority
   /\ exists db1, step db = (Return t1, db1) /\ unsaved db0 t0 t1 db1)
  \/ (~ priority_ok priority
      /\ exists msg, step db = (Raise (ValueError msg), db)).
Proof.
  intros Hp. cbv zeta. unfold priority_ok. destruct priority as [p|].
  - destruct (Py.str_in p TaskService.priority_levels) eqn:C; cbn [negb].
    + left. split.
      * intros p' [= <-]. apply (proj1 (str_in_In p _)). exact C.
      * destruct (assign_unsaved db0 t0 t db (Assign.priority p) Hp eq_refl)
          as [Hrun Hp'].
        eexists. split; [exact Hrun|exact Hp'].
    + right. split; [|eexists; reflexivity].
      intros H. specialize (H p eq_refl).
      apply (proj2 (str_in_In p _)) in H.
      unfold TaskService.priority_levels in C. congruence.
  - left. split; [discriminate|]. exists db. split; [reflexivity|exact Hp].
Qed.

Lemma due_date_step (due_date : option datetime) db0 t0 t db :
  unsaved db0 t0 t db ->
  let step :=
    match due_date with
    | Some due_date =>
        now <- utcnow ;;
        if due_date <? now
        then raise (ValueError "Due date cannot be in the past")
        else assign (Assign.due_date (Some due_date)) t
    | None => ret t
    end in
  let t1 := match due_date with
            | Some d => Assign.due_date (Some d) t
            | None => t
            end in
  (due_date_ok (clock db0) due_date
   /\ exists db1, step db = (Return t1, db1) /\ unsaved db0 t0 t1 db1)
  \/ (~ due_date_ok (clock db0) due_date
      /\ exists msg, step db = (Raise (ValueError msg), db)).
Proof.
  intros Hp. cbv zeta. unfold due_date_ok.
  destruct (unsaved_session _ _ _ _ Hp) as (_ & Hclock & _).
  destruct due_date as [d|].
  - unfold bind, utcnow. rewrite Hclock.
    destruct (Z.ltb_spec d (clock db0)).
    + right. split; [|eexists; reflexivity].
      intros H'. specialize (H' d eq_refl). lia.
    + left. split; [now intros d' [= <-]|].
      destruct (assign_unsaved db0 t0 t db (Assign.due_date (Some d)) Hp
                  eq_refl) as [Hrun Hp'].
      eexists. split; [exact Hrun|exact Hp'].
  - left. split; [discriminate|]. exists db. split; [reflexivity|exact Hp].
Qed.

(** [db.add(task); db.commit(); db.refresh(task); return task] at the end
    of [update_task]. *)
Lemma save_unsaved db0 t0 t db :
  unsaved db0 t0 t db ->
  (exists r, In r (txn db0) /\ Task.id r = Task.id t0) ->
  (db_add t ;;; db_commit ;;;
   task' <- db_refresh (Task.id t) ;; ret (Some task')) db
  = (Return (Some (touch (clock db0) t)),
     committed (put_row (touch (clock db0) t) (txn db0)) (next_id db0) db0).
Proof.
  intros (Hid & Hdb) (r & Hin & Hr).
  assert (Hsame : Task.id t = Task.id t0) by now injection Hid.
  destruct Hdb as [[-> _]| ->].
  - rewrite (save_returns t db0); [reflexivity|].
    exists r. split; [exact Hin|congruence].
  - rewrite (save_returns t (set_txn (put_row t (txn db0)) db0)).
    + cbn [txn set_txn clock next_id]. unfold committed.
      rewrite put_row_put_row by reflexivity. reflexivity.
    + cbn [txn set_txn]. exists t. split; [|reflexivity].
      apply put_row_In_self. exists r. split; [exact Hin|congruence].
Qed.

(** The two ways through [update_task] on a task of the caller: every
    check passes and the task is saved, or a check fails and the
    assignments made before it stay pending. *)
Lemma update_task_cases user_id task_id title description priority due_date
  tags completed db t :
  resolve user_id task_id (txn db) = Some t ->
  let t1 := match title with
            | Some s => Assign.title (Py.strip s) t | None => t end in
  let t2 := match description with
            | Some d => Assign.description (Some d) t1 | None => t1 end in
  let t3 := match priority with
            | Some p => Assign.priority p t2 | None => t2 end in
  let t4 := match due_date with
            | Some d => Assign.due_date (Some d) t3 | None => t3 end in
  let t5 := match tags with Some l => Assign.tags l t4 | None => t4 end in
  let t6 := match completed with
            | Some c => Assign.completed c t5 | None => t5 end in
  (update_acceptable (clock db) title description priority due_date
   /\ TaskService.update_task user_id task_id title description priority
        due_date tags completed db
      = (Return (Some (touch (clock db) t6)),
         committed (put_row (touch (clock db) t6) (txn db)) (next_id db) db))
  \/ (exists msg t' db',
         TaskService.update_task user_id task_id title description priority
           due_date tags completed db = (Raise (ValueError msg), db')
         /\ unsaved db t t' db'
         /\ ((~ title_ok title /\ t' = t)
             \/ (title_ok title /\ ~ description_ok description /\ t' = t1)
             \/ (title_ok title /\ description_ok description
                 /\ ~ priority_ok priority /\ t' = t2)
             \/ (title_ok title /\ description_ok description
                 /\ priority_ok priority
                 /\ ~ due_date_ok (clock db) due_date /\ t' = t3))).
Proof.
  intros Hres. cbv zeta. unfold TaskService.update_task.
  rewrite (bind_run _ _ _ _ _ (get_task_by_id_resolve user_id task_id db)).
  rewrite Hres.
  destruct (title_step title db t t db (unsaved_start db t))
    as [[Ht (db1 & H1 & P1)]|[Ht (msg & Hr)]]; cbv zeta in *.
  2:{ right. exists msg, t, db. rewrite (bind_raises _ _ _ _ _ Hr).
      split; [reflexivity|]. split; [apply unsaved_start|]. now left. }
  rewrite (bind_run _ _ _ _ _ H1).
  match type of P1 with unsaved _ _ ?x _ => set (t1 := x) in * end.
  destruct (description_step description db t t1 db1 P1)
    as [[Hd (db2 & H2 & P2)]|[Hd (msg & Hr)]]; cbv zeta in *.
  2:{ right. exists msg, t1, db1. rewrite (bind_raises _ _ _ _ _ Hr).
      split; [reflexivity|]. split; [exact P1|]. right. left. auto. }
  rewrite (bind_run _ _ _ _ _ H2).
  match type of P2 with unsaved _ _ ?x _ => set (t2 := x) in * end.
  destruct (priority_step priority db t t2 db2 P2)
    as [[Hp (db3 & H3 & P3)]|[Hp (msg & Hr)]]; cbv zeta in *.
  2:{ right. exists msg, t2, db2. rewrite (bind_raises _ _ _ _ _ Hr).
      split; [reflexivity|]. split; [exact P2|]. right. right. left. auto. }
  rewrite (bind_run _ _ _ _ _ H3).
  match type of P3 with unsaved _ _ ?x _ => set (t3 := x) in * end.
  destruct (due_date_step due_date db t t3 db3 P3)
    as [[Hdue (db4 & H4 & P4)]|[Hdue (msg & Hr)]]; cbv zeta in *.
  2:{ right. exists msg, t3, db3. rewrite (bind_raises _ _ _ _ _ Hr).
      split; [reflexivity|]. split; [exact P3|]. right. right. right. auto. }
  rewrite (bind_run _ _ _ _ _ H4).
  match type of P4 with unsaved _ _ ?x _ => set (t4 := x) in * end.
  destruct (optional_assign_unsaved tags Assign.tags db t t4 db4 P4
              (fun _ _ => eq_refl)) as (db5 & H5 & P5).
  rewrite (bind_run _ _ _ _ _ H5).
  match type of P5 with unsaved _ _ ?x _ => set (t5 := x) in * end.
  destruct (optional_assign_unsaved completed Assign.completed db t t5 db5 P5
              (fun _ _ => eq_refl)) as (db6 & H6 & P6).
  rewrite (bind_run _ _ _ _ _ H6).
  left. split; [unfold update_acceptable; auto|].
  apply (save_unsaved db t _ db6 P6).
  exists t. split; [now apply resolve_some in Hres|reflexivity].
Qed.

Lemma update_task_run user_id task_id title description priority due_date
  tags completed db t :
  resolve user_id task_id (txn db) = Some t ->
  update_acceptable (clock db) title description priority due_date ->
  let t1 := match title with
            | Some s => Assign.title (Py.strip s) t | None => t end in
  let t2 := match description with
            | Some d => Assign.description (Some d) t1 | None => t1 end in
  let t3 := match priority with
            | Some p => Assign.priority p t2 | None => t2 end in
  let t4 := match due_date with
            | Some d => Assign.due_date (Some d) t3 | None => t3 end in
  let t5 := match tags with Some l => Assign.tags l t4 | None => t4 end in
  let t6 := match completed with
            | Some c => Assign.completed c t5 | None => t5 end in
  TaskService.update_task user_id task_id title description priority due_date
    tags completed db
  = (Return (Some (touch (clock db) t6)),
     committed (put_row (touch (clock db) t6) (txn db)) (next_id db) db).
Proof.
  intros Hres (Ht & Hd & Hp & Hdue).
  destruct (update_task_cases user_id task_id title description priority
              due_date tags completed db t Hres)
    as [[_ Hrun]|(msg & t' & db' & _ & _ & Hwhy)]; [exact Hrun|].
  exfalso.
  destruct Hwhy as [[H _]|[(_ & H & _)|[(_ & _ & H & _)|(_ & _ & _ & H & _)]]];
    apply H; assumption.
Qed.

Lemma update_task_outcome user_id task_id t title description priority
  due_date tags completed db :
  resolve user_id task_id (txn db) = Some t ->
  update_acceptable (clock db) title description priority due_date
  \/ exists msg db',
       TaskService.update_task user_id task_id title description priority
         due_date tags completed db = (Raise (ValueError msg), db')
       /\ table db' = table db.
Proof.
  intros Hres.
  destruct (update_task_cases user_id task_id title description priority
              due_date tags completed db t Hres)
    as [[Hok _]|(msg & t' & db' & Hrun & Hp & _)]; [now left|].
  right. exists msg, db'. split; [exact Hrun|].
  now destruct (unsaved_session _ _ _ _ Hp).
Qed.

(** C5, as the code has it: neither create nor update validates tags.
    Whenever a create succeeds without tags, the same create with any tags
    list succeeds and stores the list as given; whenever an update of a
    task succeeds without a tags value, the same update with any tags list
    succeeds and stores the list as given.  The number of tags and their
    lengths never make the call fail. *)
Theorem create_and_update_store_any_tags
  (user_id : UUID) (title : string) (description : option string)
  (priority : string) (due_date : option datetime)
  (task_id : Z) (new_title new_description new_priority : option string)
  (new_due_date : option datetime) (new_completed : option bool)
  (tags : list string) (db : Db) :
  well_formed db ->
  (forall task0 db0,
      TaskService.create_task user_id title description priority due_date
        None db = (Return task0, db0) ->
      exists task db',
        TaskService.create_task user_id title description priority due_date
          (Some tags) db = (Return task, db')
        /\ Task.tags task = tags /\ In task (table db'))
  /\ (forall task0 db0,
        TaskService.update_task user_id task_id new_title new_description
          new_priority new_due_date None new_completed db
        = (Return (Some task0), db0) ->
        exists task db',
          TaskService.update_task user_id task_id new_title new_description
            new_priority new_due_date (Some tags) new_completed db
          = (Return (Some task), db')
          /\ Task.tags task = tags /\ In task (table db')).
Proof.
  intros (Hclean & _ & Hbelow). split.
  - intros task0 db0 H. unfold TaskService.create_task in *.
    destruct (negb (Py.truthy title) || _); [discriminate H|].
    destruct (Py.len (Py.strip title) >? 200); [discriminate H|].
    destruct (match description with Some _ => _ | None => _ end);
      [discriminate H|].
    destruct (negb (Py.str_in priority _)); [discriminate H|].
    unfold bind at 1 in H. unfold bind at 1. unfold utcnow in *.
    destruct (match due_date with Some _ => _ | None => _ end);
      [discriminate H|].
    clear H. unfold bind, db_add_new, db_commit, db_refresh.
    cbn [txn table clock next_id].
    rewrite find_fresh; [|now rewrite Hclean|reflexivity].
    do 2 eexists. split; [reflexivity|]. split.
    + simpl. now destruct tags.
    + simpl. apply in_or_app. right. now left.
  - intros task0 db0 H.
    destruct (resolve user_id task_id (txn db)) as [t|] eqn:Hres.
    + destruct (update_task_cases user_id task_id new_title new_description
                  new_priority new_due_date None new_completed db t Hres)
        as [[Hok _]|(msg & t' & db' & Hraise & _)];
        [|rewrite Hraise in H; discriminate H].
      pose proof (update_task_run user_id task_id new_title new_description
                    new_priority new_due_date (Some tags) new_completed db t
                    Hres Hok) as Hrun.
      cbv zeta in Hrun. do 2 eexists. split; [exact Hrun|]. split.
      * now destruct new_completed.
      * cbn [table committed]. apply put_row_In_self.
        exists t. split; [now apply resolve_some in Hres|].
        destruct new_completed, new_due_date, new_priority, new_description,
          new_title; reflexivity.
    + unfold TaskService.update_task in H.
      rewrite (bind_run _ _ _ _ _ (get_task_by_id_resolve user_id task_id db))
        in H.
      rewrite Hres in H. discriminate H.
Qed.

Lemma create_and_update_store_any_tags_example :
  well_formed sample_db
  /\ (exists task db',
         TaskService.create_task 1%N "Task" None "medium" None
           (Some eleven_tags) sample_db = (Return task, db')
         /\ Task.tags task = eleven_tags /\ In task (table db'))
  /\ (exists task db',
         TaskService.update_task 1%N 1 None None None None
           (Some [long_tag]) None sample_db = (Return (Some task), db')
         /\ Task.tags task = [long_tag] /\ In task (table db')).
Proof.
  split; [exact sample_db_well_formed|]. split.
  - eapply (proj1 (create_and_update_store_any_tags 1%N "Task" None "medium"
                     None 1 None None None None None eleven_tags sample_db
                     sample_db_well_formed)).
    vm_compute. reflexivity.
  - eapply (proj2 (create_and_update_store_any_tags 1%N "Task" None "medium"
                     None 1 None None None None None [long_tag] sample_db
                     sample_db_well_formed)).
    vm_compute. reflexivity.
Defined.

(** C5 as worded fails: a create with eleven tags and an update with a tag
    of 51 characters both succeed, and the task keeps those tags. *)
Lemma create_and_update_accept_tags_out_of_bounds :
  (exists task db',
      TaskService.create_task 1%N "Task" None "medium" None
        (Some eleven_tags) sample_db = (Return task, db')
      /\ Task.tags task = eleven_tags
      /\ 10 < Z.of_nat (List.length (Task.tags task)))
  /\ (exists task db',
         TaskService.update_task 1%N 1 None None None None
           (Some [long_tag]) None sample_db = (Return (Some task), db')
         /\ Task.tags task = [long_tag]
         /\ 50 < Py.len long_tag).
Proof.
  split; do 2 eexists; (split; [vm_compute; reflexivity|]);
    split; reflexivity.
Qed.

(** ** The priority sort on the scenario of section 8 *)

(** C4, evaluated: the sort key is the rank high = 1, medium = 2, low = 3;
    ascending direction returns the four tasks of the scenario as high,
    high, medium, low; descending direction, the one the claim names,
    returns them as low, medium, high, high. *)
Theorem priority_sort_desc_returns_low_first {P : Platform} :
  map TaskService.priority_order sample_rows
  = [Some 1; Some 2; Some 3; Some 1; Some 2]
  /\ (exists tasks,
         fst (TaskService.get_tasks 1%N None None None None None
                (Some "priority") (Some "asc") 1 20 sample_db)
         = Return (tasks, 4)
         /\ map Task.priority tasks = ["high"; "high"; "medium"; "low"])
  /\ (exists tasks,
         fst (TaskService.get_tasks 1%N None None None None None
                (Some "priority") (Some "desc") 1 20 sample_db)
         = Return (tasks, 4)
         /\ map Task.priority tasks = ["low"; "medium"; "high"; "high"]).
Proof.
  split; [reflexivity|].
  split; eexists; (split; [vm_compute; reflexivity|reflexivity]).
Qed.

(** ** The completed field of an imported record *)

(** C8, evaluated: the validation accepts a native boolean and the six
    strings true, false, True, False, 1, 0; it rejects "yes", "no" and
    "TRUE", which [_parse_boolean] would coerce; the row is reported as an
    error and not imported.  A JSON item that passes keeps its string. *)
Theorem completed_yes_is_rejected_by_validation {P : Platform} :
  ImportService.validate_imported_task
    (record_with_completed (ImportService.VStr "yes"))
  = ImportService.Ok
      (false, ImportService.InvalidCompleted (ImportService.VStr "yes"))
  /\ ImportService._parse_boolean (ImportService.VStr "yes") = true
  /\ ImportService.parse_csv
       [record_with_completed (ImportService.VStr "yes")]
     = ([], [ImportService.RowError 2
               (ImportService.InvalidCompleted (ImportService.VStr "yes"))])
  /\ ImportService.validate_imported_task
       (record_with_completed (ImportService.VStr "no"))
     = ImportService.Ok
         (false, ImportService.InvalidCompleted (ImportService.VStr "no"))
  /\ ImportService.validate_imported_task
       (record_with_completed (ImportService.VStr "TRUE"))
     = ImportService.Ok
         (false, ImportService.InvalidCompleted (ImportService.VStr "TRUE"))
  /\ ImportService._parse_boolean (ImportService.VStr "TRUE") = true
  /\ Forall
       (fun v =>
          ImportService.validate_imported_task (record_with_completed v)
          = ImportService.Ok (true, ImportService.NoError))
       [ImportService.VBool true; ImportService.VBool false;
        ImportService.VStr "true"; ImportService.VStr "false";
        ImportService.VStr "True"; ImportService.VStr "False";
        ImportService.VStr "1"; ImportService.VStr "0"]
  /\ map ImportService.td_completed
       (fst (ImportService.parse_json
               (ImportService.VList
                  [ImportService.VDict
                     (record_with_completed (ImportService.VStr "true"))])))
     = [ImportService.VStr "true"].
Proof.
  repeat split; try reflexivity.
  repeat constructor.
Qed.

(** ** Well-formedness is kept by every operation *)

Lemma put_row_ids t' rows : map Task.id (put_row t' rows) = map Task.id rows.
Proof.
  unfold put_row. rewrite map_map. apply map_ext. intros r.
  destruct (Z.eqb_spec (Task.id r) (Task.id t')); congruence.
Qed.

Lemma Forall_ids (n : Z) (rows : list Task.t) :
  Forall (fun t => Task.id t < n) rows <-> Forall (fun i => i < n) (map Task.id rows).
Proof. now rewrite Forall_map. Qed.

Lemma drop_row_NoDup t rows :
  NoDup (map Task.id rows) -> NoDup (map Task.id (drop_row t rows)).
Proof.
  unfold drop_row. induction rows as [|r rows IH]; simpl; intros H; [exact H|].
  inversion H as [|? ? Hnotin Hnd]; subst.
  destruct (negb _); simpl; auto.
  constructor; auto. intros Hin. apply Hnotin.
  apply in_map_iff in Hin as (x & Hx & Hin). apply filter_In in Hin as [Hin _].
  apply in_map_iff. eauto.
Qed.

Lemma drop_row_Forall (Q : Task.t -> Prop) t rows :
  Forall Q rows -> Forall Q (drop_row t rows).
Proof.
  unfold drop_row. rewrite !Forall_forall. intros H x Hx.
  apply filter_In in Hx as [Hx _]. auto.
Qed.

Lemma in_progress_put_row committed n db t' :
  in_progress committed n db ->
  in_progress committed n (set_txn (put_row t' (txn db)) db).
Proof.
  intros (Ht & Hn & Hnd & Hb). unfold in_progress. cbn [set_txn table txn next_id].
  rewrite Forall_ids, put_row_ids, <- Forall_ids. auto.
Qed.

Lemma in_progress_drop_row committed n db t :
  in_progress committed n db ->
  in_progress committed n (set_txn (drop_row t (txn db)) db).
Proof.
  intros (Ht & Hn & Hnd & Hb). unfold in_progress. cbn [set_txn table txn next_id].
  auto using drop_row_NoDup, drop_row_Forall.
Qed.

Lemma well_formed_in_progress db :
  well_formed db -> in_progress (table db) (next_id db) db.
Proof.
  intros (Hc & Hnd & Hb). unfold in_progress. rewrite Hc. auto.
Qed.

Lemma in_progress_commit committed n db :
  in_progress committed n db -> well_formed (snd (db_commit db)).
Proof.
  intros (_ & Hn & Hnd & Hb). unfold well_formed. simpl. rewrite Hn. auto.
Qed.

Lemma for_loop_keeps {A X} (I : Db -> Prop) (body : A -> X -> M A) :
  (forall acc x db, I db -> I (snd (body acc x db))) ->
  forall xs acc db, I db -> I (snd (for_loop xs acc body db)).
Proof.
  intros Hbody xs. induction xs as [|x xs IH]; intros acc db HI; [exact HI|].
  cbn [for_loop]. unfold bind.
  specialize (Hbody acc x db HI).
  destruct (body acc x db) as [[acc'|e] db']; simpl in *; auto.
Qed.

Lemma edit_body_keeps committed n user_id (edit : Task.t -> Task.t)
  acc task_id db :
  in_progress committed n db ->
  in_progress committed n
    (snd ((task <- TaskService.get_task_by_id user_id task_id ;;
           match task with
           | None => raise (TaskNotFound task_id)
           | Some task => db_add (edit task) ;;; ret (acc + 1)
           end) db)).
Proof.
  intros HI. unfold bind. rewrite get_task_by_id_resolve.
  destruct (resolve user_id task_id (txn db)); simpl; [|exact HI].
  now apply in_progress_put_row.
Qed.

Lemma delete_body_keeps committed n user_id acc task_id db :
  in_progress committed n db ->
  in_progress committed n
    (snd ((task <- TaskService.get_task_by_id user_id task_id ;;
           match task with
           | None => raise (TaskNotFound task_id)
           | Some task => db_delete task ;;; ret (acc + 1)
           end) db)).
Proof.
  intros HI. unfold bind. rewrite get_task_by_id_resolve.
  destruct (resolve user_id task_id (txn db)); simpl; [|exact HI].
  now apply in_progress_drop_row.
Qed.

Lemma transaction_keeps_well_formed (body : Z -> Z -> M Z) task_ids db :
  well_formed db ->
  (forall acc x d, in_progress (table db) (next_id db) d ->
                   in_progress (table db) (next_id db) (snd (body acc x d))) ->
  well_formed
    (snd (try_except
            (count <- for_loop task_ids 0 body ;; db_commit ;;; ret count)
            (fun e => db_rollback ;;; raise e) db)).
Proof.
  intros Hwf Hbody.
  pose proof (for_loop_keeps _ body Hbody task_ids 0 db
                (well_formed_in_progress db Hwf)) as Hloop.
  unfold try_except, bind at 1.
  destruct (for_loop task_ids 0 body db) as [[count|e] db']; simpl in Hloop.
  - unfold bind. simpl. eapply (in_progress_commit _ _ db'). exact Hloop.
  - unfold bind. simpl. destruct Hloop as (Ht & Hn & _).
    destruct Hwf as (Hc & Hnd & Hb). unfold well_formed. simpl.
    rewrite Hn, Ht. auto.
Qed.

(** The empty store is well formed, and every service call takes a well
    formed session to a well formed session. *)
Lemma well_formed_empty now : well_formed (mkDb [] [] now 1).
Proof. repeat split; constructor. Qed.

Lemma bulk_operations_well_formed user_id action task_ids db :
  well_formed db -> well_formed (snd (bulk_operations user_id action task_ids db)).
Proof.
  intros Hwf. destruct action as [| | |p]; cbn [bulk_operations].
  - apply (transaction_keeps_well_formed _ task_ids db Hwf).
    intros. now apply delete_body_keeps.
  - apply (transaction_keeps_well_formed _ task_ids db Hwf).
    intros. now apply (edit_body_keeps _ _ user_id (Assign.completed true)).
  - apply (transaction_keeps_well_formed _ task_ids db Hwf).
    intros. now apply (edit_body_keeps _ _ user_id (Assign.completed false)).
  - unfold TaskService.bulk_priority_change.
    destruct (negb _); [exact Hwf|].
    apply (transaction_keeps_well_formed _ task_ids db Hwf).
    intros. now apply (edit_body_keeps _ _ user_id
                         (Assign.priority (priority_name p))).
Qed.

Lemma create_task_well_formed user_id title description priority due_date
  tags db :
  well_formed db ->
  well_formed (snd (TaskService.create_task user_id title description
                      priority due_date tags db)).
Proof.
  intros Hwf. unfold TaskService.create_task.
  destruct (negb (Py.truthy title) || _); [exact Hwf|].
  destruct (Py.len (Py.strip title) >? 200); [exact Hwf|].
  destruct (match description with Some _ => _ | None => _ end); [exact Hwf|].
  destruct (negb (Py.str_in priority _)); [exact Hwf|].
  unfold bind at 1. unfold utcnow.
  destruct (match due_date with Some _ => _ | None => _ end); [exact Hwf|].
  destruct Hwf as (Hc & Hnd & Hb).
  unfold bind, db_add_new, db_commit, db_refresh. cbn [txn table clock next_id].
  rewrite find_fresh; [|now rewrite Hc|reflexivity].
  simpl. rewrite Hc. split; [reflexivity|]. simpl. split.
  - rewrite map_app. simpl.
    apply NoDup_app; [exact Hnd|repeat constructor; intros []|].
    intros i Hi [<-|[]]. apply in_map_iff in Hi as (x & Hx & Hin).
    rewrite Forall_forall in Hb. specialize (Hb x Hin). simpl in Hx. lia.
  - apply Forall_app. split.
    + eapply Forall_impl; [|exact Hb]. simpl. intros. lia.
    + repeat constructor. simpl. lia.
Qed.

Lemma toggle_complete_well_formed user_id task_id c db :
  well_formed db ->
  well_formed (snd (TaskService.toggle_complete user_id task_id c db)).
Proof.
  intros Hwf. unfold TaskService.toggle_complete. unfold bind at 1.
  rewrite get_task_by_id_resolve.
  destruct (resolve user_id task_id (txn db)) as [t|] eqn:Hres; [|exact Hwf].
  cbv beta iota zeta.
  rewrite (save_returns (Assign.completed c t) db)
    by (exists t; split; [now apply resolve_some in Hres|reflexivity]).
  destruct Hwf as (Hc & Hnd & Hb). unfold well_formed. cbn [snd table txn next_id].
  rewrite Forall_ids, put_row_ids, <- Forall_ids, Hc. auto.
Qed.

Lemma delete_task_well_formed user_id task_id db :
  well_formed db ->
  well_formed (snd (TaskService.delete_task user_id task_id db)).
Proof.
  intros Hwf. unfold TaskService.delete_task. unfold bind at 1.
  rewrite get_task_by_id_resolve.
  destruct (resolve user_id task_id (txn db)) as [t|]; [|exact Hwf].
  destruct Hwf as (Hc & Hnd & Hb). unfold well_formed.
  simpl. rewrite Hc. auto using drop_row_NoDup, drop_row_Forall.
Qed.

Lemma committed_put_row_well_formed t' db :
  well_formed db ->
  well_formed (committed (put_row t' (txn db)) (next_id db) db).
Proof.
  intros (Hc & Hnd & Hb). unfold well_formed, committed.
  cbn [table txn next_id].
  rewrite Forall_ids, put_row_ids, <- Forall_ids, Hc. auto.
Qed.

(** An update that returns leaves a clean session; one that raises leaves
    the assignments made before the failing check in the transaction. *)
Lemma update_task_well_formed user_id task_id title description priority
  due_date tags completed db r db' :
  well_formed db ->
  TaskService.update_task user_id task_id title description priority
    due_date tags completed db = (Return r, db') ->
  well_formed db'.
Proof.
  intros Hwf Hrun.
  destruct (resolve user_id task_id (txn db)) as [t|] eqn:Hres.
  - destruct (update_task_cases user_id task_id title description priority
                due_date tags completed db t Hres)
      as [[_ Hok]|(msg & t' & d & Hraise & _)];
      [|rewrite Hraise in Hrun; discriminate Hrun].
    rewrite Hok in Hrun. injection Hrun as _ <-.
    now apply committed_put_row_well_formed.
  - unfold TaskService.update_task in Hrun.
    rewrite (bind_run _ _ _ _ _ (get_task_by_id_resolve user_id task_id db))
      in Hrun.
    rewrite Hres in Hrun. now injection Hrun as _ <-.
Qed.

(** ** The tags filter, settled *)

(** C1, as the code has it: a comma-separated tags filter keeps a task if
    and only if the task passes the other filters and its tags contain
    every tag of the filter list (each non-blank entry, stripped); the
    entries are conjuncts, not alternatives.  The equivalence is stated on
    a first page large enough to hold the whole owner-scoped set; its
    length is the total_count, and every page of the same query, whatever
    the page number and the limit, has that total_count and is made of
    tasks of that list. *)
Theorem get_tasks_tags_filter_all_of {P : Platform}
  (user_id : UUID) (status priority due_date search : option string)
  (tags : string) (sort sort_direction : option string) (limit_ : Z)
  (db : Db) :
  Z.of_nat (List.length (txn db)) <= limit_ ->
  exists tasks total_count others others_count,
    TaskService.get_tasks user_id status priority due_date (Some tags) search
      sort sort_direction 1 limit_ db = (Return (tasks, total_count), db)
    /\ TaskService.get_tasks user_id status priority due_date None search
         sort sort_direction 1 limit_ db = (Return (others, others_count), db)
    /\ (forall t,
          In t tasks
          <-> In t others
              /\ forall tag, In tag (filter_tags tags) -> In tag (Task.tags t))
    /\ Z.of_nat (List.length tasks) = total_count
    /\ forall page page_limit page_tasks n,
         fst (TaskService.get_tasks user_id status priority due_date
                (Some tags) search sort sort_direction page page_limit db)
         = Return (page_tasks, n) ->
         n = total_count /\ forall t, In t page_tasks -> In t tasks.
Proof.
  intros Hlim.
  assert (Hfit : forall p : Task.t -> bool,
             Z.of_nat (List.length
               (sort_rows (chosen_ordering sort sort_direction)
                  (filter p (txn db)))) <= limit_).
  { intros p. rewrite sort_rows_length.
    pose proof (filter_length_le p (txn db)). lia. }
  do 4 eexists. split; [|split; [|split; [|split]]].
  - apply get_tasks_run; lia.
  - apply get_tasks_run; lia.
  - intros t. rewrite !page_slice_all by apply Hfit.
    rewrite !sort_rows_In, !filter_In, matches_filtered_tags.
    rewrite andb_true_iff, has_all_tags_spec. tauto.
  - rewrite page_slice_all by apply Hfit. now rewrite sort_rows_length.
  - intros page page_limit page_tasks n Hrun.
    destruct (get_tasks_page _ _ _ _ _ _ _ _ _ _ _ _ _ Hrun) as [-> Hrows].
    split; [reflexivity|]. intros t Ht.
    rewrite page_slice_all by apply Hfit.
    apply sort_rows_In, filter_In. now apply Hrows.
Qed.

Lemma get_tasks_tags_filter_all_of_example :
  Z.of_nat (List.length (txn sample_db)) <= 20
  /\ exists tasks total_count others others_count,
      TaskService.get_tasks (P := sample_platform) 1%N None None None
        (Some "work, urgent") None (Some "created") (Some "desc") 1 20
        sample_db = (Return (tasks, total_count), sample_db)
      /\ TaskService.get_tasks (P := sample_platform) 1%N None None None
           None None (Some "created") (Some "desc") 1 20
           sample_db = (Return (others, others_count), sample_db)
      /\ forall t,
           In t tasks
           <-> In t others
               /\ forall tag, In tag (filter_tags "work, urgent") ->
                              In tag (Task.tags t).
Proof.
  split.
  - vm_compute. discriminate.
  - destruct (get_tasks_tags_filter_all_of (P := sample_platform) 1%N None
                None None None "work, urgent" (Some "created") (Some "desc")
                20 sample_db)
      as (tasks & total_count & others & others_count & H1 & H2 & H3 & _).
    + vm_compute. discriminate.
    + exists tasks, total_count, others, others_count. auto.
Defined.

(** C1 as worded fails: the first sample task passes every other filter
    and carries one of the two tags asked for, yet the query for
    ["work,urgent"] leaves it out; only the task that carries both tags
    is returned. *)
Lemma get_tasks_tags_filter_not_any_of :
  let first := sample_task 1 1%N "High Priority Task" "high" ["work"] false None in
  let both := sample_task 2 1%N "Medium Priority Task" "medium"
                ["work"; "urgent"] false (Some 50) in
  let query tags :=
    fst (TaskService.get_tasks (P := sample_platform) 1%N None None None tags
           None (Some "created") (Some "asc") 1 20 sample_db) in
  (exists others others_count,
      query None = Return (others, others_count) /\ In first others)
  /\ has_any_tag (filter_tags "work,urgent") first = true
  /\ query (Some "work,urgent") = Return ([both], 1)
  /\ ~ In first [both].
Proof.
  cbv zeta. split; [|split; [|split]].
  - do 2 eexists. split; [vm_compute; reflexivity|]. left. reflexivity.
  - vm_compute. reflexivity.
  - vm_compute. reflexivity.
  - intros [H|[]]. discriminate H.
Qed.

(** * Further properties of the query engine *)

(** ** Sorting *)






Lemma sql_le_total_preorder {K} (le : K -> K -> bool) d nulls_last
  (col : Task.t -> option K) :
  (forall a b, le a b = true \/ le b a = true) ->
  (forall a b c, le a b = true -> le b c = true -> le a c = true) ->
  total_preorder (fun a b => sql_le le d nulls_last (col a) (col b)).
Proof.
  intros Htot Htrans. split.
  - intros a b. unfold sql_le.
    destruct (col a), (col b), d, nulls_last; simpl; auto.
  - intros a b c. unfold sql_le.
    destruct (col a), (col b), (col c), d, nulls_last; simpl;
      try discriminate; eauto.
Qed.

Lemma Z_leb_total a b : (a <=? b) = true \/ (b <=? a) = true.
Proof. destruct (Z.leb_spec a b); [auto|right; apply Z.leb_le; lia]. Qed.

Lemma Z_leb_trans a b c :
  (a <=? b) = true -> (b <=? c) = true -> (a <=? c) = true.
Proof. rewrite !Z.leb_le. lia. Qed.

Section SortFacts.
Context {P : Platform}.

Lemma chosen_ordering_total_preorder sort sort_direction :
  (forall a b, collate_le a b = true \/ collate_le b a = true) ->
  (forall a b c, collate_le a b = true -> collate_le b c = true ->
                 collate_le a c = true) ->
  total_preorder (chosen_ordering sort sort_direction).
Proof.
  intros Hct Hcr. unfold chosen_ordering, asc, desc, asc_nulls_last,
    desc_nulls_last.
  destruct (opt_is sort "title"), (opt_is sort "updated"),
    (opt_is sort "priority"), (opt_is sort "due_date"),
    (opt_is sort_direction "asc");
    apply sql_le_total_preorder;
    first [exact Hct | exact Hcr | exact Z_leb_total | exact Z_leb_trans].
Qed.


End SortFacts.



Lemma opt_is_other (o : option string) (s : string) :
  o <> Some s -> opt_is o s = false.
Proof.
  destruct o as [x|]; simpl; [|reflexivity]. intros H.
  apply String.eqb_neq. congruence.
Qed.





(** X4: the sort name and the direction are compared as they are, with no
    case folding: any sort other than the strings "title", "updated",
    "priority" and "due_date" gives the listing of sort "created", and any
    direction other than the string "asc" gives the listing of direction
    "desc". *)
Theorem get_tasks_sort_fallbacks {P : Platform}
  (user_id : UUID) (status priority due_date tags search : option string)
  (sort sort_direction : option string) (page limit_ : Z) (db : Db) :
  sort <> Some "title" -> sort <> Some "updated" ->
  sort <> Some "priority" -> sort <> Some "due_date" ->
  sort_direction <> Some "asc" ->
  (forall any_direction,
      TaskService.get_tasks user_id status priority due_date tags search
        sort any_direction page limit_ db
      = TaskService.get_tasks user_id status priority due_date tags search
          (Some "created") any_direction page limit_ db)
  /\ (forall any_sort,
        TaskService.get_tasks user_id status priority due_date tags search
          any_sort sort_direction page limit_ db
        = TaskService.get_tasks user_id status priority due_date tags search
            any_sort (Some "desc") page limit_ db).
Proof.
  intros Ht Hu Hpr Hd Hdir. split; intros x; rewrite !get_tasks_steps.
  - replace (chosen_ordering sort x) with (chosen_ordering (Some "created") x);
      [reflexivity|].
    unfold chosen_ordering.
    rewrite (opt_is_other sort "title" Ht), (opt_is_other sort "updated" Hu),
      (opt_is_other sort "priority" Hpr), (opt_is_other sort "due_date" Hd).
    reflexivity.
  - replace (chosen_ordering x sort_direction)
      with (chosen_ordering x (Some "desc")); [reflexivity|].
    unfold chosen_ordering. rewrite (opt_is_other sort_direction "asc" Hdir).
    reflexivity.
Qed.

Lemma get_tasks_sort_fallbacks_example :
  TaskService.get_tasks (P := sample_platform) 1%N None None None None None
    (Some "Title") (Some "asc") 1 20 sample_db
  = TaskService.get_tasks (P := sample_platform) 1%N None None None None None
      (Some "created") (Some "asc") 1 20 sample_db
  /\ TaskService.get_tasks (P := sample_platform) 1%N None None None None None
       (Some "title") (Some "ASC") 1 20 sample_db
     = TaskService.get_tasks (P := sample_platform) 1%N None None None None
         None (Some "title") (Some "desc") 1 20 sample_db.
Proof.
  destruct (get_tasks_sort_fallbacks (P := sample_platform) 1%N None None
              None None None (Some "Title") (Some "ASC") 1 20 sample_db)
    as [Hsort Hdir]; try discriminate.
  split; [apply Hsort|apply Hdir].
Defined.

(** ** Pages *)

Lemma total_pages_bounds total_count limit_ :
  0 <= total_count -> 1 <= limit_ ->
  0 <= total_pages total_count limit_
  /\ total_count <= total_pages total_count limit_ * limit_
  /\ (total_pages total_count limit_ - 1) * limit_ < total_count + limit_
  /\ (0 < total_count ->
      (total_pages total_count limit_ - 1) * limit_ < total_count).
Proof.
  intros Ht Hl. unfold total_pages.
  destruct (Z.gtb_spec limit_ 0) as [_|]; [|lia].
  pose proof (Z.mul_div_le (total_count + limit_ - 1) limit_ ltac:(lia)).
  pose proof (Z.mul_succ_div_gt (total_count + limit_ - 1) limit_ ltac:(lia)).
  pose proof (Z.div_pos (total_count + limit_ - 1) limit_ ltac:(lia) ltac:(lia)).
  nia.
Qed.

Lemma page_slice_nonempty {X} (page limit_ : Z) (l : list X) :
  1 <= page -> 1 <= limit_ ->
  (page_slice page limit_ l <> []
   <-> (page - 1) * limit_ < Z.of_nat (List.length l)).
Proof.
  intros Hp Hl. unfold page_slice.
  set (o := Z.to_nat ((page - 1) * limit_)).
  assert (Ho : Z.of_nat o = (page - 1) * limit_) by (unfold o; nia).
  rewrite <- Ho. clearbody o. clear Ho.
  destruct (Z.to_nat limit_) as [|n] eqn:Hn; [lia|].
  split.
  - intros H. destruct (Nat.lt_ge_cases o (List.length l)) as [|Hge]; [lia|].
    rewrite skipn_all2 in H by exact Hge. now destruct H.
  - intros H Hnil.
    assert (Hlen : List.length (skipn o l) = (List.length l - o)%nat)
      by apply length_skipn.
    destruct (skipn o l) as [|x r]; [simpl in Hlen; lia|discriminate].
Qed.

(** X5: for a limit of at least 1, every page whose offset
    (page - 1) * limit is below 2^63, which is as far as the store takes
    an OFFSET, is returned with the same total_count, the number of rows
    that pass the filters; page p holds limit tasks as long as
    p * limit <= total_count, the remaining total_count - (p - 1) * limit
    on the last page and none beyond; so a page is non-empty exactly
    when its number is at most the page count the listing route reports,
    (total_count + limit - 1) // limit. *)
Theorem get_tasks_page_sizes {P : Platform}
  (user_id : UUID) (status priority due_date tags search : option string)
  (sort sort_direction : option string) (limit_ : Z) (db : Db) :
  1 <= limit_ < 2 ^ 63 ->
  exists total_count,
    total_count
    = Z.of_nat
        (List.length
           (filter (passes user_id status priority due_date tags search)
              (txn db)))
    /\ forall page, 1 <= page -> (page - 1) * limit_ < 2 ^ 63 ->
         exists tasks,
           TaskService.get_tasks user_id status priority due_date tags search
             sort sort_direction page limit_ db
           = (Return (tasks, total_count), db)
           /\ Z.of_nat (List.length tasks)
              = Z.max 0 (Z.min limit_ (total_count - (page - 1) * limit_))
           /\ (tasks <> [] <-> page <= total_pages total_count limit_).
Proof.
  intros Hl.
  assert (Hkept : filter
                    (matches
                       (filtered user_id status priority due_date tags search))
                    (txn db)
                  = filter
                      (passes user_id status priority due_date tags search)
                      (txn db)).
  { apply filter_ext. intros t. apply matches_filtered_passes. }
  set (rows := filter (passes _ _ _ _ _ _) (txn db)) in *.
  set (sorted := sort_rows (chosen_ordering sort sort_direction) rows).
  assert (Hlen : Z.of_nat (List.length sorted) = Z.of_nat (List.length rows))
    by (unfold sorted; now rewrite sort_rows_length).
  set (total_count := Z.of_nat (List.length rows)) in *.
  destruct (total_pages_bounds total_count limit_ ltac:(lia) ltac:(lia))
    as (Hk0 & Hk1 & Hk2 & Hk3).
  exists total_count. split; [reflexivity|].
  intros page Hp Hoffset. rewrite get_tasks_run by nia.
  rewrite Hkept. fold sorted total_count.
  eexists. split; [reflexivity|]. split.
  - unfold page_slice. rewrite length_firstn, length_skipn.
    assert (0 <= (page - 1) * limit_) by nia. lia.
  - rewrite page_slice_nonempty by lia. rewrite Hlen. split; intros H.
    + destruct (Z.le_gt_cases page (total_pages total_count limit_)); [auto|].
      nia.
    + destruct (Z.eq_dec total_count 0) as [H0|H0].
      * unfold total_pages in H. rewrite H0 in H.
        destruct (Z.gtb_spec limit_ 0); [|lia].
        rewrite Z.div_small in H by lia. lia.
      * nia.
Qed.

Lemma get_tasks_page_sizes_example :
  1 <= 3 < 2 ^ 63
  /\ (forall page, 1 <= page -> (page - 1) * 3 < 2 ^ 63 ->
        exists tasks,
          TaskService.get_tasks (P := sample_platform) 1%N None None None
            None None None None page 3 sample_db
          = (Return (tasks, 4), sample_db)
          /\ Z.of_nat (List.length tasks)
             = Z.max 0 (Z.min 3 (4 - (page - 1) * 3))).
Proof.
  assert (Hl : 1 <= 3 < 2 ^ 63) by (split; [lia|vm_compute; reflexivity]).
  split; [exact Hl|].
  destruct (get_tasks_page_sizes (P := sample_platform) 1%N None None None
              None None None None 3 sample_db Hl) as (total_count & Ht & Hpages).
  vm_compute in Ht. subst total_count.
  intros page Hp Ho. destruct (Hpages page Hp Ho) as (tasks & Hrun & Hn & _).
  exists tasks. split; [exact Hrun|exact Hn].
Defined.

(** ** Filters *)

Section FilterFacts.
Context {P : Platform}.










End FilterFacts.




Lemma filter_filter_and {X} (p q : X -> bool) (l : list X) :
  filter p (filter q l) = filter (fun x => q x && p x) l.
Proof.
  induction l as [|x l IH]; simpl; [reflexivity|].
  destruct (q x); simpl; [destruct (p x)|]; now rewrite IH.
Qed.



Lemma with_tags_blank tags st :
  filter_tags tags = [] -> with_tags (Some tags) st = st.
Proof.
  unfold filter_tags, with_tags.
  generalize (Py.split "," tags). intros l. revert st.
  induction l as [|tag l IH]; intros st H; simpl in *; [reflexivity|].
  unfold with_tag at 2.
  destruct (Py.truthy (Py.strip tag)); [discriminate|]. now apply IH.
Qed.

(** X8: three filter values are silently ignored, each giving exactly the
    listing obtained without that filter: a due date string that
    [datetime.fromisoformat] rejects (after "Z" is replaced by "+00:00"),
    a search string that is blank once stripped, and a tags string with no
    non-blank entry. *)
Theorem get_tasks_ignores_malformed_and_blank_filters {P : Platform}
  (user_id : UUID) (status priority : option string)
  (bad_date blank_search blank_tags : string)
  (sort sort_direction : option string) (page limit_ : Z) (db : Db) :
  fromisoformat (Py.replace "Z" "+00:00" bad_date) = None ->
  Py.strip blank_search = "" ->
  filter_tags blank_tags = [] ->
  (forall tags search,
      TaskService.get_tasks user_id status priority (Some bad_date) tags
        search sort sort_direction page limit_ db
      = TaskService.get_tasks user_id status priority None tags search
          sort sort_direction page limit_ db)
  /\ (forall due_date tags,
        TaskService.get_tasks user_id status priority due_date tags
          (Some blank_search) sort sort_direction page limit_ db
        = TaskService.get_tasks user_id status priority due_date tags None
            sort sort_direction page limit_ db)
  /\ (forall due_date search,
        TaskService.get_tasks user_id status priority due_date
          (Some blank_tags) search sort sort_direction page limit_ db
        = TaskService.get_tasks user_id status priority due_date None search
            sort sort_direction page limit_ db).
Proof.
  intros Hdate Hsearch Htags. repeat split; intros; rewrite !get_tasks_steps;
    unfold filtered.
  - cbn [with_due_date]. rewrite Hdate. reflexivity.
  - cbn [with_search]. rewrite Hsearch. reflexivity.
  - rewrite (with_tags_blank blank_tags _ Htags). reflexivity.
Qed.

Lemma get_tasks_ignores_malformed_and_blank_filters_example :
  TaskService.get_tasks (P := sample_platform) 1%N None None
    (Some "tomorrow") None None None None 1 20 sample_db
  = TaskService.get_tasks (P := sample_platform) 1%N None None None None
      None None None 1 20 sample_db
  /\ TaskService.get_tasks (P := sample_platform) 1%N None None None None
       (Some "   ") None None 1 20 sample_db
     = TaskService.get_tasks (P := sample_platform) 1%N None None None None
         None None None 1 20 sample_db
  /\ TaskService.get_tasks (P := sample_platform) 1%N None None None
       (Some " , ,") None None None 1 20 sample_db
     = TaskService.get_tasks (P := sample_platform) 1%N None None None None
         None None None 1 20 sample_db.
Proof.
  destruct (get_tasks_ignores_malformed_and_blank_filters
              (P := sample_platform) 1%N None None "tomorrow" "   " " , ,"
              None None 1 20 sample_db) as (H1 & H2 & H3);
    try reflexivity.
  split; [apply H1|split; [apply H2|apply H3]].
Defined.

(** * Further properties of the mutation engine *)

Lemma create_checks_pass now title description priority due_date :
  create_acceptable now title description priority due_date <->
  negb (Py.truthy title) || (Py.len (Py.strip title) =? 0) = false
  /\ (Py.len (Py.strip title) >? 200) = false
  /\ match description with
     | Some d => Py.truthy d && (Py.len d >? 1000)
     | None => false
     end = false
  /\ negb (Py.str_in priority TaskService.priority_levels) = false
  /\ match due_date with Some d => d <? now | None => false end = false.
Proof.
  unfold create_acceptable. rewrite title_check, negb_false_iff, str_in_In.
  rewrite Z.gtb_ltb, Z.ltb_ge.
  assert (Hd : (forall d, description = Some d -> Py.len d <= 1000)
               <-> match description with
                   | Some d => Py.truthy d && (Py.len d >? 1000)
                   | None => false
                   end = false).
  { destruct description as [d|]; [|split; [reflexivity|discriminate]].
    rewrite andb_false_iff, Z.gtb_ltb, Z.ltb_ge, truthy_false. split.
    - intros H. right. now apply H.
    - intros [->|H] d' [= <-]; [unfold Py.len; simpl; lia|exact H]. }
  assert (Hdue : (forall d, due_date = Some d -> now <= d)
                 <-> match due_date with Some d => d <? now | None => false end
                     = false).
  { destruct due_date as [d|]; [|split; [reflexivity|discriminate]].
    rewrite Z.ltb_ge. split; [auto|now intros H d' [= <-]]. }
  rewrite Hd, Hdue. reflexivity.
Qed.

Lemma create_task_run user_id title description priority due_date tags db :
  well_formed db ->
  create_acceptable (clock db) title description priority due_date ->
  let task :=
    persist {| new_user_id := user_id;
               new_title := Py.strip title;
               new_description := description;
               new_priority := priority;
               new_due_date := due_date;
               new_tags := match tags with Some l => l | None => [] end;
               new_completed := false |} db in
  TaskService.create_task user_id title description priority due_date tags db
  = (Return task, committed (table db ++ [task]) (next_id db + 1) db).
Proof.
  intros (Hclean & _ & Hbelow) Hok. cbv zeta.
  apply create_checks_pass in Hok as (H1 & H2 & H3 & H4 & H5).
  unfold TaskService.create_task. rewrite H1, H2, H3, H4.
  unfold bind at 1. unfold utcnow. rewrite H5.
  unfold bind, db_add_new, db_commit, db_refresh, committed.
  cbn [txn table clock next_id].
  replace (match tags with Some (x :: r) => x :: r | _ => [] end)
    with (match tags with Some l => l | None => [] end)
    by (destruct tags as [[|]|]; reflexivity).
  rewrite find_fresh; [|now rewrite Hclean|reflexivity].
  rewrite Hclean. reflexivity.
Qed.

(** X9: on a well formed session and with acceptable arguments (title
    not blank and at most 200 characters once stripped, description at
    most 1000 characters, priority one of low/medium/high, due date not
    before the clock reading) create_task returns a task that is not
    completed, carries the stripped title and the other arguments as
    given (no tags meaning the empty list), has an identifier no existing
    row has and equal created and updated timestamps; the table after the
    call is the table before it with that one row appended. *)
Theorem create_task_appends_one_row
  (user_id : UUID) (title : string) (description : option string)
  (priority : string) (due_date : option datetime)
  (tags : option (list string)) (db : Db) :
  well_formed db ->
  create_acceptable (clock db) title description priority due_date ->
  exists task db',
    TaskService.create_task user_id title description priority due_date tags db
    = (Return task, db')
    /\ table db' = table db ++ [task]
    /\ well_formed db'
    /\ Task.user_id task = user_id
    /\ Task.title task = Py.strip title
    /\ Task.description task = description
    /\ Task.priority task = priority
    /\ Task.due_date task = due_date
    /\ Task.tags task = match tags with Some l => l | None => [] end
    /\ Task.completed task = false
    /\ Task.created_at task = Task.updated_at task
    /\ forall r, In r (table db) -> Task.id r <> Task.id task.
Proof.
  intros Hwf Hok.
  pose proof (create_task_run user_id title description priority due_date
                tags db Hwf Hok) as Hrun. cbv zeta in Hrun.
  do 2 eexists. split; [exact Hrun|]. split; [reflexivity|].
  split.
  { pose proof (create_task_well_formed user_id title description priority
                  due_date tags db Hwf) as H. now rewrite Hrun in H. }
  repeat (split; [reflexivity|]).
  destruct Hwf as (_ & _ & Hbelow). rewrite Forall_forall in Hbelow.
  intros r Hr. specialize (Hbelow r Hr). simpl. lia.
Qed.

Lemma create_task_appends_one_row_example :
  well_formed sample_db
  /\ create_acceptable (clock sample_db) "  Write report " (Some "") "low"
       (Some 2000)
  /\ exists task db',
      TaskService.create_task 2%N "  Write report " (Some "") "low"
        (Some 2000) None sample_db = (Return task, db')
      /\ table db' = table sample_db ++ [task]
      /\ Task.title task = "Write report".
Proof.
  assert (Hok : create_acceptable (clock sample_db) "  Write report "
                  (Some "") "low" (Some 2000)).
  { repeat split; try (vm_compute; congruence).
    - intros d [= <-]. vm_compute. discriminate.
    - simpl. auto.
    - intros d [= <-]. simpl. lia. }
  split; [exact sample_db_well_formed|]. split; [exact Hok|].
  destruct (create_task_appends_one_row 2%N "  Write report " (Some "") "low"
              (Some 2000) None sample_db sample_db_well_formed Hok)
    as (task & db' & H1 & H2 & _ & _ & H3 & _).
  exists task, db'. auto.
Defined.

(** X10: create_task refuses arguments that are not acceptable with a
    ValueError, and a refused call leaves the session exactly as it was:
    nothing is added. *)
Theorem create_task_refusal_changes_nothing
  (user_id : UUID) (title : string) (description : option string)
  (priority : string) (due_date : option datetime)
  (tags : option (list string)) (db : Db) :
  ~ create_acceptable (clock db) title description priority due_date ->
  exists msg,
    TaskService.create_task user_id title description priority due_date tags db
    = (Raise (ValueError msg), db).
Proof.
  intros Hno. rewrite create_checks_pass in Hno.
  unfold TaskService.create_task.
  destruct (negb (Py.truthy title) || _) eqn:H1; [unfold raise; eauto|].
  destruct (Py.len (Py.strip title) >? 200) eqn:H2; [unfold raise; eauto|].
  destruct (match description with Some _ => _ | None => _ end) eqn:H3;
    [unfold raise; eauto|].
  destruct (negb (Py.str_in priority _)) eqn:H4; [unfold raise; eauto|].
  unfold bind at 1. unfold utcnow.
  destruct (match due_date with Some _ => _ | None => _ end) eqn:H5;
    [unfold raise; eauto|].
  exfalso. apply Hno. auto.
Qed.

Lemma create_task_refusal_changes_nothing_example :
  ~ create_acceptable (clock sample_db) "   " None "medium" None
  /\ exists msg,
      TaskService.create_task 1%N "   " None "medium" None (Some ["a"])
        sample_db = (Raise (ValueError msg), sample_db).
Proof.
  assert (Hno : ~ create_acceptable (clock sample_db) "   " None "medium"
                    None).
  { intros (H & _). apply H. reflexivity. }
  split; [exact Hno|].
  exact (create_task_refusal_changes_nothing 1%N "   " None "medium" None
           (Some ["a"]) sample_db Hno).
Defined.

Lemma get_tasks_count_run user_id db :
  TaskService.get_tasks_count user_id db
  = (Return
       (Z.of_nat
          (List.length
             (filter (fun t => N.eqb (Task.user_id t) user_id) (txn db)))),
     db).
Proof.
  unfold TaskService.get_tasks_count, bind.
  rewrite exec_all_plain by (unfold plain; simpl; tauto).
  unfold ret. do 4 f_equal. apply filter_ext. intros r.
  rewrite matches_where. reflexivity.
Qed.

(** X11: a task that create_task returned can be read back.  Right after
    the call get_task_by_id with the owner and the new identifier returns
    that very task, any other owner gets None for it, the owner's task
    count has grown by one and every other owner's count is what it
    was. *)
Theorem create_task_then_read_back
  (user_id : UUID) (title : string) (description : option string)
  (priority : string) (due_date : option datetime)
  (tags : option (list string)) (db : Db) :
  well_formed db ->
  create_acceptable (clock db) title description priority due_date ->
  exists task db' n,
    TaskService.create_task user_id title description priority due_date tags db
    = (Return task, db')
    /\ TaskService.get_task_by_id user_id (Task.id task) db'
       = (Return (Some task), db')
    /\ (forall other, other <> user_id ->
          TaskService.get_task_by_id other (Task.id task) db'
          = (Return None, db')
          /\ fst (TaskService.get_tasks_count other db')
             = fst (TaskService.get_tasks_count other db))
    /\ TaskService.get_tasks_count user_id db = (Return n, db)
    /\ TaskService.get_tasks_count user_id db' = (Return (n + 1), db').
Proof.
  intros Hwf Hok.
  pose proof (create_task_run user_id title description priority due_date
                tags db Hwf Hok) as Hrun. cbv zeta in Hrun.
  pose proof (create_task_well_formed user_id title description priority
                due_date tags db Hwf) as Hwf'.
  rewrite Hrun in Hwf'. cbn [snd] in Hwf'.
  set (task := persist _ db) in *.
  set (db' := committed _ _ db) in *.
  assert (Hin : In task (table db')) by (apply in_or_app; right; now left).
  destruct Hwf' as (Hc' & Hnd' & _). destruct Hwf as (Hc & _ & _).
  exists task, db'. eexists. split; [exact Hrun|]. split.
  { rewrite get_task_by_id_resolve, Hc'.
    now rewrite <- (resolve_own (table db') task Hnd' Hin). }
  split.
  { intros other Hother. split.
    - rewrite get_task_by_id_resolve, Hc'.
      now rewrite (resolve_other_owner (table db') task other Hnd' Hin).
    - rewrite !get_tasks_count_run. cbn [fst txn db' committed].
      rewrite filter_app, length_app. simpl.
      destruct (N.eqb_spec user_id other); [congruence|].
      simpl. rewrite Nat.add_0_r, Hc. reflexivity. }
  split; [apply get_tasks_count_run|].
  rewrite get_tasks_count_run. cbn [txn db' committed].
  rewrite filter_app, length_app. simpl. rewrite N.eqb_refl. simpl.
  rewrite Hc. do 2 f_equal. lia.
Qed.

Lemma create_task_then_read_back_example :
  well_formed sample_db
  /\ create_acceptable (clock sample_db) "Call Bob" None "high" None
  /\ exists task db',
      TaskService.create_task 2%N "Call Bob" None "high" None None sample_db
      = (Return task, db')
      /\ TaskService.get_task_by_id 2%N (Task.id task) db'
         = (Return (Some task), db').
Proof.
  assert (Hok : create_acceptable (clock sample_db) "Call Bob" None "high"
                  None).
  { repeat split; try (vm_compute; congruence); try discriminate.
    simpl. auto. }
  split; [exact sample_db_well_formed|]. split; [exact Hok|].
  destruct (create_task_then_read_back 2%N "Call Bob" None "high" None None
              sample_db sample_db_well_formed Hok)
    as (task & db' & n & H1 & H2 & _).
  exists task, db'. auto.
Defined.

(** ** Delete *)

Lemma drop_row_In t rows r :
  In r (drop_row t rows) <-> In r rows /\ Task.id r <> Task.id t.
Proof.
  unfold drop_row. rewrite filter_In, negb_true_iff, Z.eqb_neq. tauto.
Qed.

Lemma drop_row_absent t rows :
  ~ In (Task.id t) (map Task.id rows) -> drop_row t rows = rows.
Proof.
  unfold drop_row. induction rows as [|r rows IH]; simpl; [reflexivity|].
  intros H. destruct (Z.eqb_spec (Task.id r) (Task.id t)) as [He|_].
  - exfalso. apply H. now left.
  - simpl. f_equal. apply IH. tauto.
Qed.

Lemma resolve_none_iff user_id task_id rows :
  resolve user_id task_id rows = None
  <-> forall r, In r rows ->
                ~ (Task.id r = task_id /\ Task.user_id r = user_id).
Proof.
  unfold resolve. split.
  - intros H r Hr [Hi Hu]. apply (find_none _ _ H) in Hr.
    subst. now rewrite Z.eqb_refl, N.eqb_refl in Hr.
  - intros H. destruct (find _ rows) as [r|] eqn:Hf; [|reflexivity].
    apply find_some in Hf as [Hr Hp]. apply andb_true_iff in Hp as [Hi Hu].
    apply Z.eqb_eq in Hi. apply N.eqb_eq in Hu. now destruct (H r Hr).
Qed.

(** X12: delete_task by the owner of a task returns True and removes that
    row and no other: the table after the call is the table before it
    without the row, in the same order.  The task can then no longer be
    read, a second delete of the same identifier returns False and changes
    nothing, and the owner's task count has gone down by one. *)
Theorem delete_task_removes_one_row
  (user_id : UUID) (t : Task.t) (db : Db) :
  well_formed db -> In t (table db) -> Task.user_id t = user_id ->
  exists db' n,
    TaskService.delete_task user_id (Task.id t) db = (Return true, db')
    /\ table db' = filter (fun r => negb (Task.id r =? Task.id t)) (table db)
    /\ (forall r, In r (table db') <-> In r (table db) /\ r <> t)
    /\ well_formed db'
    /\ TaskService.get_task_by_id user_id (Task.id t) db' = (Return None, db')
    /\ TaskService.delete_task user_id (Task.id t) db' = (Return false, db')
    /\ TaskService.get_tasks_count user_id db = (Return (n + 1), db)
    /\ TaskService.get_tasks_count user_id db' = (Return n, db').
Proof.
  intros Hwf Hin Hown.
  pose proof (delete_task_well_formed user_id (Task.id t) db Hwf) as Hwf'.
  destruct Hwf as (Hc & Hnd & Hb).
  assert (Hres : resolve user_id (Task.id t) (txn db) = Some t)
    by (rewrite Hc, <- Hown; now apply resolve_own).
  assert (Hrun : TaskService.delete_task user_id (Task.id t) db
                 = (Return true,
                    committed (drop_row t (table db)) (next_id db) db)).
  { unfold TaskService.delete_task. unfold bind at 1.
    rewrite get_task_by_id_resolve, Hres. unfold committed. rewrite <- Hc.
    reflexivity. }
  rewrite Hrun in Hwf'. cbn [snd] in Hwf'.
  set (db' := committed _ _ db) in *.
  assert (Hgone : resolve user_id (Task.id t) (txn db') = None).
  { apply resolve_none_iff. intros r Hr [Hi _].
    apply drop_row_In in Hr as [_ Hne]. contradiction. }
  exists db',
    (Z.of_nat
       (List.length
          (filter (fun r => N.eqb (Task.user_id r) user_id)
             (drop_row t (table db))))).
  split; [exact Hrun|]. split; [reflexivity|]. split.
  { intros r. cbn [table db' committed]. rewrite drop_row_In.
    split; intros [Hr Hne]; split; auto.
    - intros ->. now apply Hne.
    - intros Hid. apply Hne.
      now apply (NoDup_map_same Task.id (table db)). }
  split; [exact Hwf'|].
  split; [now rewrite get_task_by_id_resolve, Hgone|].
  split.
  { unfold TaskService.delete_task, bind.
    now rewrite get_task_by_id_resolve, Hgone. }
  rewrite !get_tasks_count_run. cbn [txn db' committed]. rewrite Hc.
  assert (Hlen : (List.length
                    (filter (fun r => N.eqb (Task.user_id r) user_id)
                       (table db))
                  = S (List.length
                         (filter (fun r => N.eqb (Task.user_id r) user_id)
                            (drop_row t (table db)))))%nat).
  { clear - Hnd Hin Hown. induction (table db) as [|x l IH]; [destruct Hin|].
    simpl in Hnd. inversion Hnd as [|? ? Hnot Hnd']; subst.
    destruct Hin as [->|Hin].
    - simpl. rewrite N.eqb_refl, Z.eqb_refl. simpl.
      fold (drop_row t l). now rewrite (drop_row_absent t l Hnot).
    - assert (Hne : Task.id x <> Task.id t).
      { intros He. apply Hnot. rewrite He. now apply in_map. }
      simpl. apply Z.eqb_neq in Hne. rewrite Hne. simpl.
      destruct (N.eqb (Task.user_id x) (Task.user_id t)); simpl;
        rewrite (IH Hnd' Hin); reflexivity. }
  split; [|reflexivity]. rewrite Hlen. do 2 f_equal. lia.
Qed.

Lemma delete_task_removes_one_row_example :
  let t := sample_task 3 1%N "Low Priority Task" "low" [] true None in
  well_formed sample_db /\ In t (table sample_db) /\ Task.user_id t = 1%N
  /\ exists db',
      TaskService.delete_task 1%N (Task.id t) sample_db = (Return true, db')
      /\ TaskService.get_task_by_id 1%N (Task.id t) db' = (Return None, db').
Proof.
  cbv zeta. split; [exact sample_db_well_formed|].
  split; [do 2 right; left; reflexivity|]. split; [reflexivity|].
  destruct (delete_task_removes_one_row 1%N
              (sample_task 3 1%N "Low Priority Task" "low" [] true None)
              sample_db sample_db_well_formed)
    as (db' & n & H1 & _ & _ & _ & H2 & _).
  - do 2 right; left; reflexivity.
  - reflexivity.
  - exists db'. auto.
Defined.

(** ** Update *)

(** X13: an update with acceptable arguments changes the fields that are
    given and nothing else.  On a task of the caller it returns the task
    with each provided field replaced (the title stripped) and each field
    passed as None kept, description and due date included, so neither can
    be cleared by an update; identifier, owner and created timestamp stay;
    in the table only the row of that identifier is rewritten. *)
Theorem update_task_changes_only_what_is_given
  (user_id : UUID) (t : Task.t)
  (title description priority : option string) (due_date : option datetime)
  (tags : option (list string)) (completed : option bool) (db : Db) :
  well_formed db -> In t (table db) -> Task.user_id t = user_id ->
  update_acceptable (clock db) title description priority due_date ->
  exists t' db',
    TaskService.update_task user_id (Task.id t) title description priority
      due_date tags completed db = (Return (Some t'), db')
    /\ Task.title t'
       = match title with Some s => Py.strip s | None => Task.title t end
    /\ Task.description t'
       = match description with
         | Some d => Some d
         | None => Task.description t
         end
    /\ Task.priority t'
       = match priority with Some p => p | None => Task.priority t end
    /\ Task.due_date t'
       = match due_date with Some d => Some d | None => Task.due_date t end
    /\ Task.tags t'
       = match tags with Some l => l | None => Task.tags t end
    /\ Task.completed t'
       = match completed with Some c => c | None => Task.completed t end
    /\ Task.id t' = Task.id t
    /\ Task.user_id t' = Task.user_id t
    /\ Task.created_at t' = Task.created_at t
    /\ table db' = map (fun r => if Task.id r =? Task.id t then t' else r)
                     (table db)
    /\ well_formed db'.
Proof.
  intros Hwf Hin Hown Hok.
  pose proof (update_task_well_formed user_id (Task.id t) title description
                priority due_date tags completed db) as Hwf'.
  specialize (fun r db' => Hwf' r db' Hwf).
  destruct Hwf as (Hc & Hnd & _).
  assert (Hres : resolve user_id (Task.id t) (txn db) = Some t)
    by (rewrite Hc, <- Hown; now apply resolve_own).
  pose proof (update_task_run user_id (Task.id t) title description priority
                due_date tags completed db t Hres Hok) as Hrun.
  cbv zeta in Hrun. specialize (Hwf' _ _ Hrun).
  do 2 eexists. split; [exact Hrun|].
  split; [destruct completed, tags, due_date, priority, description, title;
          reflexivity|].
  split; [destruct completed, tags, due_date, priority, description, title;
          reflexivity|].
  split; [destruct completed, tags, due_date, priority, description, title;
          reflexivity|].
  split; [destruct completed, tags, due_date, priority, description, title;
          reflexivity|].
  split; [destruct completed, tags, due_date, priority, description, title;
          reflexivity|].
  split; [destruct completed, tags, due_date, priority, description, title;
          reflexivity|].
  split; [destruct completed, tags, due_date, priority, description, title;
          reflexivity|].
  split; [destruct completed, tags, due_date, priority, description, title;
          reflexivity|].
  split; [destruct completed, tags, due_date, priority, description, title;
          reflexivity|].
  split; [|exact Hwf'].
  cbn [table committed]. rewrite Hc. unfold put_row.
  apply map_ext. intros r.
  replace (Task.id (touch (clock db) _)) with (Task.id t); [reflexivity|].
  destruct completed, tags, due_date, priority, description, title;
    reflexivity.
Qed.

Lemma update_task_changes_only_what_is_given_example :
  let t := sample_task 2 1%N "Medium Priority Task" "medium"
             ["work"; "urgent"] false (Some 50) in
  well_formed sample_db /\ In t (table sample_db) /\ Task.user_id t = 1%N
  /\ update_acceptable (clock sample_db) (Some " Plan ") None None None
  /\ exists t' db',
      TaskService.update_task 1%N (Task.id t) (Some " Plan ") None None None
        None None sample_db = (Return (Some t'), db')
      /\ Task.title t' = "Plan"
      /\ Task.due_date t' = Some 50.
Proof.
  cbv zeta.
  assert (Hok : update_acceptable (clock sample_db) (Some " Plan ") None None
                  None).
  { split; [|split; [|split]]; try discriminate.
    intros x [= <-]. split; vm_compute; congruence. }
  split; [exact sample_db_well_formed|].
  split; [right; left; reflexivity|]. split; [reflexivity|].
  split; [exact Hok|].
  destruct (update_task_changes_only_what_is_given 1%N
              (sample_task 2 1%N "Medium Priority Task" "medium"
                 ["work"; "urgent"] false (Some 50))
              (Some " Plan ") None None None None None sample_db
              sample_db_well_formed)
    as (t' & db' & H1 & H2 & _ & _ & H3 & _).
  - right; left; reflexivity.
  - reflexivity.
  - exact Hok.
  - exists t', db'. auto.
Defined.

Lemma resolve_put_row_some user_id task_id t t' rows :
  resolve user_id task_id rows = Some t ->
  Task.id t' = Task.id t -> Task.user_id t' = Task.user_id t ->
  resolve user_id task_id (put_row t' rows) = Some t'.
Proof.
  intros Hres Hid Hown.
  destruct (resolve_some _ _ _ _ Hres) as (_ & Ht & Hu).
  unfold resolve in *. induction rows as [|r rows IH]; [discriminate Hres|].
  cbn [put_row map find] in *. fold (put_row t' rows).
  destruct (Z.eqb_spec (Task.id r) (Task.id t')) as [E|E].
  - now rewrite Hid, Ht, Z.eqb_refl, Hown, Hu, N.eqb_refl.
  - destruct ((Task.id r =? task_id) && (Task.user_id r =? user_id)%N)
      eqn:Hr.
    + injection Hres as <-. congruence.
    + now apply IH.
Qed.

Lemma unsaved_resolve user_id task_id db t t' db' :
  resolve user_id task_id (txn db) = Some t ->
  unsaved db t t' db' ->
  resolve user_id task_id (txn db') = Some t'.
Proof.
  intros Hres (Hid & [[-> ->]| ->]); [exact Hres|].
  cbn [txn set_txn]. injection Hid as Hi Hu _.
  now apply (resolve_put_row_some user_id task_id t).
Qed.

(** X14: an update of a task of the caller with an argument that fails
    its check raises a ValueError and commits nothing, but it is not
    undone either.  The checks run in the order title, description,
    priority, due date, and each argument is assigned to the session's
    task as soon as its own check has passed: after the refusal the
    session holds the task with the arguments before the failing one
    assigned (a title when the title check passed, a description when
    the first two passed, a priority when the first three passed; due
    date, tags and completed flag never), the table still holding the old
    row.  The next commit of the session stores them: a toggle_complete
    on the task returns and stores the task with the title, description
    and priority the refused update left. *)
Theorem update_task_refusal_leaves_assignments_pending
  (user_id : UUID) (task_id : Z) (t : Task.t)
  (title description priority : option string) (due_date : option datetime)
  (tags : option (list string)) (completed : option bool) (db : Db) :
  fst (TaskService.get_task_by_id user_id task_id db) = Return (Some t) ->
  ~ update_acceptable (clock db) title description priority due_date ->
  exists msg t' db',
    TaskService.update_task user_id task_id title description priority
      due_date tags completed db = (Raise (ValueError msg), db')
    /\ table db' = table db
    /\ TaskService.get_task_by_id user_id task_id db'
       = (Return (Some t'), db')
    /\ identity t' = identity t
    /\ (title_ok title ->
        Task.title t'
        = match title with Some s => Py.strip s | None => Task.title t end)
    /\ (~ title_ok title -> t' = t /\ db' = db)
    /\ (title_ok title -> description_ok description ->
        Task.description t'
        = match description with
          | Some d => Some d
          | None => Task.description t
          end)
    /\ (~ description_ok description ->
        Task.description t' = Task.description t)
    /\ (title_ok title -> description_ok description ->
        priority_ok priority ->
        Task.priority t'
        = match priority with Some p => p | None => Task.priority t end)
    /\ (~ priority_ok priority -> Task.priority t' = Task.priority t)
    /\ Task.due_date t' = Task.due_date t
    /\ Task.tags t' = Task.tags t
    /\ Task.completed t' = Task.completed t
    /\ forall value,
         exists stored db'',
           TaskService.toggle_complete user_id task_id value db'
           = (Return (Some stored), db'')
           /\ In stored (table db'')
           /\ Task.title stored = Task.title t'
           /\ Task.description stored = Task.description t'
           /\ Task.priority stored = Task.priority t'.
Proof.
  intros Hget Hno. rewrite get_task_by_id_resolve in Hget.
  injection Hget as Hres.
  destruct (update_task_cases user_id task_id title description priority
              due_date tags completed db t Hres)
    as [[Hok _]|(msg & t' & db' & Hrun & Hp & Hwhy)]; [contradiction|].
  pose proof (unsaved_resolve user_id task_id db t t' db' Hres Hp) as Hres'.
  destruct (unsaved_session _ _ _ _ Hp) as (Htable & _).
  exists msg, t', db'. split; [exact Hrun|]. split; [exact Htable|].
  split; [rewrite get_task_by_id_resolve; now rewrite Hres'|].
  split; [exact (proj1 Hp)|].
  split.
  { intros H.
    destruct Hwhy as [[Hbad _]|[(_ & _ & ->)|[(_ & _ & _ & ->)
                                            |(_ & _ & _ & _ & ->)]]];
      [contradiction| | |];
      destruct priority, description, title; reflexivity. }
  split.
  { intros Hbad.
    destruct Hwhy as [[_ ->]|[(H & _)|[(H & _)|(H & _)]]];
      try contradiction.
    split; [reflexivity|].
    unfold TaskService.update_task in Hrun.
    rewrite (bind_run _ _ _ _ _ (get_task_by_id_resolve user_id task_id db))
      in Hrun.
    rewrite Hres in Hrun.
    destruct (title_step title db t t db (unsaved_start db t))
      as [[Ht _]|[_ (msg' & Hr)]]; [contradiction|].
    cbv zeta in Hr. rewrite (bind_raises _ _ _ _ _ Hr) in Hrun.
    now injection Hrun as _ <-. }
  split.
  { intros H1 H2.
    destruct Hwhy as [[Hbad _]|[(_ & Hbad & _)|[(_ & _ & _ & ->)
                                               |(_ & _ & _ & _ & ->)]]];
      [contradiction|contradiction| |];
      destruct priority, description, title; reflexivity. }
  split.
  { intros Hbad.
    destruct Hwhy as [[_ ->]|[(_ & _ & ->)|[(_ & H & _)|(_ & H & _)]]];
      [reflexivity|now destruct title|contradiction|contradiction]. }
  split.
  { intros H1 H2 H3.
    destruct Hwhy as [[Hbad _]|[(_ & Hbad & _)|[(_ & _ & Hbad & _)
                                               |(_ & _ & _ & _ & ->)]]];
      [contradiction|contradiction|contradiction|].
    destruct priority, description, title; reflexivity. }
  split.
  { intros Hbad.
    destruct Hwhy as [[_ ->]|[(_ & _ & ->)|[(_ & _ & _ & ->)
                                          |(_ & _ & H & _)]]];
      [reflexivity|now destruct title|now destruct description, title
      |contradiction]. }
  assert (Hrest : Task.due_date t' = Task.due_date t
                  /\ Task.tags t' = Task.tags t
                  /\ Task.completed t' = Task.completed t).
  { destruct Hwhy as [[_ ->]|[(_ & _ & ->)|[(_ & _ & _ & ->)
                                          |(_ & _ & _ & _ & ->)]]];
      destruct priority, description, title; repeat split. }
  destruct Hrest as (Hdue & Htags & Hdone).
  split; [exact Hdue|]. split; [exact Htags|]. split; [exact Hdone|].
  intros value. unfold TaskService.toggle_complete.
  rewrite (bind_run _ _ _ _ _ (get_task_by_id_resolve user_id task_id db')).
  rewrite Hres'. cbv zeta.
  assert (Hrow : exists r, In r (txn db')
                           /\ Task.id r = Task.id (Assign.completed value t')).
  { exists t'. split; [now apply resolve_some in Hres'|reflexivity]. }
  rewrite (save_returns (Assign.completed value t') db' Hrow).
  do 2 eexists. split; [reflexivity|]. split.
  - cbn [table]. apply put_row_In_self. exact Hrow.
  - repeat split.
Qed.

Lemma update_task_refusal_leaves_assignments_pending_example :
  let t := sample_task 1 1%N "High Priority Task" "high" ["work"] false None in
  fst (TaskService.get_task_by_id 1%N 1 sample_db) = Return (Some t)
  /\ ~ update_acceptable (clock sample_db) (Some "Fine") None (Some "urgent")
        None
  /\ exists msg t' db',
      TaskService.update_task 1%N 1 (Some "Fine") None (Some "urgent")
        None None None sample_db = (Raise (ValueError msg), db')
      /\ table db' = table sample_db
      /\ TaskService.get_task_by_id 1%N 1 db' = (Return (Some t'), db')
      /\ Task.title t' = "Fine"
      /\ exists stored db'',
           TaskService.toggle_complete 1%N 1 true db'
           = (Return (Some stored), db'')
           /\ In stored (table db'')
           /\ Task.title stored = "Fine".
Proof.
  cbv zeta.
  assert (Hno : ~ update_acceptable (clock sample_db) (Some "Fine") None
                    (Some "urgent") None).
  { intros (_ & _ & Hp & _). specialize (Hp "urgent" eq_refl). simpl in Hp.
    intuition discriminate. }
  split; [reflexivity|]. split; [exact Hno|].
  destruct (update_task_refusal_leaves_assignments_pending 1%N 1
              (sample_task 1 1%N "High Priority Task" "high" ["work"] false
                 None)
              (Some "Fine") None (Some "urgent") None None None sample_db
              eq_refl Hno)
    as (msg & t' & db' & Hrun & Htable & Hread & _ & Htitle & _ & _ & _ & _
        & _ & _ & _ & _ & Hnext).
  assert (Ht : Task.title t' = "Fine").
  { apply Htitle. intros s [= <-]. split; [discriminate|].
    vm_compute. discriminate. }
  exists msg, t', db'. split; [exact Hrun|]. split; [exact Htable|].
  split; [exact Hread|]. split; [exact Ht|].
  destruct (Hnext true) as (stored & db'' & Htoggle & Hin & Hst & _).
  exists stored, db''. split; [exact Htoggle|]. split; [exact Hin|].
  now rewrite Hst.
Defined.

(** ** What stays true of stored tasks *)

Lemma rstrip_idempotent s : Py.rstrip (Py.rstrip s) = Py.rstrip s.
Proof.
  induction s as [|c r IH]; [reflexivity|]. simpl.
  destruct (Py.rstrip r) as [|c' r'] eqn:Hr.
  - destruct (Py.isspace c) eqn:Hc; [reflexivity|]. simpl. now rewrite Hc.
  - simpl. simpl in IH. destruct (Py.rstrip r') eqn:Hr'.
    + destruct (Py.isspace c'); [discriminate|now rewrite IH].
    + now rewrite IH.
Qed.

Lemma lstrip_head s :
  Py.lstrip s = ""
  \/ exists c r, Py.lstrip s = String c r /\ Py.isspace c = false.
Proof.
  induction s as [|c r IH]; [now left|]. simpl.
  destruct (Py.isspace c) eqn:Hc; [exact IH|]. right. eauto.
Qed.

Lemma rstrip_head c r :
  Py.isspace c = false -> exists r', Py.rstrip (String c r) = String c r'.
Proof.
  intros Hc. simpl. destruct (Py.rstrip r); [rewrite Hc|]; eauto.
Qed.

Lemma strip_idempotent s : Py.strip (Py.strip s) = Py.strip s.
Proof.
  unfold Py.strip.
  destruct (lstrip_head s) as [->|(c & r & -> & Hc)]; [reflexivity|].
  destruct (rstrip_head c r Hc) as [r' Hr]. rewrite Hr.
  simpl Py.lstrip. rewrite Hc, <- Hr. apply rstrip_idempotent.
Qed.

Lemma rstrip_length s : (String.length (Py.rstrip s) <= String.length s)%nat.
Proof.
  induction s as [|c r IH]; simpl; [lia|].
  destruct (Py.rstrip r); [destruct (Py.isspace c)|]; simpl in *; lia.
Qed.

Lemma lstrip_length s : (String.length (Py.lstrip s) <= String.length s)%nat.
Proof.
  induction s as [|c r IH]; simpl; [lia|].
  destruct (Py.isspace c); simpl; lia.
Qed.

Lemma strip_length s : Py.len (Py.strip s) <= Py.len s.
Proof.
  unfold Py.len, Py.strip.
  pose proof (rstrip_length (Py.lstrip s)). pose proof (lstrip_length s). lia.
Qed.

Lemma put_row_Forall (Q : Task.t -> Prop) t' rows :
  Q t' -> Forall Q rows -> Forall Q (put_row t' rows).
Proof.
  intros Ht H. unfold put_row. rewrite Forall_map.
  eapply Forall_impl; [|exact H]. intros r Hr.
  now destruct (Task.id r =? Task.id t').
Qed.

Lemma put_row_identity t' rows :
  NoDup (map Task.id rows) ->
  (exists r, In r rows /\ identity r = identity t') ->
  map identity (put_row t' rows) = map identity rows.
Proof.
  intros Hnd (r0 & Hin & Hkey). unfold put_row. rewrite map_map.
  apply map_ext_in. intros r Hr.
  destruct (Z.eqb_spec (Task.id r) (Task.id t')) as [He|_]; [|reflexivity].
  assert (r = r0); [|now subst].
  apply (NoDup_map_same Task.id rows); auto.
  unfold identity in Hkey. congruence.
Qed.

Lemma row_valid_touch now t : row_valid t -> row_valid (touch now t).
Proof. exact (fun H => H). Qed.

Lemma row_valid_completed c t : row_valid t -> row_valid (Assign.completed c t).
Proof. exact (fun H => H). Qed.

Lemma row_valid_priority p t :
  In p ["low"; "medium"; "high"] -> row_valid t ->
  row_valid (Assign.priority p t).
Proof.
  intros Hp (H1 & H2 & H3 & H4 & _). unfold row_valid. simpl. tauto.
Qed.

Lemma transaction_keeps_rows (J : list Task.t -> Prop)
  (body : Z -> Z -> M Z) task_ids db :
  txn db = table db -> J (table db) ->
  (forall acc x d, J (txn d) ->
                   J (txn (snd (body acc x d)))
                   /\ table (snd (body acc x d)) = table d) ->
  J (table
       (snd (try_except
               (count <- for_loop task_ids 0 body ;; db_commit ;;; ret count)
               (fun e => db_rollback ;;; raise e) db))).
Proof.
  intros Hc HJ Hbody.
  pose proof (for_loop_keeps (fun d => J (txn d) /\ table d = table db) body)
    as Hloop.
  specialize (Hloop ltac:(intros acc x d [H1 H2];
                          destruct (Hbody acc x d H1); split; congruence)
                    task_ids 0 db ltac:(split; [now rewrite Hc|reflexivity])).
  unfold try_except, bind at 1.
  destruct (for_loop task_ids 0 body db) as [[count|e] db']; simpl in Hloop.
  - simpl. tauto.
  - simpl. destruct Hloop as [_ ->]. exact HJ.
Qed.

Lemma edit_body_keeps_identity committed user_id (edit : Task.t -> Task.t)
  acc task_id d :
  (forall t, identity (edit t) = identity t) ->
  rows_kept committed (txn d) ->
  rows_kept committed
    (txn (snd ((task <- TaskService.get_task_by_id user_id task_id ;;
                match task with
                | None => raise (TaskNotFound task_id)
                | Some task => db_add (edit task) ;;; ret (acc + 1)
                end) d)))
  /\ table (snd ((task <- TaskService.get_task_by_id user_id task_id ;;
                  match task with
                  | None => raise (TaskNotFound task_id)
                  | Some task => db_add (edit task) ;;; ret (acc + 1)
                  end) d)) = table d.
Proof.
  intros Hid (Hnd & Hkey). unfold bind.
  rewrite get_task_by_id_resolve.
  destruct (resolve user_id task_id (txn d)) as [t|] eqn:Hres;
    [|simpl; unfold rows_kept; auto].
  simpl. split; [|reflexivity].
  apply resolve_some in Hres as (Hin & _ & _).
  assert (Hk : identity (touch (clock d) (edit t)) = identity t)
    by (rewrite <- (Hid t); reflexivity).
  split.
  - now rewrite put_row_ids.
  - rewrite put_row_identity; [exact Hkey|exact Hnd|]. exists t. auto.
Qed.

Lemma edit_body_keeps_valid user_id (edit : Task.t -> Task.t)
  acc task_id d :
  (forall t, row_valid t -> row_valid (edit t)) ->
  Forall row_valid (txn d) ->
  Forall row_valid
    (txn (snd ((task <- TaskService.get_task_by_id user_id task_id ;;
                match task with
                | None => raise (TaskNotFound task_id)
                | Some task => db_add (edit task) ;;; ret (acc + 1)
                end) d)))
  /\ table (snd ((task <- TaskService.get_task_by_id user_id task_id ;;
                  match task with
                  | None => raise (TaskNotFound task_id)
                  | Some task => db_add (edit task) ;;; ret (acc + 1)
                  end) d)) = table d.
Proof.
  intros Hval Hall. unfold bind. rewrite get_task_by_id_resolve.
  destruct (resolve user_id task_id (txn d)) as [t|] eqn:Hres;
    [|simpl; auto].
  simpl. split; [|reflexivity].
  apply resolve_some in Hres as (Hin & _ & _).
  apply put_row_Forall; [|exact Hall].
  apply row_valid_touch, Hval. rewrite Forall_forall in Hall. auto.
Qed.

Lemma delete_body_keeps_valid user_id acc task_id d :
  Forall row_valid (txn d) ->
  Forall row_valid
    (txn (snd ((task <- TaskService.get_task_by_id user_id task_id ;;
                match task with
                | None => raise (TaskNotFound task_id)
                | Some task => db_delete task ;;; ret (acc + 1)
                end) d)))
  /\ table (snd ((task <- TaskService.get_task_by_id user_id task_id ;;
                  match task with
                  | None => raise (TaskNotFound task_id)
                  | Some task => db_delete task ;;; ret (acc + 1)
                  end) d)) = table d.
Proof.
  intros Hall. unfold bind. rewrite get_task_by_id_resolve.
  destruct (resolve user_id task_id (txn d)); simpl; auto.
  split; [|reflexivity]. now apply drop_row_Forall.
Qed.

Lemma rows_kept_start db : well_formed db -> rows_kept (table db) (table db).
Proof. intros (_ & Hnd & _). unfold rows_kept. auto. Qed.

Lemma row_valid_updated t title description priority
  (due_date : option datetime) (tags : option (list string))
  (completed : option bool) now :
  row_valid t ->
  update_acceptable now title description priority due_date ->
  let t1 := match title with
            | Some s => Assign.title (Py.strip s) t | None => t end in
  let t2 := match description with
            | Some d => Assign.description (Some d) t1 | None => t1 end in
  let t3 := match priority with
            | Some p => Assign.priority p t2 | None => t2 end in
  let t4 := match due_date with
            | Some d => Assign.due_date (Some d) t3 | None => t3 end in
  let t5 := match tags with Some l => Assign.tags l t4 | None => t4 end in
  let t6 := match completed with
            | Some c => Assign.completed c t5 | None => t5 end in
  row_valid (touch now t6).
Proof.
  intros (V1 & V2 & V3 & V4 & V5) (Ht & Hd & Hp & _). cbv zeta.
  destruct title as [s|]; [destruct (Ht s eq_refl) as [Hs Hl]|];
    (destruct description as [d|]; [pose proof (Hd d eq_refl)|]);
    (destruct priority as [p|]; [pose proof (Hp p eq_refl)|]);
    destruct due_date, tags, completed; unfold row_valid; cbn;
    (split; [|split; [|split; [|split]]]);
    first [assumption | exact (strip_idempotent _)
          | intros d' [= <-]; assumption].
Qed.

Lemma update_task_table user_id task_id title description priority
  due_date tags completed db :
  table (snd (TaskService.update_task user_id task_id title description
                priority due_date tags completed db)) = table db
  \/ exists t t',
       resolve user_id task_id (txn db) = Some t
       /\ update_acceptable (clock db) title description priority due_date
       /\ identity t' = identity t
       /\ (row_valid t -> row_valid t')
       /\ table (snd (TaskService.update_task user_id task_id title
                        description priority due_date tags completed db))
          = put_row t' (txn db).
Proof.
  destruct (resolve user_id task_id (txn db)) as [t|] eqn:Hres.
  - destruct (update_task_outcome user_id task_id t title description
                priority due_date tags completed db Hres)
      as [Hok|(msg & db' & -> & Htable)]; [|now left].
    pose proof (update_task_run user_id task_id title description priority
                  due_date tags completed db t Hres Hok) as Hrun.
    cbv zeta in Hrun. rewrite Hrun. right. exists t. eexists.
    split; [reflexivity|]. split; [exact Hok|]. split; [|split].
    3: reflexivity.
    + destruct completed, tags, due_date, priority, description, title;
        reflexivity.
    + intros Hv.
      exact (row_valid_updated t title description priority due_date tags
               completed (clock db) Hv Hok).
  - left. unfold TaskService.update_task.
    rewrite (bind_run _ _ _ _ _ (get_task_by_id_resolve user_id task_id db)).
    rewrite Hres. reflexivity.
Qed.

Lemma create_task_outcome user_id title description priority due_date tags db :
  create_acceptable (clock db) title description priority due_date
  \/ exists msg,
       TaskService.create_task user_id title description priority due_date
         tags db = (Raise (ValueError msg), db).
Proof.
  rewrite create_checks_pass. unfold TaskService.create_task.
  destruct (negb (Py.truthy title) || _) eqn:H1; [right; unfold raise; eauto|].
  destruct (Py.len (Py.strip title) >? 200) eqn:H2;
    [right; unfold raise; eauto|].
  destruct (match description with Some _ => _ | None => _ end) eqn:H3;
    [right; unfold raise; eauto|].
  destruct (negb (Py.str_in priority _)) eqn:H4; [right; unfold raise; eauto|].
  unfold bind at 1. unfold utcnow.
  destruct (match due_date with Some _ => _ | None => _ end) eqn:H5;
    [right; unfold raise; eauto|].
  left. auto.
Qed.

Lemma toggle_complete_run user_id task_id c db :
  TaskService.toggle_complete user_id task_id c db
  = match resolve user_id task_id (txn db) with
    | Some t =>
        (Return (Some (touch (clock db) (Assign.completed c t))),
         committed (put_row (touch (clock db) (Assign.completed c t)) (txn db))
           (next_id db) db)
    | None => (Return None, db)
    end.
Proof.
  unfold TaskService.toggle_complete. unfold bind at 1.
  rewrite get_task_by_id_resolve.
  destruct (resolve user_id task_id (txn db)) as [t|] eqn:Hres; [|reflexivity].
  cbv beta iota zeta.
  rewrite (save_returns (Assign.completed c t) db); [reflexivity|].
  exists t. split; [now apply resolve_some in Hres|reflexivity].
Qed.

Lemma delete_task_run user_id task_id db :
  TaskService.delete_task user_id task_id db
  = match resolve user_id task_id (txn db) with
    | Some t =>
        (Return true, committed (drop_row t (txn db)) (next_id db) db)
    | None => (Return false, db)
    end.
Proof.
  unfold TaskService.delete_task. unfold bind at 1.
  rewrite get_task_by_id_resolve.
  destruct (resolve user_id task_id (txn db)); reflexivity.
Qed.

Lemma toggle_complete_table user_id task_id c db :
  table (snd (TaskService.toggle_complete user_id task_id c db)) = table db
  \/ exists t,
       resolve user_id task_id (txn db) = Some t
       /\ table (snd (TaskService.toggle_complete user_id task_id c db))
          = put_row (touch (clock db) (Assign.completed c t)) (txn db).
Proof.
  rewrite toggle_complete_run.
  destruct (resolve user_id task_id (txn db)) as [t|]; [|now left].
  right. exists t. split; reflexivity.
Qed.

Lemma delete_task_table user_id task_id db :
  table (snd (TaskService.delete_task user_id task_id db)) = table db
  \/ exists t,
       resolve user_id task_id (txn db) = Some t
       /\ table (snd (TaskService.delete_task user_id task_id db))
          = drop_row t (txn db).
Proof.
  rewrite delete_task_run.
  destruct (resolve user_id task_id (txn db)) as [t|]; [|now left].
  right. exists t. split; reflexivity.
Qed.

(** X15: the mutations keep the stored tasks valid.  On a well formed
    session whose rows all have a stripped, non-empty title of at most 200
    characters, a description of at most 1000 characters and a priority
    among low/medium/high, the rows after create_task, update_task,
    delete_task, toggle_complete, bulk_delete, bulk_complete, bulk_pending
    and bulk_priority_change all have these properties again, whatever the
    arguments and whether the call returns or raises. *)
Theorem stored_tasks_stay_valid (user_id : UUID) (db : Db) :
  well_formed db -> Forall row_valid (table db) ->
  (forall title description priority due_date tags,
      Forall row_valid
        (table (snd (TaskService.create_task user_id title description
                       priority due_date tags db))))
  /\ (forall task_id title description priority due_date tags completed,
        Forall row_valid
          (table (snd (TaskService.update_task user_id task_id title
                         description priority due_date tags completed db))))
  /\ (forall task_id,
        Forall row_valid
          (table (snd (TaskService.delete_task user_id task_id db))))
  /\ (forall task_id value,
        Forall row_valid
          (table (snd (TaskService.toggle_complete user_id task_id value db))))
  /\ (forall task_ids,
        Forall row_valid
          (table (snd (TaskService.bulk_delete user_id task_ids db)))
        /\ Forall row_valid
             (table (snd (TaskService.bulk_complete user_id task_ids db)))
        /\ Forall row_valid
             (table (snd (TaskService.bulk_pending user_id task_ids db))))
  /\ (forall task_ids priority,
        Forall row_valid
          (table (snd (TaskService.bulk_priority_change user_id task_ids
                         priority db)))).
Proof.
  intros Hwf Hall. pose proof Hwf as (Hc & Hnd & Hb).
  split; [|split; [|split; [|split; [|split]]]].
  - intros title description priority due_date tags.
    destruct (create_task_outcome user_id title description priority due_date
                tags db) as [Hok|[msg ->]]; [|exact Hall].
    pose proof (create_task_run user_id title description priority due_date
                  tags db Hwf Hok) as Hrun. cbv zeta in Hrun.
    rewrite Hrun. cbn [snd table committed].
    apply Forall_app. split; [exact Hall|]. constructor; [|constructor].
    destruct Hok as (H1 & H2 & H3 & H4 & _).
    unfold row_valid. cbn [persist Task.title Task.description Task.priority
      new_title new_description new_priority].
    split; [exact (strip_idempotent _)|]. repeat (split; [assumption|]).
    assumption.
  - intros task_id title description priority due_date tags done.
    destruct (update_task_table user_id task_id title description
                priority due_date tags done db)
      as [->|(t & t' & Hres & _ & _ & Hv & ->)]; [exact Hall|].
    rewrite Hc. apply put_row_Forall; [|exact Hall]. apply Hv.
    apply resolve_some in Hres as (Hin & _). rewrite Hc in Hin.
    rewrite Forall_forall in Hall. auto.
  - intros. destruct (delete_task_table user_id task_id db)
      as [->|(t & _ & ->)]; [exact Hall|].
    rewrite Hc. now apply drop_row_Forall.
  - intros. destruct (toggle_complete_table user_id task_id value db)
      as [->|(t & Hres & ->)]; [exact Hall|].
    rewrite Hc. apply put_row_Forall; [|exact Hall].
    apply resolve_some in Hres as (Hin & _). rewrite Hc in Hin.
    rewrite Forall_forall in Hall. apply (Hall t Hin).
  - intros task_ids. split; [|split].
    + apply (transaction_keeps_rows (Forall row_valid)); auto.
      intros. now apply delete_body_keeps_valid.
    + apply (transaction_keeps_rows (Forall row_valid)); auto.
      intros. now apply (edit_body_keeps_valid user_id (Assign.completed true)).
    + apply (transaction_keeps_rows (Forall row_valid)); auto.
      intros. now apply (edit_body_keeps_valid user_id (Assign.completed false)).
  - intros task_ids priority. unfold TaskService.bulk_priority_change.
    destruct (Py.str_in priority TaskService.priority_levels) eqn:Hp;
      [|exact Hall].
    apply str_in_In in Hp. cbn [negb].
    apply (transaction_keeps_rows (Forall row_valid)); auto.
    intros. apply (edit_body_keeps_valid user_id (Assign.priority priority));
      auto using row_valid_priority.
Qed.

Lemma sample_rows_valid : Forall row_valid (table sample_db).
Proof.
  repeat (constructor;
          [split; [reflexivity|]; split; [discriminate|];
           split; [vm_compute; discriminate|];
           split; [intros d H; discriminate H|simpl; tauto]|]).
  constructor.
Qed.

Lemma stored_tasks_stay_valid_example :
  well_formed sample_db /\ Forall row_valid (table sample_db)
  /\ Forall row_valid
       (table (snd (TaskService.update_task 1%N 1 (Some "  New title ")
                      (Some "") (Some "low") None None None sample_db)))
  /\ Forall row_valid
       (table (snd (TaskService.bulk_priority_change 1%N [1; 2] "urgent"
                      sample_db))).
Proof.
  split; [exact sample_db_well_formed|]. split; [exact sample_rows_valid|].
  destruct (stored_tasks_stay_valid 1%N sample_db sample_db_well_formed
              sample_rows_valid) as (_ & Hu & _ & _ & _ & Hp).
  split; [apply Hu|apply Hp].
Defined.

Lemma delete_body_keeps_incl committed user_id acc task_id d :
  incl (txn d) committed ->
  incl (txn (snd ((task <- TaskService.get_task_by_id user_id task_id ;;
                   match task with
                   | None => raise (TaskNotFound task_id)
                   | Some task => db_delete task ;;; ret (acc + 1)
                   end) d))) committed
  /\ table (snd ((task <- TaskService.get_task_by_id user_id task_id ;;
                  match task with
                  | None => raise (TaskNotFound task_id)
                  | Some task => db_delete task ;;; ret (acc + 1)
                  end) d)) = table d.
Proof.
  intros Hall. unfold bind. rewrite get_task_by_id_resolve.
  destruct (resolve user_id task_id (txn d)); simpl; auto.
  split; [|reflexivity]. intros r Hr. apply Hall.
  now apply drop_row_In in Hr.
Qed.

(** X16: no operation changes who owns a task, its identifier or its
    creation time.  On a well formed session update_task, toggle_complete,
    bulk_complete, bulk_pending and bulk_priority_change leave the list of
    (identifier, owner, created timestamp) of the table exactly as it was,
    row by row and in the same order; delete_task and bulk_delete leave
    only rows that were there, unchanged; create_task only appends. *)
Theorem stored_identities_never_change (user_id : UUID) (db : Db) :
  well_formed db ->
  (forall task_id title description priority due_date tags done,
      map identity
        (table (snd (TaskService.update_task user_id task_id title
                       description priority due_date tags done db)))
      = map identity (table db))
  /\ (forall task_id value,
        map identity
          (table (snd (TaskService.toggle_complete user_id task_id value db)))
        = map identity (table db))
  /\ (forall task_ids,
        map identity
          (table (snd (TaskService.bulk_complete user_id task_ids db)))
        = map identity (table db)
        /\ map identity
             (table (snd (TaskService.bulk_pending user_id task_ids db)))
           = map identity (table db))
  /\ (forall task_ids priority,
        map identity
          (table (snd (TaskService.bulk_priority_change user_id task_ids
                         priority db)))
        = map identity (table db))
  /\ (forall task_id,
        incl (table (snd (TaskService.delete_task user_id task_id db)))
          (table db))
  /\ (forall task_ids,
        incl (table (snd (TaskService.bulk_delete user_id task_ids db)))
          (table db))
  /\ (forall title description priority due_date tags,
        exists added,
          table (snd (TaskService.create_task user_id title description
                        priority due_date tags db))
          = table db ++ added).
Proof.
  intros Hwf. pose proof Hwf as (Hc & Hnd & Hb).
  pose proof (rows_kept_start db Hwf) as Hstart.
  assert (Hedit : forall (edit : Task.t -> Task.t) task_ids,
             (forall t, identity (edit t) = identity t) ->
             map identity
               (table
                  (snd (try_except
                          (count <-
                             for_loop task_ids 0 (fun updated_count task_id =>
                               task <- TaskService.get_task_by_id user_id
                                         task_id ;;
                               match task with
                               | None => raise (TaskNotFound task_id)
                               | Some task =>
                                   db_add (edit task) ;;;
                                   ret (updated_count + 1)
                               end) ;;
                           db_commit ;;; ret count)
                          (fun e => db_rollback ;;; raise e) db)))
             = map identity (table db)).
  { intros edit task_ids Hid.
    apply (transaction_keeps_rows (rows_kept (table db))); auto.
    intros. now apply edit_body_keeps_identity. }
  split; [|split; [|split; [|split; [|split; [|split]]]]].
  - intros task_id title description priority due_date tags done.
    destruct (update_task_table user_id task_id title description
                priority due_date tags done db)
      as [->|(t & t' & Hres & _ & Hk & _ & ->)]; [reflexivity|].
    rewrite Hc. apply put_row_identity; [exact Hnd|].
    exists t. apply resolve_some in Hres as (Hin & _). rewrite Hc in Hin.
    auto.
  - intros task_id value.
    destruct (toggle_complete_table user_id task_id value db)
      as [->|(t & Hres & ->)]; [reflexivity|].
    rewrite Hc. apply put_row_identity; [exact Hnd|].
    exists t. apply resolve_some in Hres as (Hin & _). rewrite Hc in Hin.
    auto.
  - intros task_ids. split.
    + apply (Hedit (Assign.completed true)). reflexivity.
    + apply (Hedit (Assign.completed false)). reflexivity.
  - intros task_ids priority. unfold TaskService.bulk_priority_change.
    destruct (negb _); [reflexivity|].
    apply (Hedit (Assign.priority priority)). reflexivity.
  - intros task_id. destruct (delete_task_table user_id task_id db)
      as [->|(t & _ & ->)]; [apply incl_refl|].
    rewrite Hc. intros r Hr. now apply drop_row_In in Hr.
  - intros task_ids.
    apply (transaction_keeps_rows (fun rows => incl rows (table db)));
      [exact Hc|apply incl_refl|].
    intros. now apply delete_body_keeps_incl.
  - intros title description priority due_date tags.
    destruct (create_task_outcome user_id title description priority due_date
                tags db) as [Hok|[msg ->]].
    + pose proof (create_task_run user_id title description priority due_date
                    tags db Hwf Hok) as Hrun. cbv zeta in Hrun.
      rewrite Hrun. eexists. reflexivity.
    + exists []. now rewrite app_nil_r.
Qed.

Lemma stored_identities_never_change_example :
  well_formed sample_db
  /\ map identity
       (table (snd (TaskService.update_task 1%N 1 (Some "Renamed") None None
                      None None (Some true) sample_db)))
     = map identity (table sample_db).
Proof.
  split; [exact sample_db_well_formed|].
  destruct (stored_identities_never_change 1%N sample_db
              sample_db_well_formed) as (Hupdate & _).
  exact (Hupdate 1 (Some "Renamed") None None None None (Some true)).
Defined.

(** ** Bulk calls that go through *)

Lemma find_map_same {X} (p : X -> bool) (g : X -> X) (l : list X) :
  (forall r, p (g r) = p r) -> find p (map g l) = option_map g (find p l).
Proof.
  intros H. induction l as [|x l IH]; simpl; [reflexivity|].
  rewrite H. destruct (p x); [reflexivity|exact IH].
Qed.

Lemma listed_app ids x r :
  listed (ids ++ [x]) r = listed ids r || (Task.id r =? x).
Proof.
  unfold listed. rewrite existsb_app. simpl. now rewrite orb_false_r.
Qed.

Lemma mark_identity edit now ids r :
  (forall t, identity (edit t) = identity t) ->
  identity (mark edit now ids r) = identity r.
Proof.
  intros H. unfold mark. destruct (listed ids r); [|reflexivity].
  rewrite <- (H r). reflexivity.
Qed.

Lemma edit_loop_run user_id (edit : Task.t -> Task.t) (T : list Task.t) now :
  (forall t, identity (edit t) = identity t) ->
  (forall t, touch now (edit (touch now (edit t))) = touch now (edit t)) ->
  NoDup (map Task.id T) ->
  forall task_ids marks acc d,
    txn d = map (mark edit now marks) T -> clock d = now ->
    (forall x, In x task_ids ->
               exists t, In t T /\ Task.id t = x /\ Task.user_id t = user_id) ->
    for_loop task_ids acc
      (fun updated_count task_id =>
         task <- TaskService.get_task_by_id user_id task_id ;;
         match task with
         | None => raise (TaskNotFound task_id)
         | Some task => db_add (edit task) ;;; ret (updated_count + 1)
         end) d
    = (Return (acc + Z.of_nat (List.length task_ids)),
       set_txn (map (mark edit now (marks ++ task_ids)) T) d).
Proof.
  intros Hid Hidem Hnd task_ids.
  induction task_ids as [|x rest IH]; intros marks acc d Htxn Hclock Hall.
  - cbn [for_loop]. unfold ret. rewrite app_nil_r, <- Htxn, set_txn_self.
    cbn [List.length]. now rewrite Z.add_0_r.
  - destruct (Hall x (in_eq _ _)) as (t0 & Hin0 & Hx & Hown).
    assert (Hres : resolve user_id x (txn d) = Some (mark edit now marks t0)).
    { rewrite Htxn. unfold resolve. rewrite find_map_same.
      - fold (resolve user_id x T). rewrite <- Hx, <- Hown.
        now rewrite (resolve_own T t0 Hnd Hin0).
      - intros r. pose proof (mark_identity edit now marks r Hid) as Hk.
        unfold identity in Hk. injection Hk as -> -> _. reflexivity. }
    assert (Hnext : put_row (touch (clock d) (edit (mark edit now marks t0)))
                      (txn d)
                    = map (mark edit now (marks ++ [x])) T).
    { rewrite Htxn, Hclock. unfold put_row. rewrite map_map.
      apply map_ext_in. intros r Hr.
      assert (Hidr : forall u, Task.id (mark edit now marks u) = Task.id u).
      { intros u. pose proof (mark_identity edit now marks u Hid) as Hk.
        unfold identity in Hk. now injection Hk. }
      assert (Hidt : forall u, Task.id (touch now (edit u)) = Task.id u).
      { intros u. pose proof (Hid u) as Hk. unfold identity in Hk.
        now injection Hk. }
      rewrite Hidt, !Hidr. unfold mark at 3. rewrite listed_app.
      destruct (Z.eqb_spec (Task.id r) (Task.id t0)) as [He|Hne].
      - assert (r = t0) by now apply (NoDup_map_same Task.id T).
        subst r. rewrite Hx, Z.eqb_refl, orb_true_r.
        unfold mark. destruct (listed marks t0); [apply Hidem|reflexivity].
      - rewrite <- Hx. apply Z.eqb_neq in Hne. rewrite Hne, orb_false_r.
        reflexivity. }
    assert (Hbody :
              (task <- TaskService.get_task_by_id user_id x ;;
               match task with
               | None => raise (TaskNotFound x)
               | Some task => db_add (edit task) ;;; ret (acc + 1)
               end) d
              = (Return (acc + 1),
                 set_txn (map (mark edit now (marks ++ [x])) T) d)).
    { unfold bind at 1. rewrite get_task_by_id_resolve, Hres.
      unfold bind, db_add, ret. now rewrite Hnext. }
    cbn [for_loop]. rewrite (bind_run _ _ _ _ _ Hbody).
    rewrite (IH (marks ++ [x]) (acc + 1)
               (set_txn (map (mark edit now (marks ++ [x])) T) d));
      [|reflexivity|exact Hclock|intros y Hy; apply Hall; now right].
    rewrite <- app_assoc. cbn [app List.length set_txn table txn clock next_id].
    f_equal. f_equal. lia.
Qed.

Lemma mark_nil edit now (T : list Task.t) : map (mark edit now []) T = T.
Proof. unfold mark. simpl. apply map_id. Qed.

Lemma bulk_edit_run user_id (edit : Task.t -> Task.t) task_ids db :
  (forall t, identity (edit t) = identity t) ->
  (forall t, touch (clock db) (edit (touch (clock db) (edit t)))
             = touch (clock db) (edit t)) ->
  well_formed db ->
  (forall x, In x task_ids ->
             fst (TaskService.get_task_by_id user_id x db) <> Return None) ->
  try_except
    (count <-
       for_loop task_ids 0 (fun updated_count task_id =>
         task <- TaskService.get_task_by_id user_id task_id ;;
         match task with
         | None => raise (TaskNotFound task_id)
         | Some task => db_add (edit task) ;;; ret (updated_count + 1)
         end) ;;
     db_commit ;;; ret count)
    (fun e => db_rollback ;;; raise e) db
  = (Return (Z.of_nat (List.length task_ids)),
     committed (map (mark edit (clock db) task_ids) (table db)) (next_id db)
       db).
Proof.
  intros Hid Hidem (Hc & Hnd & _) Hall.
  unfold try_except, bind at 1.
  rewrite (edit_loop_run user_id edit (table db) (clock db) Hid Hidem Hnd
             task_ids [] 0 db).
  - reflexivity.
  - now rewrite mark_nil.
  - reflexivity.
  - intros x Hx. specialize (Hall x Hx).
    rewrite get_task_by_id_resolve in Hall. cbn [fst] in Hall.
    destruct (resolve user_id x (txn db)) as [t|] eqn:Hres; [|congruence].
    apply resolve_some in Hres as (Hin & Hi & Hu). rewrite Hc in Hin. eauto.
Qed.

Lemma bulk_edit_identity action t : identity (bulk_edit action t) = identity t.
Proof. now destruct action. Qed.

Lemma bulk_edit_twice action now t :
  touch now (bulk_edit action (touch now (bulk_edit action t)))
  = touch now (bulk_edit action t).
Proof. now destruct action. Qed.

Lemma listed_In ids r : listed ids r = true <-> In (Task.id r) ids.
Proof.
  unfold listed. rewrite existsb_exists. split.
  - intros (x & Hx & He). apply Z.eqb_eq in He. now subst.
  - intros H. exists (Task.id r). split; [exact H|apply Z.eqb_refl].
Qed.

(** X17: a bulk complete, pending or priority change whose identifiers
    all resolve for the caller returns the length of the list (an
    identifier given twice counts twice) and rewrites exactly the listed
    rows: each of them gets the completed flag or the priority of the
    action, every row that is not listed stays as it is, and no row is
    added, removed or moved. *)
Theorem bulk_edits_rewrite_the_listed_rows
  (user_id : UUID) (action : BulkAction) (task_ids : list Z) (db : Db) :
  action <> ActDelete ->
  well_formed db ->
  (forall x, In x task_ids ->
             fst (TaskService.get_task_by_id user_id x db) <> Return None) ->
  exists db',
    bulk_operations user_id action task_ids db
    = (Return (Z.of_nat (List.length task_ids)), db')
    /\ table db'
       = map (fun r => if listed task_ids r
                       then touch (clock db) (bulk_edit action r) else r)
           (table db)
    /\ (forall r, In r (table db) -> ~ In (Task.id r) task_ids ->
                  In r (table db'))
    /\ (forall r', In r' (table db') -> In (Task.id r') task_ids ->
          match action with
          | ActDelete => True
          | ActComplete => Task.completed r' = true
          | ActPending => Task.completed r' = false
          | ActPriority priority => Task.priority r' = priority_name priority
          end).
Proof.
  intros Hact Hwf Hall.
  assert (Hrun : bulk_operations user_id action task_ids db
                 = (Return (Z.of_nat (List.length task_ids)),
                    committed
                      (map (mark (bulk_edit action) (clock db) task_ids)
                         (table db)) (next_id db) db)).
  { destruct action as [| | |p]; [congruence| | |]; cbn [bulk_operations].
    - apply (bulk_edit_run user_id (bulk_edit ActComplete)); auto.
    - apply (bulk_edit_run user_id (bulk_edit ActPending)); auto.
    - unfold TaskService.bulk_priority_change.
      replace (negb (Py.str_in (priority_name p) TaskService.priority_levels))
        with false by now destruct p.
      apply (bulk_edit_run user_id (bulk_edit (ActPriority p))); auto. }
  eexists. split; [exact Hrun|]. cbn [table committed].
  split; [reflexivity|]. split.
  - intros r Hr Hno. apply in_map_iff. exists r. split; [|exact Hr].
    unfold mark. destruct (listed task_ids r) eqn:Hl; [|reflexivity].
    apply listed_In in Hl. contradiction.
  - intros r' Hr' Hin. apply in_map_iff in Hr' as (r & <- & Hr).
    unfold mark in *. destruct (listed task_ids r) eqn:Hl.
    + now destruct action.
    + apply listed_In in Hin. congruence.
Qed.

Lemma bulk_edits_rewrite_the_listed_rows_example :
  ActComplete <> ActDelete /\ well_formed sample_db
  /\ (forall x, In x [1; 2; 1] ->
                fst (TaskService.get_task_by_id 1%N x sample_db)
                <> Return None)
  /\ exists db',
      bulk_operations 1%N ActComplete [1; 2; 1] sample_db = (Return 3, db').
Proof.
  assert (Hall : forall x, In x [1; 2; 1] ->
                   fst (TaskService.get_task_by_id 1%N x sample_db)
                   <> Return None).
  { intros x [<-|[<-|[<-|[]]]]; discriminate. }
  split; [discriminate|]. split; [exact sample_db_well_formed|].
  split; [exact Hall|].
  destruct (bulk_edits_rewrite_the_listed_rows 1%N ActComplete [1; 2; 1]
              sample_db ltac:(discriminate) sample_db_well_formed Hall)
    as (db' & Hrun & _).
  exists db'. exact Hrun.
Defined.

Lemma NoDup_map_filter {X Y} (f : X -> Y) (p : X -> bool) (l : list X) :
  NoDup (map f l) -> NoDup (map f (filter p l)).
Proof.
  induction l as [|x l IH]; simpl; intros H; [exact H|].
  inversion H as [|? ? Hnot Hnd]; subst.
  destruct (p x); simpl; auto. constructor; auto.
  intros Hin. apply Hnot. apply in_map_iff in Hin as (y & Hy & Hin).
  apply filter_In in Hin as [Hin _]. apply in_map_iff. eauto.
Qed.

Lemma filter_none_listed (l : list Task.t) :
  filter (fun r => negb (listed [] r)) l = l.
Proof.
  induction l as [|r l IH]; [reflexivity|].
  cbn [filter listed existsb negb]. now f_equal.
Qed.

Lemma delete_loop_run user_id (T : list Task.t) :
  NoDup (map Task.id T) ->
  forall task_ids marks acc d,
    txn d = filter (fun r => negb (listed marks r)) T ->
    NoDup (marks ++ task_ids) ->
    (forall x, In x task_ids ->
               exists t, In t T /\ Task.id t = x /\ Task.user_id t = user_id) ->
    for_loop task_ids acc
      (fun deleted_count task_id =>
         task <- TaskService.get_task_by_id user_id task_id ;;
         match task with
         | None => raise (TaskNotFound task_id)
         | Some task => db_delete task ;;; ret (deleted_count + 1)
         end) d
    = (Return (acc + Z.of_nat (List.length task_ids)),
       set_txn (filter (fun r => negb (listed (marks ++ task_ids) r)) T) d).
Proof.
  intros Hnd task_ids.
  induction task_ids as [|x rest IH]; intros marks acc d Htxn Hnew Hall.
  - cbn [for_loop]. unfold ret. rewrite app_nil_r, <- Htxn, set_txn_self.
    cbn [List.length]. now rewrite Z.add_0_r.
  - destruct (Hall x (in_eq _ _)) as (t0 & Hin0 & Hx & Hown).
    assert (Hfresh : listed marks t0 = false).
    { destruct (listed marks t0) eqn:Hl; [|reflexivity].
      apply listed_In in Hl. rewrite Hx in Hl.
      apply NoDup_remove_2 in Hnew. exfalso. apply Hnew.
      apply in_or_app. now left. }
    assert (Hres : resolve user_id x (txn d) = Some t0).
    { rewrite Htxn, <- Hx, <- Hown. apply resolve_own.
      - now apply NoDup_map_filter.
      - apply filter_In. split; [exact Hin0|now rewrite Hfresh]. }
    assert (Hnext : drop_row t0 (txn d)
                    = filter (fun r => negb (listed (marks ++ [x]) r)) T).
    { rewrite Htxn. unfold drop_row. rewrite filter_filter_and.
      apply filter_ext. intros r. rewrite listed_app, Hx, negb_orb.
      reflexivity. }
    assert (Hbody :
              (task <- TaskService.get_task_by_id user_id x ;;
               match task with
               | None => raise (TaskNotFound x)
               | Some task => db_delete task ;;; ret (acc + 1)
               end) d
              = (Return (acc + 1),
                 set_txn (filter (fun r => negb (listed (marks ++ [x]) r)) T)
                   d)).
    { unfold bind at 1. rewrite get_task_by_id_resolve, Hres.
      unfold bind, db_delete, ret. now rewrite Hnext. }
    cbn [for_loop]. rewrite (bind_run _ _ _ _ _ Hbody).
    rewrite (IH (marks ++ [x]) (acc + 1)
               (set_txn (filter (fun r => negb (listed (marks ++ [x]) r)) T)
                  d));
      [|reflexivity|now rewrite <- app_assoc
       |intros y Hy; apply Hall; now right].
    rewrite <- app_assoc. cbn [app List.length set_txn table txn clock next_id].
    f_equal. f_equal. lia.
Qed.

(** X18: a bulk delete of distinct identifiers that all resolve for the
    caller returns the length of the list and removes exactly the listed
    rows: the table after the call is the table before it without them, in
    the same order, and every other row is untouched. *)
Theorem bulk_delete_removes_the_listed_rows
  (user_id : UUID) (task_ids : list Z) (db : Db) :
  well_formed db -> NoDup task_ids ->
  (forall x, In x task_ids ->
             fst (TaskService.get_task_by_id user_id x db) <> Return None) ->
  exists db',
    TaskService.bulk_delete user_id task_ids db
    = (Return (Z.of_nat (List.length task_ids)), db')
    /\ table db' = filter (fun r => negb (listed task_ids r)) (table db)
    /\ (forall r, In r (table db') <->
                  In r (table db) /\ ~ In (Task.id r) task_ids).
Proof.
  intros (Hc & Hnd & _) Hdistinct Hall.
  assert (Hfound : forall x, In x task_ids ->
             exists t, In t (table db) /\ Task.id t = x
                       /\ Task.user_id t = user_id).
  { intros x Hx. specialize (Hall x Hx).
    rewrite get_task_by_id_resolve in Hall. cbn [fst] in Hall.
    destruct (resolve user_id x (txn db)) as [t|] eqn:Hres; [|congruence].
    apply resolve_some in Hres as (Hin & Hi & Hu). rewrite Hc in Hin. eauto. }
  assert (Hrun : TaskService.bulk_delete user_id task_ids db
                 = (Return (Z.of_nat (List.length task_ids)),
                    committed
                      (filter (fun r => negb (listed task_ids r)) (table db))
                      (next_id db) db)).
  { unfold TaskService.bulk_delete, try_except, bind at 1.
    rewrite (delete_loop_run user_id (table db) Hnd task_ids [] 0 db);
      [reflexivity| |exact Hdistinct|exact Hfound].
    rewrite Hc. symmetry. apply filter_none_listed. }
  eexists. split; [exact Hrun|]. split; [reflexivity|].
  intros r. cbn [table committed].
  rewrite filter_In, negb_true_iff, <- not_true_iff_false, listed_In. tauto.
Qed.

Lemma bulk_delete_removes_the_listed_rows_example :
  well_formed sample_db /\ NoDup [4; 1]
  /\ (forall x, In x [4; 1] ->
                fst (TaskService.get_task_by_id 1%N x sample_db)
                <> Return None)
  /\ exists db',
      TaskService.bulk_delete 1%N [4; 1] sample_db = (Return 2, db').
Proof.
  assert (Hall : forall x, In x [4; 1] ->
                   fst (TaskService.get_task_by_id 1%N x sample_db)
                   <> Return None).
  { intros x [<-|[<-|[]]]; discriminate. }
  assert (Hd : NoDup [4; 1]).
  { repeat constructor; simpl; intuition discriminate. }
  split; [exact sample_db_well_formed|]. split; [exact Hd|].
  split; [exact Hall|].
  destruct (bulk_delete_removes_the_listed_rows 1%N [4; 1] sample_db
              sample_db_well_formed Hd Hall) as (db' & Hrun & _).
  exists db'. exact Hrun.
Defined.

(** ** Import: what the parsers do with the rows *)

Section ImportLoops.
Import ImportService.

Lemma parse_csv_rows_acc {P : Platform} rows : forall n v e,
  parse_csv_rows n rows v e
  = (v ++ fst (parse_csv_rows n rows [] []),
     e ++ snd (parse_csv_rows n rows [] [])).
Proof.
  induction rows as [|row rest IH]; intros n v e; cbn [parse_csv_rows].
  - now rewrite !app_nil_r.
  - destruct (validate_imported_task row) as [[[|] m]|x]; cbn [fst snd app].
    + destruct (csv_task_dict row) as [t|x]; cbn [fst snd app].
      * rewrite (IH (n + 1) (v ++ [t]) e), (IH (n + 1) [t] []).
        cbn [fst snd app]. now rewrite <- app_assoc.
      * now rewrite app_nil_r.
    + rewrite (IH (n + 1) v (e ++ [RowError n m])),
        (IH (n + 1) [] [RowError n m]).
      cbn [fst snd app]. now rewrite <- app_assoc.
    + now rewrite app_nil_r.
Qed.

Lemma parse_csv_rows_taken {P : Platform} rows : forall n,
  Forall csv_row_taken rows ->
  let r := parse_csv_rows n rows [] [] in
  (List.length (fst r) + List.length (snd r) = List.length rows)%nat
  /\ (forall i row, nth_error rows i = Some row ->
        match validate_imported_task row with
        | Ok (true, _) =>
            exists task, csv_task_dict row = Ok task /\ In task (fst r)
        | Ok (false, m) => In (RowError (n + Z.of_nat i) m) (snd r)
        | Err _ => False
        end)
  /\ (forall line, In line (snd r) ->
        exists i row m, line = RowError (n + Z.of_nat i) m
          /\ nth_error rows i = Some row
          /\ validate_imported_task row = Ok (false, m)).
Proof.
  induction rows as [|row rest IH]; intros n Hall.
  - cbn. split; [reflexivity|]. split.
    + intros [|i] row H; discriminate H.
    + intros line [].
  - inversion Hall as [|? ? Hrow Hrest]; subst.
    specialize (IH (n + 1) Hrest). cbn zeta in IH.
    destruct IH as (Hlen & Hin & Hout).
    cbn zeta. cbn [parse_csv_rows]. unfold csv_row_taken in Hrow.
    destruct (validate_imported_task row) as [[[|] m]|x] eqn:Hv;
      [|clear Hrow|contradiction].
    + destruct Hrow as (t & Ht). rewrite Ht.
      rewrite (parse_csv_rows_acc rest (n + 1) ([] ++ [t]) []).
      cbn [fst snd app]. split; [cbn [List.length]; lia|]. split.
      * intros [|i] r Hr; cbn [nth_error] in Hr.
        -- injection Hr as <-. rewrite Hv. exists t. split; [exact Ht|now left].
        -- specialize (Hin i r Hr).
           destruct (validate_imported_task r) as [[[|] m']|x']; [| |exact Hin].
           ++ destruct Hin as (t' & Ht' & Hin). exists t'.
              split; [exact Ht'|now right].
           ++ replace (n + Z.of_nat (S i)) with (n + 1 + Z.of_nat i) by lia.
              exact Hin.
      * intros line Hl. destruct (Hout line Hl) as (i & r & m' & -> & Hr & Hm).
        exists (S i), r, m'. split; [f_equal; lia|]. split; assumption.
    + rewrite (parse_csv_rows_acc rest (n + 1) [] ([] ++ [RowError n m])).
      cbn [fst snd app]. split; [cbn [List.length]; lia|]. split.
      * intros [|i] r Hr; cbn [nth_error] in Hr.
        -- injection Hr as <-. rewrite Hv. left. f_equal. lia.
        -- specialize (Hin i r Hr).
           destruct (validate_imported_task r) as [[[|] m']|x']; [| |exact Hin].
           ++ exact Hin.
           ++ replace (n + Z.of_nat (S i)) with (n + 1 + Z.of_nat i) by lia.
              now right.
      * intros line [<-|Hl].
        -- exists 0%nat, row, m. split; [f_equal; lia|]. split; [reflexivity|exact Hv].
        -- destruct (Hout line Hl) as (i & r & m' & -> & Hr & Hm).
           exists (S i), r, m'. split; [f_equal; lia|]. split; assumption.
Qed.

Lemma parse_csv_rows_app {P : Platform} pre rest : forall n,
  Forall csv_row_taken pre ->
  parse_csv_rows n (pre ++ rest) [] []
  = (fst (parse_csv_rows n pre [] [])
       ++ fst (parse_csv_rows (n + Z.of_nat (List.length pre)) rest [] []),
     snd (parse_csv_rows n pre [] [])
       ++ snd (parse_csv_rows (n + Z.of_nat (List.length pre)) rest [] [])).
Proof.
  induction pre as [|row pre IH]; intros n Hall.
  - cbn [app List.length parse_csv_rows fst snd]. rewrite Z.add_0_r.
    now destruct (parse_csv_rows n rest [] []).
  - inversion Hall as [|? ? Hrow Hpre]; subst.
    cbn [app parse_csv_rows]. unfold csv_row_taken in Hrow.
    replace (n + Z.of_nat (List.length (row :: pre)))
      with (n + 1 + Z.of_nat (List.length pre))
      by (cbn [List.length]; lia).
    destruct (validate_imported_task row) as [[[|] m]|x];
      [|clear Hrow|contradiction].
    + destruct Hrow as (t & ->).
      rewrite (parse_csv_rows_acc (pre ++ rest)), (parse_csv_rows_acc pre).
      rewrite (IH (n + 1) Hpre). cbn [fst snd].
      now rewrite !app_assoc.
    + rewrite (parse_csv_rows_acc (pre ++ rest)), (parse_csv_rows_acc pre).
      rewrite (IH (n + 1) Hpre). cbn [fst snd].
      now rewrite !app_assoc.
Qed.

End ImportLoops.

(** X19 ([ImportService.parse_csv]): when no row raises, every row of the
    file is accounted for once: a row that passes validation gives its
    record in the list of valid tasks, a row that fails gives the line
    ["Row n: error"] whose number is its position counted from 2, and
    the error list holds nothing else. *)
Theorem parse_csv_accounts_for_every_row {P : Platform}
  (rows : list ImportService.dict) :
  Forall csv_row_taken rows ->
  let r := ImportService.parse_csv rows in
  (List.length (fst r) + List.length (snd r) = List.length rows)%nat
  /\ (forall i row, nth_error rows i = Some row ->
        match ImportService.validate_imported_task row with
        | ImportService.Ok (true, _) =>
            exists task,
              ImportService.csv_task_dict row = ImportService.Ok task
              /\ In task (fst r)
        | ImportService.Ok (false, m) =>
            In (ImportService.RowError (2 + Z.of_nat i) m) (snd r)
        | ImportService.Err _ => False
        end)
  /\ (forall line, In line (snd r) ->
        exists i row m,
          line = ImportService.RowError (2 + Z.of_nat i) m
          /\ nth_error rows i = Some row
          /\ ImportService.validate_imported_task row
             = ImportService.Ok (false, m)).
Proof.
  intros Hall. exact (parse_csv_rows_taken rows 2 Hall).
Qed.

(** X20 ([ImportService.parse_csv]): the first row that raises ends the
    parse.  The rows before it are reported as usual, one line
    ["Unexpected error parsing CSV: ..."] is added, and the rows after it
    are neither imported nor reported. *)
Theorem parse_csv_stops_at_the_first_exception {P : Platform}
  (pre post : list ImportService.dict) (bad : ImportService.dict)
  (e : ImportService.raised) :
  Forall csv_row_taken pre ->
  csv_row_raises bad e ->
  ImportService.parse_csv (pre ++ bad :: post)
  = (fst (ImportService.parse_csv pre),
     snd (ImportService.parse_csv pre) ++ [ImportService.UnexpectedError e]).
Proof.
  intros Hpre Hbad. unfold ImportService.parse_csv.
  rewrite (parse_csv_rows_app pre (bad :: post) 2 Hpre).
  cbn [ImportService.parse_csv_rows]. unfold csv_row_raises in Hbad.
  destruct (ImportService.validate_imported_task bad) as [[[|] m]|x].
  - rewrite Hbad. cbn [fst snd app]. now rewrite app_nil_r.
  - contradiction.
  - subst x. cbn [fst snd app]. now rewrite app_nil_r.
Qed.

Lemma parse_csv_accounts_for_every_row_example :
  Forall (csv_row_taken (P := sample_platform))
    [row_imported; row_blank_title]
  /\ ImportService.parse_csv (P := sample_platform)
       [row_imported; row_blank_title]
     = ([ {| ImportService.td_title := "Buy milk";
             ImportService.td_description := None;
             ImportService.td_priority := "high";
             ImportService.td_due_date := None;
             ImportService.td_tags :=
               ImportService.VList
                 [ImportService.VStr "home"; ImportService.VStr "shop"];
             ImportService.td_completed := ImportService.VBool false |} ],
        [ImportService.RowError 3 ImportService.TitleRequired])
  /\ (List.length
        (fst (ImportService.parse_csv (P := sample_platform)
                [row_imported; row_blank_title]))
      + List.length
          (snd (ImportService.parse_csv (P := sample_platform)
                  [row_imported; row_blank_title]))
      = 2)%nat.
Proof.
  assert (Hall : Forall (csv_row_taken (P := sample_platform))
                   [row_imported; row_blank_title]).
  { repeat constructor. vm_compute. eexists. reflexivity. }
  split; [exact Hall|]. split; [reflexivity|].
  destruct (parse_csv_accounts_for_every_row (P := sample_platform)
              [row_imported; row_blank_title] Hall) as (Hlen & _).
  exact Hlen.
Defined.

Lemma parse_csv_stops_at_the_first_exception_example :
  Forall (csv_row_taken (P := sample_platform))
    [row_imported; row_blank_title]
  /\ csv_row_raises (P := sample_platform) row_without_description
       ImportService.AttributeError
  /\ ImportService.parse_csv (P := sample_platform)
       ([row_imported; row_blank_title]
          ++ row_without_description :: [row_imported])
     = (fst (ImportService.parse_csv (P := sample_platform)
               [row_imported; row_blank_title]),
        snd (ImportService.parse_csv (P := sample_platform)
               [row_imported; row_blank_title])
          ++ [ImportService.UnexpectedError ImportService.AttributeError]).
Proof.
  assert (Hall : Forall (csv_row_taken (P := sample_platform))
                   [row_imported; row_blank_title]).
  { repeat constructor. vm_compute. eexists. reflexivity. }
  assert (Hbad : csv_row_raises (P := sample_platform)
                   row_without_description ImportService.AttributeError).
  { reflexivity. }
  split; [exact Hall|]. split; [exact Hbad|].
  exact (parse_csv_stops_at_the_first_exception (P := sample_platform)
           [row_imported; row_blank_title] [row_imported]
           row_without_description ImportService.AttributeError Hall Hbad).
Defined.

Section JsonLoop.
Import ImportService.

Lemma parse_json_items_acc {P : Platform} items : forall n v e,
  parse_json_items n items v e
  = (v ++ fst (parse_json_items n items [] []),
     e ++ snd (parse_json_items n items [] [])).
Proof.
  induction items as [|item rest IH]; intros n v e; cbn [parse_json_items].
  - now rewrite !app_nil_r.
  - assert (Hskip : parse_json_items (n + 1) rest v (e ++ [ItemNotObject n])
                    = (v ++ fst (parse_json_items (n + 1) rest []
                                   ([] ++ [ItemNotObject n])),
                       e ++ snd (parse_json_items (n + 1) rest []
                                   ([] ++ [ItemNotObject n])))).
    { rewrite (IH (n + 1) v (e ++ [ItemNotObject n])),
        (IH (n + 1) [] ([] ++ [ItemNotObject n])).
      cbn [fst snd app]. now rewrite <- app_assoc. }
    destruct item as [|b|z|s|l|task]; try exact Hskip.
    destruct (validate_imported_task task) as [[[|] m]|x]; cbn [fst snd app].
    + destruct (json_task_dict task) as [t|x]; cbn [fst snd app].
      * rewrite (IH (n + 1) (v ++ [t]) e), (IH (n + 1) [t] []).
        cbn [fst snd app]. now rewrite <- app_assoc.
      * now rewrite app_nil_r.
    + rewrite (IH (n + 1) v (e ++ [ItemError n m])),
        (IH (n + 1) [] [ItemError n m]).
      cbn [fst snd app]. now rewrite <- app_assoc.
    + now rewrite app_nil_r.
Qed.

Lemma parse_json_items_cons {P : Platform} item rest n :
  json_item_taken item ->
  parse_json_items n (item :: rest) [] []
  = (match item with
     | VDict task =>
         match validate_imported_task task, json_task_dict task with
         | Ok (true, _), Ok record => [record]
         | _, _ => []
         end
     | _ => []
     end ++ fst (parse_json_items (n + 1) rest [] []),
     match item with
     | VDict task =>
         match validate_imported_task task with
         | Ok (false, m) => [ItemError n m]
         | _ => []
         end
     | _ => [ItemNotObject n]
     end ++ snd (parse_json_items (n + 1) rest [] [])).
Proof.
  intros Htaken. cbn [parse_json_items].
  destruct item as [|b|z|s|l|task];
    try (rewrite (parse_json_items_acc rest (n + 1) [] ([] ++ [ItemNotObject n]));
         reflexivity).
  unfold json_item_taken in Htaken.
  destruct (validate_imported_task task) as [[[|] m]|x];
    [|clear Htaken|contradiction].
  - destruct Htaken as (t & ->).
    now rewrite (parse_json_items_acc rest (n + 1) ([] ++ [t]) []).
  - now rewrite (parse_json_items_acc rest (n + 1) [] ([] ++ [ItemError n m])).
Qed.

Lemma parse_json_items_app {P : Platform} pre rest : forall n,
  Forall json_item_taken pre ->
  parse_json_items n (pre ++ rest) [] []
  = (fst (parse_json_items n pre [] [])
       ++ fst (parse_json_items (n + Z.of_nat (List.length pre)) rest [] []),
     snd (parse_json_items n pre [] [])
       ++ snd (parse_json_items (n + Z.of_nat (List.length pre)) rest [] [])).
Proof.
  induction pre as [|item pre IH]; intros n Hall.
  - cbn [app List.length parse_json_items fst snd]. rewrite Z.add_0_r.
    now destruct (parse_json_items n rest [] []).
  - inversion Hall as [|? ? Hitem Hpre]; subst.
    change ((item :: pre) ++ rest) with (item :: (pre ++ rest)).
    rewrite (parse_json_items_cons item (pre ++ rest) n Hitem),
      (parse_json_items_cons item pre n Hitem), (IH (n + 1) Hpre).
    cbn [fst snd].
    replace (n + Z.of_nat (List.length (item :: pre)))
      with (n + 1 + Z.of_nat (List.length pre))
      by (cbn [List.length]; lia).
    now rewrite !app_assoc.
Qed.

Lemma parse_json_items_taken {P : Platform} items : forall n,
  Forall json_item_taken items ->
  let r := parse_json_items n items [] [] in
  (List.length (fst r) + List.length (snd r) = List.length items)%nat
  /\ (forall i item, nth_error items i = Some item ->
        match item with
        | VDict task =>
            match validate_imported_task task with
            | Ok (true, _) =>
                exists record,
                  json_task_dict task = Ok record /\ In record (fst r)
            | Ok (false, m) => In (ItemError (n + Z.of_nat i) m) (snd r)
            | Err _ => False
            end
        | _ => In (ItemNotObject (n + Z.of_nat i)) (snd r)
        end).
Proof.
  induction items as [|item rest IH]; intros n Hall.
  - cbn. split; [reflexivity|]. intros [|i] item H; discriminate H.
  - inversion Hall as [|? ? Hitem Hrest]; subst.
    specialize (IH (n + 1) Hrest). cbn zeta in IH. destruct IH as (Hlen & Hin).
    cbn zeta. rewrite (parse_json_items_cons item rest n Hitem).
    cbn [fst snd]. split.
    + rewrite !length_app. cbn [List.length].
      unfold json_item_taken in Hitem.
      destruct item as [|b|z|s|l|task]; cbn [List.length]; try lia.
      destruct (validate_imported_task task) as [[[|] m]|x];
        [|cbn [List.length]; lia|contradiction].
      destruct Hitem as (t & ->). cbn [List.length]. lia.
    + intros [|i] it Hit; cbn [nth_error] in Hit.
      * injection Hit as <-. rewrite Z.add_0_r.
        unfold json_item_taken in Hitem.
        destruct item as [|b|z|s|l|task]; try (now left).
        destruct (validate_imported_task task) as [[[|] m]|x];
          [|now left|contradiction].
        destruct Hitem as (t & Ht). rewrite Ht. exists t.
        split; [reflexivity|now left].
      * specialize (Hin i it Hit).
        replace (n + Z.of_nat (S i)) with (n + 1 + Z.of_nat i) by lia.
        destruct it as [|b|z|s|l|task];
          try (apply in_or_app; right; exact Hin).
        destruct (validate_imported_task task) as [[[|] m']|x'];
          [| |exact Hin].
        -- destruct Hin as (t' & Ht' & Hin). exists t'.
           split; [exact Ht'|apply in_or_app; now right].
        -- apply in_or_app; now right.
Qed.

End JsonLoop.

(** X21 ([ImportService.parse_json]): when no item raises, every item of
    the array is accounted for once: an object that passes validation
    gives its record, an object that fails gives ["Item n: error"], and
    an item that is not an object gives ["Item n: Must be an
    object/dictionary"] without ending the parse; [n] counts from 1. *)
Theorem parse_json_accounts_for_every_item {P : Platform}
  (items : list ImportService.value) :
  Forall json_item_taken items ->
  let r := ImportService.parse_json (ImportService.VList items) in
  (List.length (fst r) + List.length (snd r) = List.length items)%nat
  /\ (forall i item, nth_error items i = Some item ->
        match item with
        | ImportService.VDict task =>
            match ImportService.validate_imported_task task with
            | ImportService.Ok (true, _) =>
                exists record,
                  ImportService.json_task_dict task = ImportService.Ok record
                  /\ In record (fst r)
            | ImportService.Ok (false, m) =>
                In (ImportService.ItemError (1 + Z.of_nat i) m) (snd r)
            | ImportService.Err _ => False
            end
        | _ => In (ImportService.ItemNotObject (1 + Z.of_nat i)) (snd r)
        end).
Proof.
  intros Hall. exact (parse_json_items_taken items 1 Hall).
Qed.

Lemma parse_json_accounts_for_every_item_example :
  Forall (json_item_taken (P := sample_platform))
    [ImportService.VInt 7; ImportService.VDict row_blank_title;
     ImportService.VDict row_imported]
  /\ In (ImportService.ItemNotObject 1)
       (snd (ImportService.parse_json (P := sample_platform)
               (ImportService.VList
                  [ImportService.VInt 7; ImportService.VDict row_blank_title;
                   ImportService.VDict row_imported])))
  /\ In (ImportService.ItemError 2 ImportService.TitleRequired)
       (snd (ImportService.parse_json (P := sample_platform)
               (ImportService.VList
                  [ImportService.VInt 7; ImportService.VDict row_blank_title;
                   ImportService.VDict row_imported]))).
Proof.
  assert (Hall : Forall (json_item_taken (P := sample_platform))
                   [ImportService.VInt 7; ImportService.VDict row_blank_title;
                    ImportService.VDict row_imported]).
  { repeat constructor. vm_compute. eexists. reflexivity. }
  split; [exact Hall|].
  destruct (parse_json_accounts_for_every_item (P := sample_platform) _ Hall)
    as (_ & Hin).
  split.
  - exact (Hin 0%nat (ImportService.VInt 7) eq_refl).
  - exact (Hin 1%nat (ImportService.VDict row_blank_title) eq_refl).
Defined.

(** ** Import: what validation lets through *)

Section Validation.
Import ImportService.

Lemma check_tags_short l :
  Forall (fun tag => exists s, tag = VStr s /\ Py.len s <= 50) l ->
  check_tags l = Ok None.
Proof.
  induction 1 as [|tag r (s & -> & Hs) _ IH]; [reflexivity|].
  cbn [check_tags len]. rewrite Z.gtb_ltb.
  destruct (Z.ltb_spec 50 (Py.len s)); [lia|exact IH].
Qed.

Lemma validate_accepts {P : Platform} (d : dict) title description priority :
  get "title" (VStr "") d = VStr title ->
  Py.strip title <> "" ->
  Py.len (Py.strip title) <= 200 ->
  get "description" (VStr "") d = description ->
  (description = VNone \/ exists s, description = VStr s /\ Py.len s <= 1000) ->
  get "priority" (VStr "medium") d = VStr priority ->
  In (Py.lower priority) ["low"; "medium"; "high"] ->
  (truthy (get "due_date" VNone d) = false
   \/ exists x, _parse_datetime (get "due_date" VNone d) = Some x) ->
  (truthy (get "tags" VNone d) = false
   \/ exists l,
        (get "tags" VNone d = VList l
         \/ exists s, get "tags" VNone d = VStr s /\ split_tags s = l)
        /\ Z.of_nat (List.length l) <= 10
        /\ check_tags l = Ok None) ->
  (exists b, get "completed" (VBool false) d = VBool b
   \/ in_strs (get "completed" (VBool false) d)
        ["true"; "false"; "True"; "False"; "1"; "0"] = true) ->
  validate_imported_task d = Ok (true, NoError).
Proof.
  intros Ht Hne Hlen Hd Hdesc Hp Hprio Hdue Htags Hdone.
  unfold validate_imported_task. rewrite Ht.
  destruct (Py.truthy (Py.strip title)) eqn:Etruthy;
    [|apply truthy_false in Etruthy; contradiction].
  cbn [negb]. rewrite Z.gtb_ltb.
  destruct (Z.ltb_spec 200 (Py.len (Py.strip title))) as [Hbad|_]; [lia|].
  rewrite Hd.
  assert (Edesc : exists n, (if truthy description then len description
                             else Ok 0) = Ok n
                            /\ truthy description && (n >? 1000) = false).
  { destruct Hdesc as [->|(s & -> & Hs)].
    - exists 0. split; reflexivity.
    - cbn [truthy len]. destruct (Py.truthy s).
      + exists (Py.len s). split; [reflexivity|]. rewrite Z.gtb_ltb.
        destruct (Z.ltb_spec 1000 (Py.len s)); [lia|reflexivity].
      + exists 0. split; reflexivity. }
  destruct Edesc as (n & -> & ->). rewrite Hp.
  apply str_in_In in Hprio. rewrite Hprio. cbn [negb].
  assert (Edue : truthy (get "due_date" VNone d)
                 && match _parse_datetime (get "due_date" VNone d) with
                    | None => true
                    | Some _ => false
                    end = false).
  { destruct Hdue as [->|(x & ->)]; [reflexivity|apply andb_false_r]. }
  rewrite Edue.
  assert (Etags : (if truthy (get "tags" VNone d) then
                     match match get "tags" VNone d with
                           | VStr s => VList (split_tags s)
                           | _ => get "tags" VNone d
                           end with
                     | VList l =>
                         if Z.of_nat (List.length l) >? 10
                         then Ok (Some TooManyTags)
                         else check_tags l
                     | _ => Ok (Some TagsNotArray)
                     end
                   else Ok None) = Ok None).
  { destruct Htags as [->|(l & Hl & Hn & Hc)]; [reflexivity|].
    destruct (truthy (get "tags" VNone d)); [|reflexivity].
    assert (Hgt : (Z.of_nat (List.length l) >? 10) = false).
    { rewrite Z.gtb_ltb. destruct (Z.ltb_spec 10 (Z.of_nat (List.length l)));
        [lia|reflexivity]. }
    destruct Hl as [->|(s & -> & <-)]; rewrite Hgt; exact Hc. }
  cbv zeta. rewrite Etags.
  destruct Hdone as (b & [->| ->]); [reflexivity|].
  now rewrite andb_false_r.
Qed.

Lemma validate_accepted {P : Platform} (d : dict) m :
  validate_imported_task d = Ok (true, m) ->
  exists title priority,
    get "title" (VStr "") d = VStr title
    /\ Py.strip title <> ""
    /\ Py.len (Py.strip title) <= 200
    /\ (forall s, get "description" (VStr "") d = VStr s -> Py.len s <= 1000)
    /\ get "priority" (VStr "medium") d = VStr priority
    /\ In (Py.lower priority) ["low"; "medium"; "high"].
Proof.
  unfold validate_imported_task. intros H.
  destruct (get "title" (VStr "") d) as [| | |title| |]; try discriminate H.
  destruct (Py.truthy (Py.strip title)) eqn:Etruthy; [|discriminate H].
  cbn [negb] in H.
  destruct (Py.len (Py.strip title) >? 200) eqn:Elen; [discriminate H|].
  destruct (if truthy (get "description" (VStr "") d)
            then len (get "description" (VStr "") d) else Ok 0)
    as [n|x] eqn:En; [|discriminate H].
  destruct (truthy (get "description" (VStr "") d) && (n >? 1000)) eqn:Ed;
    [discriminate H|].
  destruct (get "priority" (VStr "medium") d) as [| | |priority| |];
    try discriminate H.
  destruct (Py.str_in (Py.lower priority) ["low"; "medium"; "high"]) eqn:Ep;
    [|discriminate H].
  exists title, priority. split; [reflexivity|]. split.
  { intros He. rewrite He in Etruthy. discriminate Etruthy. }
  split.
  { rewrite Z.gtb_ltb in Elen. now apply Z.ltb_ge in Elen. }
  split.
  { intros s Hs. rewrite Hs in En, Ed. cbn [truthy len] in En, Ed.
    destruct (Py.truthy s) eqn:Es.
    - injection En as <-. cbn [andb] in Ed. rewrite Z.gtb_ltb in Ed.
      now apply Z.ltb_ge in Ed.
    - apply truthy_false in Es. subst s. cbn. lia. }
  split; [reflexivity|]. now apply str_in_In.
Qed.

End Validation.

(** X22 ([ImportService.validate_imported_task], [parse_csv],
    [parse_json], [TaskService.create_task]): a record that validation
    accepts and the parser converts, with no due date or with a naive one
    (read from a string without UTC offset), passes every check of
    [create_task] but the one on a due date in the past, and is stored
    with the title, description, priority and due date of the record.
    An offset-aware due date, as a string ending in [Z] or [+00:00]
    gives, is not an argument [create_task] can compare with
    [datetime.utcnow()]; it is left out here. *)
Theorem accepted_records_pass_create_task {P : Platform}
  (row : ImportService.dict) (m : ImportService.message)
  (record : ImportService.task_dict) (due_date : option datetime)
  (user_id : UUID) (tags : option (list string)) (db : Db) :
  well_formed db ->
  ImportService.validate_imported_task row = ImportService.Ok (true, m) ->
  ImportService.csv_task_dict row = ImportService.Ok record
  \/ ImportService.json_task_dict row = ImportService.Ok record ->
  ImportService.td_due_date record
  = match due_date with
    | Some d => Some (ImportService.Naive d)
    | None => None
    end ->
  (forall d, due_date = Some d -> clock db <= d) ->
  exists task db',
    TaskService.create_task user_id (ImportService.td_title record)
      (ImportService.td_description record)
      (ImportService.td_priority record) due_date tags db = (Return task, db')
    /\ Task.title task = ImportService.td_title record
    /\ Task.description task = ImportService.td_description record
    /\ Task.priority task = ImportService.td_priority record
    /\ Task.due_date task = due_date
    /\ Task.completed task = false
    /\ table db' = table db ++ [task].
Proof.
  intros Hwf Hv Hrecord Hnaive Hdue.
  destruct (validate_accepted row m Hv)
    as (title & priority & Ht & Hne & Hlen & Hdesc & Hp & Hprio).
  assert (Hfields :
            ImportService.td_title record = Py.strip title
            /\ (forall d, ImportService.td_description record = Some d ->
                          Py.len d <= 1000)
            /\ ImportService.td_priority record = Py.lower priority).
  { assert (Hor : forall s d,
              ImportService.get "description" (ImportService.VStr "") row
              = ImportService.VStr s ->
              ImportService.or_None (Py.strip s) = Some d -> Py.len d <= 1000).
    { intros s d Hs Hd. unfold ImportService.or_None in Hd.
      destruct (Py.truthy (Py.strip s)); [|discriminate Hd].
      injection Hd as <-. pose proof (strip_length s).
      specialize (Hdesc s Hs). lia. }
    destruct Hrecord as [Hr|Hr];
      [unfold ImportService.csv_task_dict in Hr
      |unfold ImportService.json_task_dict in Hr];
      rewrite Ht, Hp in Hr; cbn [ImportService.as_str ImportService.and_then] in Hr;
      destruct (ImportService.get "description" (ImportService.VStr "") row)
        as [| | |s| |] eqn:Es; try discriminate Hr;
      cbn [ImportService.as_str ImportService.and_then] in Hr.
    - destruct (ImportService._parse_tags _); [|discriminate Hr].
      cbn [ImportService.and_then] in Hr. injection Hr as <-.
      cbn. split; [reflexivity|]. split; [|reflexivity].
      intros d. now apply Hor.
    - injection Hr as <-. cbn. split; [reflexivity|]. split; [|reflexivity].
      intros d. now apply Hor. }
  destruct Hfields as (Etitle & Edesc & Eprio).
  assert (Hok : create_acceptable (clock db) (ImportService.td_title record)
                  (ImportService.td_description record)
                  (ImportService.td_priority record) due_date).
  { unfold create_acceptable. rewrite Etitle, Eprio, strip_idempotent.
    repeat split; assumption. }
  pose proof (create_task_run user_id _ _ _ _ tags db Hwf Hok) as Hrun.
  cbv zeta in Hrun. eexists. eexists. split; [exact Hrun|].
  cbn. rewrite Etitle at 1. rewrite strip_idempotent.
  repeat split; try reflexivity. now symmetry.
Qed.

Lemma accepted_records_pass_create_task_example :
  well_formed sample_db
  /\ ImportService.validate_imported_task (P := sample_platform) row_imported
     = ImportService.Ok (true, ImportService.NoError)
  /\ exists record task db',
       ImportService.csv_task_dict (P := sample_platform) row_imported
       = ImportService.Ok record
       /\ ImportService.td_due_date record = None
       /\ TaskService.create_task 1%N (ImportService.td_title record)
            (ImportService.td_description record)
            (ImportService.td_priority record) None (Some ["home"; "shop"])
            sample_db = (Return task, db')
       /\ Task.title task = "Buy milk".
Proof.
  split; [exact sample_db_well_formed|]. split; [reflexivity|].
  eexists.
  destruct (accepted_records_pass_create_task (P := sample_platform)
              row_imported ImportService.NoError _ None 1%N
              (Some ["home"; "shop"]) sample_db sample_db_well_formed
              eq_refl (or_introl eq_refl) eq_refl)
    as (task & db' & Hrun & Htitle & _).
  { intros d H. discriminate H. }
  exists task, db'. split; [reflexivity|]. split; [reflexivity|].
  split; [exact Hrun|exact Htitle].
Defined.

(** ** Export followed by import *)

Section RoundTrip.
Import ImportService.
Context {P : Platform} {F : Formats}.

Lemma split_one_more (c : ascii) (a b : string) :
  Py.split c a = [a] ->
  Py.split c (a ++ String c b)%string = a :: Py.split c b.
Proof.
  induction a as [|x a IH]; intros H.
  - cbn. now rewrite Ascii.eqb_refl.
  - cbn [Py.split append] in *. destruct (Ascii.eqb x c); [discriminate H|].
    destruct (Py.split c a) as [|h t] eqn:Ea.
    + injection H as <-. discriminate Ea.
    + injection H as -> ->. now rewrite (IH eq_refl).
Qed.

Lemma split_join (tags : list string) :
  tags <> [] ->
  Forall tag_clean tags ->
  Py.split "," (String.concat "," tags) = tags.
Proof.
  induction 2 as [|tag r (_ & _ & Hsplit) Hr IH]; [contradiction|].
  destruct r as [|tag' r]; [exact Hsplit|].
  change (String.concat "," (tag :: tag' :: r))
    with (tag ++ String "," (String.concat "," (tag' :: r)))%string.
  rewrite (split_one_more _ _ _ Hsplit). f_equal. now apply IH.
Qed.

Lemma split_tags_join (tags : list string) :
  tags <> [] ->
  Forall tag_clean tags ->
  split_tags (String.concat "," tags) = map VStr tags.
Proof.
  intros Hne Hall. unfold split_tags. rewrite (split_join tags Hne Hall).
  clear Hne. induction Hall as [|tag r (Hn & Hs & _) _ IH]; [reflexivity|].
  cbn [filter map]. rewrite Hs.
  destruct (Py.truthy tag) eqn:E; [|apply truthy_false in E; contradiction].
  cbn [map]. rewrite Hs. now f_equal.
Qed.

Lemma join_truthy (tag : string) (r : list string) :
  tag <> "" -> Py.truthy (String.concat "," (tag :: r)) = true.
Proof.
  intros H. destruct tag as [|c tag]; [contradiction|].
  destruct r; reflexivity.
Qed.

Lemma lower_level (p : string) :
  In p ["low"; "medium"; "high"] -> Py.lower p = p.
Proof. intros [<-|[<-|[<-|[]]]]; reflexivity. Qed.

Lemma tags_short (tags : list string) :
  Forall (fun tag => Py.len tag <= 50) tags ->
  Forall (fun tag => exists s, tag = VStr s /\ Py.len s <= 50)
    (map VStr tags).
Proof.
  intros H. rewrite Forall_map. eapply Forall_impl; [|exact H].
  intros tag Ht. now exists tag.
Qed.

Lemma due_cell_read (t : Task.t) :
  reads_back t ->
  _parse_datetime
    match Task.due_date t with
    | Some d => VStr (isoformat d)
    | None => VNone
    end = td_due_date (reimported t)
  /\ _parse_datetime
       (VStr match Task.due_date t with
             | Some d => isoformat d
             | None => ""
             end) = td_due_date (reimported t).
Proof.
  intros H. unfold reads_back in H. unfold reimported. cbn [td_due_date].
  destruct (Task.due_date t) as [d|]; [|split; reflexivity].
  destruct (H d eq_refl) as (Hne & Hread).
  unfold _parse_datetime. cbn [truthy].
  destruct (Py.truthy (isoformat d)) eqn:E;
    [|apply truthy_false in E; contradiction].
  cbn [negb]. cbv zeta. rewrite Hread. split; reflexivity.
Qed.

Lemma validate_exported_json (t : Task.t) :
  exportable t -> reads_back t ->
  validate_imported_task (ExportService.json_dict t) = Ok (true, NoError).
Proof.
  intros ((Hstrip & Hne & Hlen & Hdesc & Hprio) & Hcount & Hshort) Hdate.
  eapply (validate_accepts (ExportService.json_dict t) (Task.title t)
            _ (Task.priority t)); try reflexivity.
  - now rewrite Hstrip.
  - now rewrite Hstrip.
  - change (get "description" (VStr "") (ExportService.json_dict t))
      with (match Task.description t with
            | Some d => VStr d
            | None => VNone
            end).
    destruct (Task.description t) as [d|]; [right|now left].
    exists d. split; [reflexivity|]. now apply Hdesc.
  - now rewrite (lower_level _ Hprio).
  - change (get "due_date" VNone (ExportService.json_dict t))
      with (match Task.due_date t with
            | Some d => VStr (isoformat d)
            | None => VNone
            end).
    destruct (due_cell_read t Hdate) as (Hread & _).
    unfold reimported in Hread. cbn [td_due_date] in Hread.
    destruct (Task.due_date t) as [d|]; [right|now left].
    eexists. exact Hread.
  - right. exists (map VStr (Task.tags t)). split; [now left|].
    rewrite length_map. split; [exact Hcount|].
    apply check_tags_short, tags_short, Hshort.
  - exists (Task.completed t). now left.
Qed.

Lemma json_task_dict_exported (t : Task.t) (d : string) :
  exportable t -> reads_back t ->
  Task.description t = Some d ->
  json_task_dict (ExportService.json_dict t) = Ok (reimported t).
Proof.
  intros ((Hstrip & _ & _ & _ & Hprio) & _) Hdate Hd.
  unfold json_task_dict.
  change (get "title" (VStr "") (ExportService.json_dict t))
    with (VStr (Task.title t)).
  change (get "description" (VStr "") (ExportService.json_dict t))
    with (match Task.description t with
          | Some d => VStr d
          | None => VNone
          end).
  change (get "priority" (VStr "medium") (ExportService.json_dict t))
    with (VStr (Task.priority t)).
  change (get "due_date" VNone (ExportService.json_dict t))
    with (match Task.due_date t with
          | Some d => VStr (isoformat d)
          | None => VNone
          end).
  change (get "tags" (VList []) (ExportService.json_dict t))
    with (VList (map VStr (Task.tags t))).
  change (get "completed" (VBool false) (ExportService.json_dict t))
    with (VBool (Task.completed t)).
  destruct (due_cell_read t Hdate) as (-> & _).
  unfold reimported. cbn [td_due_date].
  rewrite Hd. cbn [as_str and_then].
  rewrite Hstrip, (lower_level _ Hprio). reflexivity.
Qed.

Lemma json_task_dict_undescribed (t : Task.t) :
  Task.description t = None ->
  json_task_dict (ExportService.json_dict t) = Err AttributeError.
Proof.
  intros Hd. unfold json_task_dict.
  change (get "title" (VStr "") (ExportService.json_dict t))
    with (VStr (Task.title t)).
  change (get "description" (VStr "") (ExportService.json_dict t))
    with (match Task.description t with
          | Some d => VStr d
          | None => VNone
          end).
  rewrite Hd. reflexivity.
Qed.

Lemma parse_json_items_exported (tasks : list Task.t) : forall n,
  Forall (fun t => exportable t /\ reads_back t
                   /\ Task.description t <> None) tasks ->
  parse_json_items n
    (map (fun t => VDict (ExportService.json_dict t)) tasks) [] []
  = (map reimported tasks, []).
Proof.
  induction tasks as [|t r IH]; intros n Hall; [reflexivity|].
  inversion Hall as [|? ? (He & Hr & Hd) Hrest]; subst.
  destruct (Task.description t) as [d|] eqn:Ed; [|contradiction].
  cbn [map parse_json_items].
  rewrite (validate_exported_json t He Hr),
    (json_task_dict_exported t d He Hr Ed).
  rewrite (parse_json_items_acc _ (n + 1) ([] ++ [reimported t]) []).
  now rewrite (IH (n + 1) Hrest).
Qed.

Lemma exported_json_taken (tasks : list Task.t) :
  Forall (fun t => exportable t /\ reads_back t
                   /\ Task.description t <> None) tasks ->
  Forall json_item_taken
    (map (fun t => VDict (ExportService.json_dict t)) tasks).
Proof.
  intros H. rewrite Forall_map. eapply Forall_impl; [|exact H].
  intros t (He & Hr & Hd). unfold json_item_taken.
  rewrite (validate_exported_json t He Hr).
  destruct (Task.description t) as [d|] eqn:Ed; [|contradiction].
  exists (reimported t). exact (json_task_dict_exported t d He Hr Ed).
Qed.

End RoundTrip.

(** X23 ([ExportService.export_to_json], [ImportService.parse_json]): a
    JSON export of valid tasks that all have a description is imported
    back without an error, and gives for each task, in order, its title,
    description, priority, due date, tags and completion flag. *)
Theorem json_export_is_imported_back {P : Platform} {F : Formats}
  (tasks : list Task.t) :
  Forall (fun t => exportable t /\ reads_back t
                   /\ Task.description t <> None) tasks ->
  ImportService.parse_json (ExportService.export_to_json tasks)
  = (map reimported tasks, []).
Proof.
  intros Hall. exact (parse_json_items_exported tasks 1 Hall).
Qed.

(** X24 ([ExportService.export_to_json], [ImportService.parse_json]): a
    task without a description is exported with a null description, which
    validation accepts and the conversion cannot strip: the import of the
    export ends at that task with one line ["Unexpected error parsing
    JSON: ..."], and the tasks after it are neither imported nor
    reported. *)
Theorem json_export_without_description_ends_the_import
  {P : Platform} {F : Formats} (pre post : list Task.t) (t : Task.t) :
  Forall (fun t => exportable t /\ reads_back t
                   /\ Task.description t <> None) pre ->
  exportable t -> reads_back t ->
  Task.description t = None ->
  ImportService.parse_json (ExportService.export_to_json (pre ++ t :: post))
  = (map reimported pre,
     [ImportService.UnexpectedError ImportService.AttributeError]).
Proof.
  intros Hpre He Hr Hd.
  unfold ExportService.export_to_json, ImportService.parse_json.
  rewrite map_app.
  rewrite (parse_json_items_app _ _ 1 (exported_json_taken pre Hpre)).
  rewrite (parse_json_items_exported pre 1 Hpre).
  cbn [map ImportService.parse_json_items fst snd app].
  rewrite (validate_exported_json t He Hr), (json_task_dict_undescribed t Hd).
  cbn [fst snd app]. now rewrite app_nil_r.
Qed.

Lemma exported_task_fits :
  exportable exported_task
  /\ reads_back (P := epoch_platform) (F := epoch_formats) exported_task
  /\ Forall tag_clean (Task.tags exported_task).
Proof.
  split; [|split].
  - split; [|split].
    + split; [reflexivity|]. split; [discriminate|].
      split; [vm_compute; discriminate|]. split; [|simpl; tauto].
      intros d [= <-]. vm_compute. discriminate.
    + vm_compute. discriminate.
    + repeat constructor; vm_compute; discriminate.
  - intros d [= <-]. split; [discriminate|reflexivity].
  - repeat constructor; try discriminate; reflexivity.
Qed.

Lemma undescribed_task_fits :
  exportable undescribed_task
  /\ reads_back (P := epoch_platform) (F := epoch_formats) undescribed_task.
Proof.
  split.
  - split; [|split].
    + split; [reflexivity|]. split; [discriminate|].
      split; [vm_compute; discriminate|]. split; [|simpl; tauto].
      intros d [=].
    + vm_compute. discriminate.
    + constructor.
  - intros d [=].
Qed.

Lemma json_export_is_imported_back_example :
  Forall (fun t => exportable t
                   /\ reads_back (P := epoch_platform) (F := epoch_formats) t
                   /\ Task.description t <> None) [exported_task]
  /\ ImportService.parse_json (P := epoch_platform)
       (ExportService.export_to_json (F := epoch_formats) [exported_task])
     = ([ {| ImportService.td_title := "Medium Priority Task";
             ImportService.td_description := Some "Weekly";
             ImportService.td_priority := "medium";
             ImportService.td_due_date := Some (ImportService.Naive 50);
             ImportService.td_tags :=
               ImportService.VList
                 [ImportService.VStr "work"; ImportService.VStr "urgent"];
             ImportService.td_completed := ImportService.VBool false |} ],
        []).
Proof.
  assert (Hall : Forall (fun t => exportable t
                   /\ reads_back (P := epoch_platform) (F := epoch_formats) t
                   /\ Task.description t <> None) [exported_task]).
  { constructor; [|constructor].
    destruct exported_task_fits as (He & Hr & _).
    split; [exact He|]. split; [exact Hr|discriminate]. }
  split; [exact Hall|].
  exact (json_export_is_imported_back (P := epoch_platform)
           (F := epoch_formats) [exported_task] Hall).
Defined.

Lemma json_export_without_description_ends_the_import_example :
  Forall (fun t => exportable t
                   /\ reads_back (P := epoch_platform) (F := epoch_formats) t
                   /\ Task.description t <> None) [exported_task]
  /\ exportable undescribed_task
  /\ reads_back (P := epoch_platform) (F := epoch_formats) undescribed_task
  /\ Task.description undescribed_task = None
  /\ ImportService.parse_json (P := epoch_platform)
       (ExportService.export_to_json (F := epoch_formats)
          ([exported_task] ++ undescribed_task :: [exported_task]))
     = (map (reimported (P := epoch_platform) (F := epoch_formats))
          [exported_task],
        [ImportService.UnexpectedError ImportService.AttributeError]).
Proof.
  assert (Hall : Forall (fun t => exportable t
                   /\ reads_back (P := epoch_platform) (F := epoch_formats) t
                   /\ Task.description t <> None) [exported_task]).
  { constructor; [|constructor].
    destruct exported_task_fits as (He & Hr & _).
    split; [exact He|]. split; [exact Hr|discriminate]. }
  destruct undescribed_task_fits as (He & Hr).
  split; [exact Hall|]. split; [exact He|]. split; [exact Hr|].
  split; [reflexivity|].
  exact (json_export_without_description_ends_the_import
           (P := epoch_platform) (F := epoch_formats)
           [exported_task] [exported_task] undescribed_task
           Hall He Hr eq_refl).
Defined.

Section CsvRoundTrip.
Import ImportService.
Context {P : Platform} {F : Formats}.

Lemma dict_reader_exported (tasks : list Task.t) :
  dict_reader (ExportService.export_to_csv tasks) = map csv_dict tasks.
Proof.
  unfold dict_reader, ExportService.export_to_csv, csv_dict.
  induction tasks as [|t r IH]; [reflexivity|].
  cbn [map filter ExportService.csv_row]. now rewrite IH.
Qed.

Lemma tags_cell_read (tags : list string) :
  Forall tag_clean tags ->
  _parse_tags
    (VStr match tags with
          | [] => ""
          | tag :: r => String.concat "," (tag :: r)
          end) = Ok (VList (map VStr tags)).
Proof.
  intros Hall. destruct tags as [|tag r]; [reflexivity|].
  assert (Hne : tag <> "").
  { inversion Hall as [|? ? (Hn & _) _]; exact Hn. }
  unfold _parse_tags. cbn [truthy]. rewrite (join_truthy tag r Hne).
  cbn [negb]. now rewrite split_tags_join.
Qed.

Lemma description_cell_read (t : Task.t) :
  or_None
    (Py.strip match Task.description t with
              | Some d => if Py.truthy d then d else ""
              | None => ""
              end)
  = td_description (reimported t).
Proof.
  unfold reimported. cbn [td_description].
  destruct (Task.description t) as [d|]; [|reflexivity].
  destruct (Py.truthy d) eqn:E; [reflexivity|].
  apply truthy_false in E. now subst d.
Qed.

Lemma validate_exported_csv (t : Task.t) :
  exportable t -> reads_back t -> Forall tag_clean (Task.tags t) ->
  validate_imported_task (csv_dict t) = Ok (true, NoError).
Proof.
  intros ((Hstrip & Hne & Hlen & Hdesc & Hprio) & Hcount & Hshort)
    Hdate Hclean.
  eapply (validate_accepts (csv_dict t) (Task.title t) _ (Task.priority t));
    try reflexivity.
  - now rewrite Hstrip.
  - now rewrite Hstrip.
  - right.
    change (get "description" (VStr "") (csv_dict t))
      with (VStr match Task.description t with
                 | Some d => if Py.truthy d then d else ""
                 | None => ""
                 end).
    eexists. split; [reflexivity|].
    destruct (Task.description t) as [d|]; [|cbn; lia].
    destruct (Py.truthy d); [now apply Hdesc|cbn; lia].
  - now rewrite (lower_level _ Hprio).
  - change (get "due_date" VNone (csv_dict t))
      with (VStr match Task.due_date t with
                 | Some d => isoformat d
                 | None => ""
                 end).
    destruct (due_cell_read t Hdate) as (_ & Hread).
    unfold reimported in Hread. cbn [td_due_date] in Hread.
    destruct (Task.due_date t) as [d|]; [right|now left].
    eexists. exact Hread.
  - change (get "tags" VNone (csv_dict t))
      with (VStr match Task.tags t with
                 | [] => ""
                 | tag :: r => String.concat "," (tag :: r)
                 end).
    destruct (Task.tags t) as [|tag r] eqn:Et; [now left|].
    right. exists (map VStr (tag :: r)). split.
    + right. eexists. split; [reflexivity|].
      apply split_tags_join; [discriminate|exact Hclean].
    + rewrite length_map. split; [exact Hcount|].
      apply check_tags_short, tags_short, Hshort.
  - exists true. right.
    change (get "completed" (VBool false) (csv_dict t))
      with (VStr (ExportService.str_bool_lower (Task.completed t))).
    now destruct (Task.completed t).
Qed.

Lemma csv_task_dict_exported (t : Task.t) :
  exportable t -> reads_back t -> Forall tag_clean (Task.tags t) ->
  csv_task_dict (csv_dict t) = Ok (reimported t).
Proof.
  intros ((Hstrip & _ & _ & _ & Hprio) & _) Hdate Hclean.
  unfold csv_task_dict.
  change (get "title" (VStr "") (csv_dict t)) with (VStr (Task.title t)).
  change (get "description" (VStr "") (csv_dict t))
    with (VStr match Task.description t with
               | Some d => if Py.truthy d then d else ""
               | None => ""
               end).
  change (get "priority" (VStr "medium") (csv_dict t))
    with (VStr (Task.priority t)).
  change (get "due_date" VNone (csv_dict t))
    with (VStr match Task.due_date t with
               | Some d => isoformat d
               | None => ""
               end).
  change (get "tags" (VStr "") (csv_dict t))
    with (VStr match Task.tags t with
               | [] => ""
               | tag :: r => String.concat "," (tag :: r)
               end).
  change (get "completed" (VStr "false") (csv_dict t))
    with (VStr (ExportService.str_bool_lower (Task.completed t))).
  cbn [as_str and_then].
  rewrite (tags_cell_read _ Hclean). cbn [and_then].
  destruct (due_cell_read t Hdate) as (_ & ->).
  rewrite Hstrip, (description_cell_read t), (lower_level _ Hprio).
  unfold reimported. cbn [td_due_date td_description].
  now destruct (Task.completed t).
Qed.

Lemma parse_csv_rows_exported (tasks : list Task.t) : forall n,
  Forall (fun t => exportable t /\ reads_back t
                   /\ Forall tag_clean (Task.tags t)) tasks ->
  parse_csv_rows n (map csv_dict tasks) [] [] = (map reimported tasks, []).
Proof.
  induction tasks as [|t r IH]; intros n Hall; [reflexivity|].
  inversion Hall as [|? ? (He & Hr & Hc) Hrest]; subst.
  cbn [map parse_csv_rows].
  rewrite (validate_exported_csv t He Hr Hc),
    (csv_task_dict_exported t He Hr Hc).
  rewrite (parse_csv_rows_acc _ (n + 1) ([] ++ [reimported t]) []).
  now rewrite (IH (n + 1) Hrest).
Qed.

End CsvRoundTrip.

(** X25 ([ExportService.export_to_csv], [ImportService.parse_csv],
    [_parse_tags], [_parse_boolean], [_parse_datetime]): a CSV export of
    valid tasks whose tags are not blank, are stripped and hold no comma
    is imported back without an error, and gives for each task, in
    order, its title, description (none for an empty one), priority, due
    date, tags and completion flag. *)
Theorem csv_export_is_imported_back {P : Platform} {F : Formats}
  (tasks : list Task.t) :
  Forall (fun t => exportable t /\ reads_back t
                   /\ Forall tag_clean (Task.tags t)) tasks ->
  ImportService.parse_csv (dict_reader (ExportService.export_to_csv tasks))
  = (map reimported tasks, []).
Proof.
  intros Hall. rewrite dict_reader_exported.
  exact (parse_csv_rows_exported tasks 2 Hall).
Qed.

Lemma csv_export_is_imported_back_example :
  Forall (fun t => exportable t
                   /\ reads_back (P := epoch_platform) (F := epoch_formats) t
                   /\ Forall tag_clean (Task.tags t))
    [exported_task; undescribed_task]
  /\ ImportService.parse_csv (P := epoch_platform)
       (dict_reader
          (ExportService.export_to_csv (F := epoch_formats)
             [exported_task; undescribed_task]))
     = (map (reimported (P := epoch_platform) (F := epoch_formats))
          [exported_task; undescribed_task], []).
Proof.
  assert (Hall : Forall (fun t => exportable t
                   /\ reads_back (P := epoch_platform) (F := epoch_formats) t
                   /\ Forall tag_clean (Task.tags t))
                   [exported_task; undescribed_task]).
  { destruct exported_task_fits as (He & Hr & Hc).
    destruct undescribed_task_fits as (He' & Hr').
    constructor; [split; [exact He|]; split; [exact Hr|exact Hc]|].
    constructor; [|constructor].
    split; [exact He'|]. split; [exact Hr'|constructor]. }
  split; [exact Hall|].
  exact (csv_export_is_imported_back (P := epoch_platform)
           (F := epoch_formats) [exported_task; undescribed_task] Hall).
Defined.

(** ** Routes *)

Lemma try_except_Exception_reply {A}
  (body : Route A) db :
  (exists a, fst (try_route body Routes.except_Exception db) = Answer a)
  \/ fst (try_route body Routes.except_Exception db)
     = Fails (HTTPException 500 "Internal server error").
Proof.
  unfold try_route. destruct (body db) as [[a|e] db']; [left; now exists a|].
  now right.
Qed.

Lemma try_except_ValueError_reply {A}
  (body : Route A) db :
  (exists a, fst (try_route body Routes.except_ValueError db) = Answer a)
  \/ (exists msg, fst (try_route body Routes.except_ValueError db)
                  = Fails (HTTPException 400 msg))
  \/ fst (try_route body Routes.except_ValueError db)
     = Fails (HTTPException 500 "Internal server error").
Proof.
  unfold try_route. destruct (body db) as [[a|e] db']; [left; now exists a|].
  right. destruct e as [[msg|x|msg]|c d]; cbn; eauto.
Qed.

Lemma get_task_by_id_missing user_id task_id db :
  fst (TaskService.get_task_by_id user_id task_id db) = Return None ->
  TaskService.get_task_by_id user_id task_id db = (Return None, db).
Proof.
  intros H. rewrite get_task_by_id_resolve in *. cbn [fst] in H.
  now injection H as ->.
Qed.

(** X26 (routes [get_task], [update_task], [delete_task],
    [toggle_task_complete]): the single-task routes never answer 404.
    The [HTTPException] with status 404 they raise for a task that is not
    found is raised inside the [try] block, where [except Exception]
    turns it into status 500: for a task that does not exist or belongs
    to another user the four routes answer 500 "Internal server error"
    and leave the store as it is. *)
Theorem single_task_routes_never_answer_404 {F : Formats}
  (current_user_id : string) (user_id : UUID) (task_id : Z)
  (title description priority : option string) (due_date : option datetime)
  (tags : option (list string)) (done : bool) (db : Db) :
  ((forall detail,
       fst (Routes.get_task current_user_id user_id task_id db)
       <> Fails (HTTPException 404 detail))
   /\ (forall detail,
         fst (Routes.update_task current_user_id user_id task_id title
                description priority due_date tags db)
         <> Fails (HTTPException 404 detail))
   /\ (forall detail,
         fst (Routes.delete_task current_user_id user_id task_id db)
         <> Fails (HTTPException 404 detail))
   /\ (forall detail,
         fst (Routes.toggle_task_complete current_user_id user_id task_id
                done db)
         <> Fails (HTTPException 404 detail)))
  /\ (Routes.other_user current_user_id user_id = false ->
      fst (TaskService.get_task_by_id user_id task_id db) = Return None ->
      Routes.get_task current_user_id user_id task_id db
      = (Fails (HTTPException 500 "Internal server error"), db)
      /\ Routes.update_task current_user_id user_id task_id title
           description priority due_date tags db
         = (Fails (HTTPException 500 "Internal server error"), db)
      /\ Routes.delete_task current_user_id user_id task_id db
         = (Fails (HTTPException 500 "Internal server error"), db)
      /\ Routes.toggle_task_complete current_user_id user_id task_id done db
         = (Fails (HTTPException 500 "Internal server error"), db)).
Proof.
  split.
  - unfold Routes.get_task, Routes.update_task, Routes.delete_task,
      Routes.toggle_task_complete.
    destruct (Routes.other_user current_user_id user_id);
      [repeat split; intros detail; discriminate|].
    split; [|split; [|split]]; intros detail.
    + match goal with |- fst (try_route ?b _ _) <> _ =>
        destruct (try_except_Exception_reply b db) as [(a & ->)| ->]
      end; discriminate.
    + match goal with |- fst (try_route ?b _ _) <> _ =>
        destruct (try_except_ValueError_reply b db)
          as [(a & ->)|[(msg & ->)| ->]]
      end; discriminate.
    + match goal with |- fst (try_route ?b _ _) <> _ =>
        destruct (try_except_Exception_reply b db) as [(a & ->)| ->]
      end; discriminate.
    + match goal with |- fst (try_route ?b _ _) <> _ =>
        destruct (try_except_ValueError_reply b db)
          as [(a & ->)|[(msg & ->)| ->]]
      end; discriminate.
  - intros Huser Hmiss. apply get_task_by_id_missing in Hmiss.
    unfold Routes.get_task, Routes.update_task, Routes.delete_task,
      Routes.toggle_task_complete.
    rewrite Huser. unfold try_route, and_then, call.
    unfold TaskService.update_task, TaskService.delete_task,
      TaskService.toggle_complete, bind.
    rewrite Hmiss. repeat split; reflexivity.
Qed.

Lemma single_task_routes_never_answer_404_example :
  Routes.other_user (F := epoch_formats)
    "00000000-0000-0000-0000-000000000001" 1%N = false
  /\ fst (TaskService.get_task_by_id 1%N 5 sample_db) = Return None
  /\ Routes.get_task (F := epoch_formats)
       "00000000-0000-0000-0000-000000000001" 1%N 5 sample_db
     = (Fails (HTTPException 500 "Internal server error"), sample_db)
  /\ Routes.delete_task (F := epoch_formats)
       "00000000-0000-0000-0000-000000000001" 1%N 5 sample_db
     = (Fails (HTTPException 500 "Internal server error"), sample_db).
Proof.
  split; [reflexivity|]. split; [reflexivity|].
  destruct (single_task_routes_never_answer_404
              (F := epoch_formats) "00000000-0000-0000-0000-000000000001"
              1%N 5 None None None None None true sample_db)
    as (_ & Hmissing).
  destruct (Hmissing eq_refl eq_refl) as (Hget & _ & Hdelete & _).
  split; [exact Hget|exact Hdelete].
Defined.

(** X27 (routes [create_task], [get_tasks], [get_task], [update_task],
    [delete_task], [toggle_task_complete]): with a token whose user is
    not the user of the path, each of the six routes that the router
    registers without rate limiter answers 403 and neither reads nor
    changes the store, whatever the request holds. *)
Theorem routes_refuse_the_token_of_another_user
  {P : Platform} {F : Formats} (current_user_id : string) (user_id : UUID)
  (db : Db) :
  Routes.other_user current_user_id user_id = true ->
  (forall title description priority due_date tags,
      refused db
        (Routes.create_task current_user_id user_id title description
           priority due_date tags db))
  /\ (forall status priority due_date tags search sort sort_direction page
             limit_,
        refused db
          (Routes.get_tasks current_user_id user_id status priority
             due_date tags search sort sort_direction page limit_ db))
  /\ (forall task_id,
        refused db (Routes.get_task current_user_id user_id task_id db))
  /\ (forall task_id title description priority due_date tags,
        refused db
          (Routes.update_task current_user_id user_id task_id title
             description priority due_date tags db))
  /\ (forall task_id,
        refused db (Routes.delete_task current_user_id user_id task_id db))
  /\ (forall task_id done,
        refused db
          (Routes.toggle_task_complete current_user_id user_id task_id
             done db)).
Proof.
  intros Hother. unfold refused.
  unfold Routes.create_task, Routes.get_tasks, Routes.get_task,
    Routes.update_task, Routes.delete_task, Routes.toggle_task_complete.
  rewrite Hother. repeat split.
Qed.

Lemma routes_refuse_the_token_of_another_user_example :
  Routes.other_user (F := epoch_formats) "someone else" 1%N = true
  /\ refused sample_db
       (Routes.delete_task (F := epoch_formats)
          "someone else" 1%N 1 sample_db)
  /\ refused sample_db
       (Routes.update_task (F := epoch_formats)
          "someone else" 1%N 1 (Some "Mine now") None None None None
          sample_db).
Proof.
  split; [reflexivity|].
  destruct (routes_refuse_the_token_of_another_user (P := sample_platform)
              (F := epoch_formats) "someone else" 1%N sample_db eq_refl)
    as (_ & _ & _ & Hupdate & Hdelete & _).
  split; [exact (Hdelete 1)
         |exact (Hupdate 1 (Some "Mine now") None None None None)].
Defined.

Lemma page_slice_length {X} (page limit_ : Z) (l : list X) :
  0 <= limit_ -> Z.of_nat (List.length (page_slice page limit_ l)) <= limit_.
Proof.
  intros H. unfold page_slice. rewrite length_firstn. lia.
Qed.

Lemma total_pages_of_none limit_ : 1 <= limit_ -> total_pages 0 limit_ = 0.
Proof.
  intros H. unfold total_pages. destruct (Z.gtb_spec limit_ 0); [|lia].
  apply Z.div_small. lia.
Qed.

(** X28 (route [get_tasks] with [TaskService.get_tasks]): for a page
    whose offset (page - 1) * limit is below 2^63, which is as far as the
    store takes an OFFSET, the listing route answers 403, 400 or a page,
    not 500, and leaves the store as it is: its checks on [page] and
    [limit] keep the query away from a negative OFFSET or LIMIT, but put
    no upper bound on [page].  The page answered is the one of the
    service for the same arguments, it holds at most [limit] tasks,
    [totalPages] is the count divided by [limit] and rounded up, and the
    page is not empty exactly when its number is at most [totalPages]. *)
Theorem get_tasks_route_answers_a_page {P : Platform} {F : Formats}
  (current_user_id : string) (user_id : UUID) (status : string)
  (priority due_date tags search : option string)
  (sort sort_direction : string) (page limit_ : Z) (db : Db) :
  (page - 1) * limit_ < 2 ^ 63 ->
  match fst (Routes.get_tasks current_user_id user_id status priority
               due_date tags search sort sort_direction page limit_ db) with
  | Answer r =>
      1 <= page /\ 1 <= limit_ <= 100
      /\ TaskService.get_tasks user_id (Some status) priority due_date tags
           search (Some sort) (Some sort_direction) page limit_ db
         = (Return (data r, meta_total r), db)
      /\ meta_page r = page /\ meta_limit r = limit_
      /\ Z.of_nat (List.length (data r)) <= limit_
      /\ meta_total r <= meta_totalPages r * limit_ < meta_total r + limit_
      /\ (data r <> [] <-> page <= meta_totalPages r)
  | Fails (HTTPException status_code _) =>
      status_code = 403 \/ status_code = 400
  | Fails (Raised _) => False
  end
  /\ snd (Routes.get_tasks current_user_id user_id status priority
            due_date tags search sort sort_direction page limit_ db) = db.
Proof.
  intros Hoffset. unfold Routes.get_tasks.
  destruct (Routes.other_user current_user_id user_id);
    [split; [now left|reflexivity]|].
  destruct (Z.ltb_spec page 1) as [|Hpage]; [split; [now right|reflexivity]|].
  destruct (Z.ltb_spec limit_ 1) as [|Hlow];
    [split; [now right|reflexivity]|].
  rewrite Z.gtb_ltb.
  destruct (Z.ltb_spec 100 limit_) as [|Hhigh];
    [split; [now right|reflexivity]|].
  cbn [orb].
  destruct (Py.truthy status && _); [split; [now right|reflexivity]|].
  destruct (match priority with Some _ => _ | None => _ end);
    [split; [now right|reflexivity]|].
  destruct (Py.truthy sort && _); [split; [now right|reflexivity]|].
  destruct (Py.truthy sort_direction && _);
    [split; [now right|reflexivity]|].
  pose proof (get_tasks_run user_id (Some status) priority due_date tags
                search (Some sort) (Some sort_direction) page limit_ db
                ltac:(nia) ltac:(lia)) as Hrun.
  unfold try_route, and_then, call. rewrite Hrun. cbn [fst snd answer].
  split; [|reflexivity].
  set (rows := filter _ (txn db)).
  pose proof (total_pages_bounds (Z.of_nat (List.length rows)) limit_
                ltac:(lia) Hlow) as (Hpos & Hup & Hdown & Hlast).
  pose proof (page_slice_nonempty page limit_
                (sort_rows (chosen_ordering (Some sort) (Some sort_direction))
                   rows) Hpage Hlow) as Hne.
  rewrite sort_rows_length in Hne.
  cbn [data meta_total meta_page meta_limit meta_totalPages].
  split; [exact Hpage|]. split; [lia|]. split; [reflexivity|].
  split; [reflexivity|]. split; [reflexivity|].
  split; [apply page_slice_length; lia|]. split.
  { destruct (Z.eq_dec (Z.of_nat (List.length rows)) 0) as [E|E].
    - rewrite E, total_pages_of_none by exact Hlow. lia.
    - specialize (Hlast ltac:(lia)). lia. }
  rewrite Hne. split; intros H.
  - destruct (Z.le_gt_cases page
                (total_pages (Z.of_nat (List.length rows)) limit_))
      as [Hle|Hgt]; [exact Hle|].
    pose proof (Z.mul_le_mono_nonneg_r
                  (total_pages (Z.of_nat (List.length rows)) limit_)
                  (page - 1) limit_ ltac:(lia) ltac:(lia)).
    lia.
  - destruct (Z.eq_dec (Z.of_nat (List.length rows)) 0) as [E|E].
    + rewrite E, total_pages_of_none in H by exact Hlow. lia.
    + specialize (Hlast ltac:(lia)).
      pose proof (Z.mul_le_mono_nonneg_r (page - 1)
                    (total_pages (Z.of_nat (List.length rows)) limit_ - 1)
                    limit_ ltac:(lia) ltac:(lia)).
      lia.
Qed.

Lemma get_tasks_route_answers_a_page_example :
  (2 - 1) * 3 < 2 ^ 63
  /\ exists r,
       Routes.get_tasks (P := sample_platform) (F := epoch_formats)
         "00000000-0000-0000-0000-000000000001" 1%N "all" None None None
         None "created" "asc" 2 3 sample_db = (Answer r, sample_db)
       /\ meta_total r = 4 /\ meta_totalPages r = 2
       /\ Z.of_nat (List.length (data r)) <= 3.
Proof.
  assert (Ho : (2 - 1) * 3 < 2 ^ 63) by (vm_compute; reflexivity).
  split; [exact Ho|].
  pose proof (get_tasks_route_answers_a_page (P := sample_platform)
                (F := epoch_formats) "00000000-0000-0000-0000-000000000001"
                1%N "all" None None None None "created" "asc" 2 3 sample_db
                Ho) as [Hreply Hstore].
  destruct (Routes.get_tasks "00000000-0000-0000-0000-000000000001" 1%N
              "all" None None None None "created" "asc" 2 3 sample_db)
    as [[r|e] db'] eqn:E.
  - cbn [fst snd] in *. subst db'. exists r. split; [reflexivity|].
    destruct Hreply as (_ & _ & _ & _ & _ & Hlen & _).
    vm_compute in E. injection E as <-.
    split; [reflexivity|]. split; [reflexivity|]. exact Hlen.
  - vm_compute in E. discriminate E.
Defined.





